(** * pagerduty-operator: the PagerDuty provisioner and the Vault secret cache

    A shallow embedding of [pkg/pagerduty/service.go] and
    [pkg/vault/connection.go].  Both files are sequential orchestration code
    over outside services (the Kubernetes API, the PagerDuty REST client, the
    Vault client, the local file system and the clock).  The outside services
    are an abstract world that every call threads through; each call and its
    answer is appended to a log, so that statements such as "no service is
    created" or "exactly one remote read" are statements about that log. *)

From Stdlib Require Import ZArith String Ascii List Bool Lia.
From stdpp Require Import base option gmap strings.
Import ListNotations.

Local Open Scope Z_scope.
Set Warnings "-register-all".

(** ** Go values shared by the two packages *)

Module Go.

(** A value of Go's [error] interface.  [errorString] is what [errors.New]
    builds, [NumError] is [*strconv.NumError]; an error made by a client
    library or by the operating system is a [libError]: the text of its
    [Error()] method and the verdict of [os.IsNotExist] on it. *)
Inductive error : Type :=
| errorString (s : string)
| NumError (Func Num : string) (Err : error)
| libError (msg : string) (notExist : bool).

Definition errors_New (text : string) : error := errorString text.

Definition dquote : string := String (ascii_of_nat 34) EmptyString.

(** [strconv.Quote] on text that needs no escape (printable ASCII other
    than the quote and the backslash). *)
Definition Quote (s : string) : string := dquote +:+ s +:+ dquote.

(** The [Error()] method. *)
Fixpoint Error (e : error) : string :=
  match e with
  | errorString s => s
  | NumError f n e' =>
      "strconv." +:+ f +:+ ": parsing " +:+ Quote n +:+ ": " +:+ Error e'
  | libError msg _ => msg
  end.

(** [os.IsNotExist]; it answers [false] on a nil error. *)
Definition os_IsNotExist (err : option error) : bool :=
  match err with
  | Some (libError _ b) => b
  | _ => false
  end.

(** [strings.Contains]. *)
Fixpoint Contains (s substr : string) : bool :=
  String.prefix substr s
  || match s with
     | EmptyString => false
     | String _ s' => Contains s' substr
     end.

(** The answer of a library call that returns a pointer and an error: the
    libraries used here return a nil pointer together with a non-nil error,
    and a non-nil pointer together with a nil error. *)
Inductive result (T : Type) : Type :=
| Ok (t : T)
| Err (e : error).
Arguments Ok {T} t.
Arguments Err {T} e.

(** What running a function gives: it returns, or the goroutine panics. *)
Inductive outcome (A : Type) : Type :=
| Returned (a : A)
| Panicked (msg : string).
Arguments Returned {A} a.
Arguments Panicked {A} msg.

(** Code running against a state [S]. *)
Definition M (S A : Type) : Type := S -> outcome A * S.

Definition ret {S A} (a : A) : M S A := fun s => (Returned a, s).

Definition bind {S A B} (m : M S A) (k : A -> M S B) : M S B :=
  fun s =>
    match m s with
    | (Returned a, s') => k a s'
    | (Panicked msg, s') => (Panicked msg, s')
    end.

Definition panic {S A} (msg : string) : M S A := fun s => (Panicked msg, s).

Definition gets {S A} (f : S -> A) : M S A := fun s => (Returned (f s), s).

Definition modify {S} (f : S -> S) : M S unit := fun s => (Returned tt, f s).

Definition nil_dereference : string :=
  "runtime error: invalid memory address or nil pointer dereference".

End Go.

Export Go.

Declare Scope go_scope.
Delimit Scope go_scope with go.
Notation "x <- m ;; k" := (bind m (fun x => k))
  (at level 100, m at next level, right associativity) : go_scope.
Notation "m ;;; k" := (bind m (fun _ => k))
  (at level 100, right associativity) : go_scope.

(** [strconv.ParseUint(s, 10, 32)]: decimal digits only, no sign, at most
    [2^32 - 1]; the scan stops at the first offending byte. *)
Module strconv.

Definition ErrSyntax : error := errors_New "invalid syntax".
Definition ErrRange : error := errors_New "value out of range".

Definition maxVal32 : Z := 2 ^ 32 - 1.

Definition digit (c : ascii) : option Z :=
  let n := Z.of_nat (nat_of_ascii c) in
  if (48 <=? n) && (n <=? 57) then Some (n - 48) else None.

Fixpoint scan (s0 s : string) (n : Z) : Z * option error :=
  match s with
  | EmptyString => (n, None)
  | String c s' =>
      match digit c with
      | None => (0, Some (NumError "ParseUint" s0 ErrSyntax))
      | Some d =>
          let n1 := n * 10 + d in
          if maxVal32 <? n1
          then (maxVal32, Some (NumError "ParseUint" s0 ErrRange))
          else scan s0 s' n1
      end
  end.

Definition ParseUint10_32 (s : string) : Z * option error :=
  match s with
  | EmptyString => (0, Some (NumError "ParseUint" s ErrSyntax))
  | _ => scan s s 0
  end.

End strconv.

(** ** The Kubernetes client, as far as the two packages use it

    [osc.Get] fills a [corev1.Secret] or a [corev1.ConfigMap]; only the [Data]
    map of the object is read afterwards.  A [[]byte] and the [string] made
    from it are the same bytes. *)
Module k8s.

Record NamespacedName : Type := {
  Namespace : string;
  Name : string
}.

Record Client : Type := {
  GetSecret : NamespacedName -> result (gmap string string);
  GetConfigMap : NamespacedName -> result (gmap string string)
}.

End k8s.

(** ** github.com/PagerDuty/go-pagerduty: the objects and the calls used *)
Module pdApi.

Record EscalationPolicy : Type := {
  EscalationPolicy_ID : string;
  EscalationPolicy_Name : string
}.

Record Service : Type := {
  Service_ID : string;
  Service_Name : string;
  Service_Description : string;
  Service_EscalationPolicy : EscalationPolicy;
  Service_AutoResolveTimeout : option Z;
  Service_AcknowledgementTimeout : option Z;
  Service_AlertCreation : string
}.

Record Integration : Type := {
  Integration_ID : string;
  Integration_Name : string;
  Integration_Type : string;
  Integration_IntegrationKey : string
}.

Record ListServiceOptions : Type := { Query : string }.

Record ListServiceResponse : Type := { Services : list Service }.

Record Client : Type := { authToken : string }.

Definition NewClient (authToken : string) : Client :=
  {| authToken := authToken |}.

(** The REST calls, answered by the outside world [W]. *)
Class API (W : Type) : Type := {
  GetService : Client -> string -> W -> result Service * W;
  GetIntegration : Client -> string -> string -> W -> result Integration * W;
  GetEscalationPolicy : Client -> string -> W -> result EscalationPolicy * W;
  CreateService : Client -> Service -> W -> result Service * W;
  ListServices :
    Client -> ListServiceOptions -> W -> result ListServiceResponse * W;
  CreateIntegration :
    Client -> string -> Integration -> W -> result Integration * W;
  DeleteService : Client -> string -> W -> option error * W
}.

(** One entry of the log: the call, its arguments and its answer. *)
Inductive Call : Type :=
| CallGetService (c : Client) (id : string) (r : result Service)
| CallGetIntegration (c : Client) (serviceID integrationID : string)
    (r : result Integration)
| CallGetEscalationPolicy (c : Client) (id : string)
    (r : result EscalationPolicy)
| CallCreateService (c : Client) (s : Service) (r : result Service)
| CallListServices (c : Client) (o : ListServiceOptions)
    (r : result ListServiceResponse)
| CallCreateIntegration (c : Client) (id : string) (i : Integration)
    (r : result Integration)
| CallDeleteService (c : Client) (id : string) (r : option error).

Definition isOk {T} (r : result T) : bool :=
  match r with Ok _ => true | Err _ => false end.

(** A service-creation call is one that was attempted; a service is
    created when the call was answered with a service. *)
Definition isCreateServiceCall (c : Call) : bool :=
  match c with CallCreateService _ _ _ => true | _ => false end.

Definition createsService (c : Call) : bool :=
  match c with CallCreateService _ _ r => isOk r | _ => false end.

Definition isCreateIntegrationCall (c : Call) : bool :=
  match c with CallCreateIntegration _ _ _ _ => true | _ => false end.

Definition createsIntegration (c : Call) : bool :=
  match c with CallCreateIntegration _ _ _ r => isOk r | _ => false end.

Definition count (p : Call -> bool) (log : list Call) : nat :=
  List.length (List.filter p log).

End pdApi.

(** ** pkg/pagerduty/service.go *)
Module pagerduty.

Import pdApi.

Definition getConfigMapKey (data : gmap string string) (key : string)
  : string * option error :=
  match data !! key with
  | None => ("", Some (errors_New (key +:+ " does not exist")))
  | Some retString =>
      if Nat.leb (String.length retString) 0
      then ("", Some (errors_New (key +:+ " is empty")))
      else (retString, None)
  end.

Definition getSecretKey (data : gmap string string) (key : string)
  : string * option error :=
  match data !! key with
  | None => ("", Some (errors_New (key +:+ " does not exist")))
  | Some retString =>
      if Nat.leb (String.length retString) 0
      then ("", Some (errors_New (key +:+ " is empty")))
      else (retString, None)
  end.

Definition convertStrToUint (value : string) : Z * option error :=
  let retVal := 0 in
  match strconv.ParseUint10_32 value with
  | (_, Some err) => (retVal, Some err)
  | (parsedU64, None) => (parsedU64, None)
  end.

(** Data describes the data that is needed for PagerDuty api calls. *)
Record Data : Type := {
  escalationPolicyID : string;
  autoResolveTimeout : Z;
  acknowledgeTimeOut : Z;
  servicePrefix : string;
  APIKey : string;
  ClusterID : string;
  BaseDomain : string;
  ServiceID : string;
  IntegrationID : string
}.

Definition set_escalationPolicyID (v : string) (d : Data) : Data :=
  {| escalationPolicyID := v;
     autoResolveTimeout := autoResolveTimeout d;
     acknowledgeTimeOut := acknowledgeTimeOut d;
     servicePrefix := servicePrefix d; APIKey := APIKey d;
     ClusterID := ClusterID d; BaseDomain := BaseDomain d;
     ServiceID := ServiceID d; IntegrationID := IntegrationID d |}.

Definition set_autoResolveTimeout (v : Z) (d : Data) : Data :=
  {| escalationPolicyID := escalationPolicyID d;
     autoResolveTimeout := v;
     acknowledgeTimeOut := acknowledgeTimeOut d;
     servicePrefix := servicePrefix d; APIKey := APIKey d;
     ClusterID := ClusterID d; BaseDomain := BaseDomain d;
     ServiceID := ServiceID d; IntegrationID := IntegrationID d |}.

Definition set_acknowledgeTimeOut (v : Z) (d : Data) : Data :=
  {| escalationPolicyID := escalationPolicyID d;
     autoResolveTimeout := autoResolveTimeout d;
     acknowledgeTimeOut := v;
     servicePrefix := servicePrefix d; APIKey := APIKey d;
     ClusterID := ClusterID d; BaseDomain := BaseDomain d;
     ServiceID := ServiceID d; IntegrationID := IntegrationID d |}.

Definition set_servicePrefix (v : string) (d : Data) : Data :=
  {| escalationPolicyID := escalationPolicyID d;
     autoResolveTimeout := autoResolveTimeout d;
     acknowledgeTimeOut := acknowledgeTimeOut d;
     servicePrefix := v; APIKey := APIKey d;
     ClusterID := ClusterID d; BaseDomain := BaseDomain d;
     ServiceID := ServiceID d; IntegrationID := IntegrationID d |}.

Definition set_APIKey (v : string) (d : Data) : Data :=
  {| escalationPolicyID := escalationPolicyID d;
     autoResolveTimeout := autoResolveTimeout d;
     acknowledgeTimeOut := acknowledgeTimeOut d;
     servicePrefix := servicePrefix d; APIKey := v;
     ClusterID := ClusterID d; BaseDomain := BaseDomain d;
     ServiceID := ServiceID d; IntegrationID := IntegrationID d |}.

Definition set_ServiceID (v : string) (d : Data) : Data :=
  {| escalationPolicyID := escalationPolicyID d;
     autoResolveTimeout := autoResolveTimeout d;
     acknowledgeTimeOut := acknowledgeTimeOut d;
     servicePrefix := servicePrefix d; APIKey := APIKey d;
     ClusterID := ClusterID d; BaseDomain := BaseDomain d;
     ServiceID := v; IntegrationID := IntegrationID d |}.

Definition set_IntegrationID (v : string) (d : Data) : Data :=
  {| escalationPolicyID := escalationPolicyID d;
     autoResolveTimeout := autoResolveTimeout d;
     acknowledgeTimeOut := acknowledgeTimeOut d;
     servicePrefix := servicePrefix d; APIKey := APIKey d;
     ClusterID := ClusterID d; BaseDomain := BaseDomain d;
     ServiceID := ServiceID d; IntegrationID := v |}.

Definition pdSecretName : k8s.NamespacedName :=
  {| k8s.Namespace := "pagerduty-operator"; k8s.Name := "pagerduty-api-key" |}.

(** ParsePDConfig parses the PD secret and stores it in the struct.  The
    receiver is passed in and handed back: an assignment
    [data.f, err = g(...)] stores the first component also when [err] is
    not nil. *)
Definition ParsePDConfig (osc : k8s.Client) (data : Data)
  : option error * Data :=
  match k8s.GetSecret osc pdSecretName with
  | Err err => (Some err, data)
  | Ok pdAPISecret =>
      let '(v, err) := getSecretKey pdAPISecret "PAGERDUTY_API_KEY" in
      let data := set_APIKey v data in
      match err with Some e => (Some e, data) | None =>
      let '(v, err) := getSecretKey pdAPISecret "ESCALATION_POLICY" in
      let data := set_escalationPolicyID v data in
      match err with Some e => (Some e, data) | None =>
      let '(autoResolveTimeoutStr, err) :=
        getSecretKey pdAPISecret "RESOLVE_TIMEOUT" in
      match err with Some e => (Some e, data) | None =>
      let '(n, err) := convertStrToUint autoResolveTimeoutStr in
      let data := set_autoResolveTimeout n data in
      match err with Some e => (Some e, data) | None =>
      let '(acknowledgeTimeStr, err) :=
        getSecretKey pdAPISecret "ACKNOWLEDGE_TIMEOUT" in
      match err with Some e => (Some e, data) | None =>
      let '(n, err) := convertStrToUint acknowledgeTimeStr in
      let data := set_acknowledgeTimeOut n data in
      match err with Some e => (Some e, data) | None =>
      let '(v, err) := getSecretKey pdAPISecret "SERVICE_PREFIX" in
      let data := set_servicePrefix v data in
      let data :=
        match err with
        | Some _ => set_servicePrefix "osd" data
        | None => data
        end in
      (None, data)
      end end end end end end
  end.

(** ParseClusterConfig parses the cluster specific config map and stores
    the IDs in the data struct. *)
Definition ParseClusterConfig (osc : k8s.Client) (namespace name : string)
    (data : Data) : option error * Data :=
  match k8s.GetConfigMap osc
          {| k8s.Namespace := namespace; k8s.Name := name +:+ "-pd-config" |}
  with
  | Err err => (Some err, data)
  | Ok pdAPIConfigMap =>
      let '(v, err) := getConfigMapKey pdAPIConfigMap "SERVICE_ID" in
      let data := set_ServiceID v data in
      match err with Some e => (Some e, data) | None =>
      let '(v, err) := getConfigMapKey pdAPIConfigMap "INTEGRATION_ID" in
      let data := set_IntegrationID v data in
      match err with Some e => (Some e, data) | None =>
      (None, data)
      end end
  end.

Local Open Scope go_scope.

Section Calls.

Context {W : Type} `{!API W}.

(** The receiver [data *Data], the outside world and the log of the
    calls made so far. *)
Record State : Type := {
  receiver : Data;
  upstream : W;
  calls : list Call
}.

Definition call {R : Type} (op : W -> R * W) (entry : R -> Call)
  : M State R :=
  fun s =>
    let '(r, w) := op (upstream s) in
    (Returned r,
     {| receiver := receiver s; upstream := w;
        calls := calls s ++ [entry r] |}).

Definition assign (f : Data -> Data) : M State unit :=
  modify (fun s =>
    {| receiver := f (receiver s); upstream := upstream s;
       calls := calls s |}).

(** GetService searches the PD API for an already existing service. *)
Definition GetService : M State (option Service * option error) :=
  data <- gets receiver ;;
  let client := NewClient (APIKey data) in
  r <- call (pdApi.GetService client (ServiceID data))
            (CallGetService client (ServiceID data)) ;;
  match r with
  | Err err => ret (None, Some err)
  | Ok service => ret (Some service, None)
  end.

(** GetIntegrationKey searches the PD API for an already existing
    service and returns the first integration key. *)
Definition GetIntegrationKey : M State (string * option error) :=
  data <- gets receiver ;;
  let client := NewClient (APIKey data) in
  r <- call (pdApi.GetIntegration client (ServiceID data)
               (IntegrationID data))
            (CallGetIntegration client (ServiceID data)
               (IntegrationID data)) ;;
  match r with
  | Err err => ret ("", Some err)
  | Ok integration => ret (Integration_IntegrationKey integration, None)
  end.

Definition serviceName (data : Data) : string :=
  servicePrefix data +:+ "-" +:+ ClusterID data +:+ "." +:+
  BaseDomain data +:+ "-hive-cluster".

Definition clusterServiceOf (data : Data)
    (escalationPolicy : EscalationPolicy) : Service :=
  {| Service_ID := "";
     Service_Name := serviceName data;
     Service_Description :=
       ClusterID data +:+ " - A managed hive created cluster";
     Service_EscalationPolicy := escalationPolicy;
     Service_AutoResolveTimeout := Some (autoResolveTimeout data);
     Service_AcknowledgementTimeout := Some (acknowledgeTimeOut data);
     Service_AlertCreation := "create_alerts_and_incidents" |}.

Definition clusterIntegration : Integration :=
  {| Integration_ID := "";
     Integration_Name := "V4 Alertmanager";
     Integration_Type := "events_api_v2_inbound_integration";
     Integration_IntegrationKey := "" |}.

(** The loop over [currentSvcs.Services]: it stops at the first service
    whose name is the wanted one. *)
Fixpoint firstNamed (name : string) (svcs : list Service)
  : option Service :=
  match svcs with
  | [] => None
  | svc :: rest =>
      if String.eqb (Service_Name svc) name then Some svc
      else firstNamed name rest
  end.

(** CreateService creates a service in pagerduty for the specified
    clusterid and returns the service key.  [inl newSvc] below is the
    state in which [newSvc] is not nil after the creation block. *)
Definition CreateService : M State (string * option error) :=
  data <- gets receiver ;;
  let client := NewClient (APIKey data) in
  r <- call (pdApi.GetEscalationPolicy client (escalationPolicyID data))
            (CallGetEscalationPolicy client (escalationPolicyID data)) ;;
  match r with
  | Err _ =>
      ret ("", Some (errors_New "Escalation policy not found in PagerDuty"))
  | Ok escalationPolicy =>
      let clusterService := clusterServiceOf data escalationPolicy in
      r <- call (pdApi.CreateService client clusterService)
                (CallCreateService client clusterService) ;;
      newSvc <-
        match r with
        | Ok newSvc => ret (inl newSvc)
        | Err err =>
            if negb (Contains (Error err) "Name has already been taken")
            then ret (inr err)
            else
              let lso := {| Query := Service_Name clusterService |} in
              lr <- call (pdApi.ListServices client lso)
                         (CallListServices client lso) ;;
              match lr with
              | Err newerr => ret (inr err)
              | Ok currentSvcs =>
                  match firstNamed (Service_Name clusterService)
                          (Services currentSvcs) with
                  | Some svc => ret (inl svc)
                  | None => ret (inr err)
                  end
              end
        end ;;
      match newSvc with
      | inr err => ret ("", Some err)
      | inl newSvc =>
          assign (set_ServiceID (Service_ID newSvc)) ;;;
          r <- call (pdApi.CreateIntegration client (Service_ID newSvc)
                       clusterIntegration)
                    (CallCreateIntegration client (Service_ID newSvc)
                       clusterIntegration) ;;
          match r with
          | Err err => ret ("", Some err)
          | Ok newInt =>
              assign (set_IntegrationID (Integration_ID newInt)) ;;;
              data <- gets receiver ;;
              ret (IntegrationID data, None)
          end
      end
  end.

(** DeleteService will get a service from the PD api and delete it. *)
Definition DeleteService : M State (option error) :=
  data <- gets receiver ;;
  let client := NewClient (APIKey data) in
  call (pdApi.DeleteService client (ServiceID data))
       (CallDeleteService client (ServiceID data)).

(** A call of a method on [data] against the world [w], with an empty
    log. *)
Definition start (data : Data) (w : W) : State :=
  {| receiver := data; upstream := w; calls := [] |}.

End Calls.

Arguments State W : clear implicits.

End pagerduty.

(** ** github.com/hashicorp/vault/api, os, io/ioutil and time: what is used *)
Module host.

(** A decoded JSON value held in an [interface{}]: the Vault client decodes
    numbers as [json.Number], which is a string type.  The entries of a
    [VMap] are those of a Go map, listed by key; a Go map has no two entries
    with one key. *)
Inductive value : Type :=
| VNil
| VBool (b : bool)
| VNumber (s : string)
| VString (s : string)
| VSlice (l : list value)
| VMap (entries : list (string * value)).

(** [fmt.Sprintf("%v", v)]. *)
Fixpoint Sprintv (v : value) : string :=
  match v with
  | VNil => "<nil>"
  | VBool b => if b then "true" else "false"
  | VNumber s => s
  | VString s => s
  | VSlice l =>
      "[" +:+
      (fix elems (l : list value) : string :=
         match l with
         | [] => ""
         | x :: l' =>
             match l' with
             | [] => Sprintv x
             | _ :: _ => Sprintv x +:+ " " +:+ elems l'
             end
         end) l +:+ "]"
  | VMap entries =>
      "map[" +:+
      (fix elems (l : list (string * value)) : string :=
         match l with
         | [] => ""
         | (k, x) :: l' =>
             match l' with
             | [] => k +:+ ":" +:+ Sprintv x
             | _ :: _ => k +:+ ":" +:+ Sprintv x +:+ " " +:+ elems l'
             end
         end) entries +:+ "]"
  end.

(** The type assertion [x.(map[string]interface{})] on a map lookup; a
    missing key gives the nil interface, on which the assertion fails. *)
Definition assertMap (x : option value) : option (list (string * value)) :=
  match x with
  | Some (VMap entries) => Some entries
  | _ => None
  end.

(** [api.Secret]. *)
Record Secret : Type := {
  Secret_Data : gmap string value;
  Secret_Warnings : list string
}.

Record Config : Type := { Address : string }.

Record Client : Type := {
  Client_config : Config;
  Client_token : string
}.

Definition SetToken (c : Client) (v : string) : Client :=
  {| Client_config := Client_config c; Client_token := v |}.

(** [os.FileInfo], of which only [ModTime()] is read, and [*os.File]. *)
Record FileInfo : Type := { ModTime : Z }.

Record File : Type := { File_name : string }.

(** [time.Time] as nanoseconds since the epoch, [time.Duration] as
    nanoseconds. *)
Definition Hour : Z := 3600 * 1000000000.
Definition Add (t d : Z) : Z := t + d.
Definition Before (t u : Z) : bool := t <? u.

(** The outside calls.  [Logical_Read] answers [Ok None] when the client
    returns a nil secret with a nil error (nothing at the path). *)
Class Host (W : Type) : Type := {
  api_NewClient : Config -> W -> result Client * W;
  Logical_Read : Client -> string -> W -> result (option Secret) * W;
  os_Stat : string -> W -> result FileInfo * W;
  os_Remove : string -> W -> option error * W;
  os_Create : string -> W -> result File * W;
  File_WriteString : File -> string -> W -> option error * W;
  ioutil_ReadFile : string -> W -> result string * W;
  time_Now : W -> Z * W
}.

Inductive Call : Type :=
| CallNewClient (c : Config) (r : result Client)
| CallRead (c : Client) (path : string) (r : result (option Secret))
| CallStat (path : string) (r : result FileInfo)
| CallRemove (path : string) (r : option error)
| CallCreate (path : string) (r : result File)
| CallWriteString (f : File) (s : string) (r : option error)
| CallReadFile (path : string) (r : result string)
| CallNow (t : Z)
| LogInfo (msg : string)
| LogError (err : error) (msg : string).

(** What the log is asked.  Every run of [queryVault] opens with its only
    [api.NewClient] call and makes its only [Logical().Read] call when
    that one succeeds, so the [api.NewClient] calls count the remote reads
    undertaken and the [Logical().Read] calls those that reached the
    server.  A write of the cache file is an [os.Create] call (followed by
    [WriteString] when it succeeds); a read of the cache file is an
    [ioutil.ReadFile] call. *)
Definition isNewClient (c : Call) : bool :=
  match c with CallNewClient _ _ => true | _ => false end.

Definition isLogicalRead (c : Call) : bool :=
  match c with CallRead _ _ _ => true | _ => false end.

Definition isFileWrite (c : Call) : bool :=
  match c with CallCreate _ _ => true | _ => false end.

Definition isFileRead (c : Call) : bool :=
  match c with CallReadFile _ _ => true | _ => false end.

Definition isRemove (c : Call) : bool :=
  match c with CallRemove _ _ => true | _ => false end.

Definition count (p : Call -> bool) (log : list Call) : nat :=
  List.length (List.filter p log).

End host.

(** ** pkg/vault/connection.go *)
Module vault.

Import host.
Local Open Scope go_scope.

Definition getDataKey (data : gmap string string) (key : string)
  : string * option error :=
  match data !! key with
  | None => ("", Some (errors_New (key +:+ " is not set.")))
  | Some retString =>
      if Nat.leb (String.length retString) 0
      then ("", Some (errors_New (key +:+ " is empty")))
      else (retString, None)
  end.

(** Data describes a struct that we will use to pass data from vault to
    other functions. *)
Record Data : Type := {
  Namespace : string;
  SecretName : string;
  Path : string;
  Property : string;
  URL : string;
  Token : string;
  Mount : string;
  Key : string
}.

Definition set_Path (v : string) (d : Data) : Data :=
  {| Namespace := Namespace d; SecretName := SecretName d; Path := v;
     Property := Property d; URL := URL d; Token := Token d;
     Mount := Mount d; Key := Key d |}.

Definition set_Property (v : string) (d : Data) : Data :=
  {| Namespace := Namespace d; SecretName := SecretName d; Path := Path d;
     Property := v; URL := URL d; Token := Token d;
     Mount := Mount d; Key := Key d |}.

Definition set_URL (v : string) (d : Data) : Data :=
  {| Namespace := Namespace d; SecretName := SecretName d; Path := Path d;
     Property := Property d; URL := v; Token := Token d;
     Mount := Mount d; Key := Key d |}.

Definition set_Token (v : string) (d : Data) : Data :=
  {| Namespace := Namespace d; SecretName := SecretName d; Path := Path d;
     Property := Property d; URL := URL d; Token := v;
     Mount := Mount d; Key := Key d |}.

Definition set_Mount (v : string) (d : Data) : Data :=
  {| Namespace := Namespace d; SecretName := SecretName d; Path := Path d;
     Property := Property d; URL := URL d; Token := Token d;
     Mount := v; Key := Key d |}.

Definition set_Key (v : string) (d : Data) : Data :=
  {| Namespace := Namespace d; SecretName := SecretName d; Path := Path d;
     Property := Property d; URL := URL d; Token := Token d;
     Mount := Mount d; Key := v |}.

Section Calls.

Context {W : Type} `{!Host W}.

Record State : Type := {
  receiver : Data;
  outside : W;
  calls : list Call
}.

Definition call {R : Type} (op : W -> R * W) (entry : R -> Call)
  : M State R :=
  fun s =>
    let '(r, w) := op (outside s) in
    (Returned r,
     {| receiver := receiver s; outside := w;
        calls := calls s ++ [entry r] |}).

Definition note (entry : Call) : M State unit :=
  modify (fun s =>
    {| receiver := receiver s; outside := outside s;
       calls := calls s ++ [entry] |}).

Definition assign (f : Data -> Data) : M State unit :=
  modify (fun s =>
    {| receiver := f (receiver s); outside := outside s;
       calls := calls s |}).

Definition log_Info (msg : string) : M State unit := note (LogInfo msg).

Definition log_Error (err : error) (msg : string) : M State unit :=
  note (LogError err msg).

Definition saveSecret (path value : string) : M State (option error) :=
  _ <- call (os_Remove path) (CallRemove path) ;;
  r <- call (os_Create path) (CallCreate path) ;;
  match r with
  | Err err =>
      log_Error err "Failed to create temp file" ;;;
      ret (Some err)
  | Ok file =>
      werr <- call (File_WriteString file value)
                   (CallWriteString file value) ;;
      match werr with
      | Some err =>
          log_Error err "Failed to write to temp file" ;;;
          ret (Some err)
      | None => ret None
      end
  end.

(** The warnings, from the last to the first. *)
Fixpoint logEach (msgs : list string) : M State unit :=
  match msgs with
  | [] => ret tt
  | m :: rest => log_Info m ;;; logEach rest
  end.

(** The loop over the entries of [secret]. *)
Fixpoint scanProps (property : string) (secret : list (string * value))
  : string * option error :=
  match secret with
  | [] => ("", Some (errors_New (property +:+ " not set in vault")))
  | (propName, propValue) :: rest =>
      if String.eqb propName property
      then
        let value := Sprintv propValue in
        if Nat.leb (String.length value) 0
        then ("", Some (errors_New (property +:+ " is empty")))
        else (value, None)
      else scanProps property rest
  end.

(** What [queryVault] does with the answer of [Read] once it has a
    secret that is not nil. *)
Definition readProperty (property : string) (vault : Secret)
  : M State (string * option error) :=
  match assertMap (Secret_Data vault !! "data") with
  | None => ret ("", Some (errors_New "Error parsing secret data"))
  | Some secret =>
      logEach (rev (Secret_Warnings vault)) ;;;
      if Nat.eqb (size (Secret_Data vault)) 0
      then ret ("", Some (errors_New "Vault data is empty"))
      else ret (scanProps property secret)
  end.

Definition queryVault : M State (string * option error) :=
  data <- gets receiver ;;
  let vaultFullPath := Mount data +:+ "/data/" +:+ Path data in
  r <- call (api_NewClient {| Address := URL data |})
            (CallNewClient {| Address := URL data |}) ;;
  match r with
  | Err err => ret ("", Some err)
  | Ok client =>
      let client := SetToken client (Token data) in
      r <- call (Logical_Read client vaultFullPath)
                (CallRead client vaultFullPath) ;;
      match r with
      | Err err => ret ("", Some err)
      | Ok None => panic nil_dereference
      | Ok (Some vault) => readProperty (Property data) vault
      end
  end.

(** One step [data.f, err = getDataKey(...)] followed by the test of
    [err]. *)
Definition fetchKey (vaultConfig : gmap string string) (key : string)
    (set : string -> Data -> Data)
    (next : M State (string * option error))
  : M State (string * option error) :=
  let '(v, err) := getDataKey vaultConfig key in
  assign (set v) ;;;
  match err with
  | Some e => ret ("", Some e)
  | None => next
  end.

Definition tempFilePathOf (data : Data) : string :=
  "/tmp/" +:+ Mount data +:+ "-" +:+ Property data.

(** The condition of the [if]: [os.IsNotExist(err)] first, and the
    modification time of [tempFile] only when that is false. *)
Definition mustFetch (st : result FileInfo) : M State bool :=
  let err := match st with Ok _ => None | Err e => Some e end in
  if os_IsNotExist err then ret true
  else
    match st with
    | Err _ => panic nil_dereference
    | Ok tempFile =>
        now <- call time_Now CallNow ;;
        ret (Before (ModTime tempFile) (Add now (Hour * -6)))
    end.

(** The body of the [if]: it hands back [Some r] when the function
    returns [r] from inside it, and [None] when control falls through
    to the read of the file. *)
Definition fetchAndSave (tempFilePath : string)
  : M State (option (string * option error)) :=
  r <- queryVault ;;
  match r with
  | (_, Some err) => ret (Some ("", Some err))
  | (secret, None) =>
      err <- saveSecret tempFilePath secret ;;
      match err with
      | Some err =>
          log_Error err "Failed to save secret" ;;;
          ret (Some (secret, None))
      | None => ret None
      end
  end.

(** From [fileDat, err := ioutil.ReadFile(tempFilePath)] to the end. *)
Definition readCache (tempFilePath : string)
  : M State (string * option error) :=
  r <- call (ioutil_ReadFile tempFilePath) (CallReadFile tempFilePath) ;;
  match r with
  | Err err =>
      log_Error err "Failed to read file - removing" ;;;
      _ <- call (os_Remove tempFilePath) (CallRemove tempFilePath) ;;
      queryVault
  | Ok fileDat => ret (fileDat, None)
  end.

(** From [tempFilePath := ...] to the end of [GetVaultSecret]. *)
Definition readThrough : M State (string * option error) :=
  data <- gets receiver ;;
  let tempFilePath := tempFilePathOf data in
  st <- call (os_Stat tempFilePath) (CallStat tempFilePath) ;;
  fetch <- mustFetch st ;;
  early <- (if fetch : bool then fetchAndSave tempFilePath
            else ret None) ;;
  match early with
  | Some r => ret r
  | None => readCache tempFilePath
  end.

(** GetVaultSecret Gets a designed token from vault.  Vault creds are
    stored in a k8s secret. *)
Definition GetVaultSecret (osc : k8s.Client)
  : M State (string * option error) :=
  data <- gets receiver ;;
  match k8s.GetSecret osc
          {| k8s.Namespace := Namespace data;
             k8s.Name := SecretName data |} with
  | Err err => ret ("", Some err)
  | Ok vaultConfig =>
      fetchKey vaultConfig "VAULT_URL" set_URL
     (fetchKey vaultConfig "VAULT_TOKEN" set_Token
     (fetchKey vaultConfig "VAULT_MOUNT" set_Mount
     (fetchKey vaultConfig "VAULT_KEY" set_Key
     (fetchKey vaultConfig "VAULT_PROPERTY" set_Property
     (fetchKey vaultConfig "VAULT_PATH" set_Path
      readThrough)))))
  end.

Definition start (data : Data) (w : W) : State :=
  {| receiver := data; outside := w; calls := [] |}.

End Calls.

Arguments State W : clear implicits.

End vault.

(** ** In-memory outside worlds, to run the code on concrete inputs *)

(** A PagerDuty account: its escalation policies, services and integrations.
    Names of services are unique; an outage makes the creation calls fail. *)
Module fakepd.

Import pdApi.

Record World : Type := {
  policies : list EscalationPolicy;
  services : list Service;
  integrations : list (string * Integration);
  freshIDs : list string;
  serviceOutage : option error;
  integrationOutage : option error
}.

Definition notFound : error :=
  libError "Failed call API endpoint. HTTP response code: 404." false.

Definition nameTaken : error :=
  libError
    "Failed call API endpoint. HTTP response code: 400. Error: &{2001 Invalid Input Provided [Name has already been taken]}"
    false.

Definition hasID (id : string) (s : Service) : bool :=
  String.eqb (Service_ID s) id.

Definition withID (id : string) (s : Service) : Service :=
  {| Service_ID := id;
     Service_Name := Service_Name s;
     Service_Description := Service_Description s;
     Service_EscalationPolicy := Service_EscalationPolicy s;
     Service_AutoResolveTimeout := Service_AutoResolveTimeout s;
     Service_AcknowledgementTimeout := Service_AcknowledgementTimeout s;
     Service_AlertCreation := Service_AlertCreation s |}.

Definition nextID (w : World) : string * list string :=
  match freshIDs w with
  | [] => ("P000000", [])
  | id :: rest => (id, rest)
  end.

Definition fakeGetService (_ : Client) (id : string) (w : World)
  : result Service * World :=
  match List.find (hasID id) (services w) with
  | Some s => (Ok s, w)
  | None => (Err notFound, w)
  end.

Definition fakeGetIntegration (_ : Client) (sid iid : string) (w : World)
  : result Integration * World :=
  match List.find
          (fun p => String.eqb (fst p) sid
                    && String.eqb (Integration_ID (snd p)) iid)
          (integrations w) with
  | Some p => (Ok (snd p), w)
  | None => (Err notFound, w)
  end.

Definition fakeGetEscalationPolicy (_ : Client) (id : string) (w : World)
  : result EscalationPolicy * World :=
  match List.find (fun p => String.eqb (EscalationPolicy_ID p) id)
          (policies w) with
  | Some p => (Ok p, w)
  | None => (Err notFound, w)
  end.

Definition fakeCreateService (_ : Client) (s : Service) (w : World)
  : result Service * World :=
  match serviceOutage w with
  | Some e => (Err e, w)
  | None =>
      if List.existsb
           (fun t => String.eqb (Service_Name t) (Service_Name s))
           (services w)
      then (Err nameTaken, w)
      else
        let '(id, rest) := nextID w in
        let s' := withID id s in
        (Ok s',
         {| policies := policies w;
            services := services w ++ [s'];
            integrations := integrations w;
            freshIDs := rest;
            serviceOutage := serviceOutage w;
            integrationOutage := integrationOutage w |})
  end.

Definition fakeListServices (_ : Client) (o : ListServiceOptions)
    (w : World) : result ListServiceResponse * World :=
  (Ok {| Services :=
           List.filter (fun s => Contains (Service_Name s) (Query o))
             (services w) |}, w).

Definition fakeCreateIntegration (_ : Client) (sid : string)
    (i : Integration) (w : World) : result Integration * World :=
  match integrationOutage w with
  | Some e => (Err e, w)
  | None =>
      if List.existsb (hasID sid) (services w)
      then
        let '(id, rest) := nextID w in
        let i' :=
          {| Integration_ID := id;
             Integration_Name := Integration_Name i;
             Integration_Type := Integration_Type i;
             Integration_IntegrationKey := "key-" +:+ id |} in
        (Ok i',
         {| policies := policies w;
            services := services w;
            integrations := integrations w ++ [(sid, i')];
            freshIDs := rest;
            serviceOutage := serviceOutage w;
            integrationOutage := integrationOutage w |})
      else (Err notFound, w)
  end.

Definition fakeDeleteService (_ : Client) (id : string) (w : World)
  : option error * World :=
  if List.existsb (hasID id) (services w)
  then
    (None,
     {| policies := policies w;
        services := List.filter (fun s => negb (hasID id s)) (services w);
        integrations :=
          List.filter (fun p => negb (String.eqb (fst p) id))
            (integrations w);
        freshIDs := freshIDs w;
        serviceOutage := serviceOutage w;
        integrationOutage := integrationOutage w |})
  else (Some notFound, w).

#[export] Instance fakeAPI : API World := {
  GetService := fakeGetService;
  GetIntegration := fakeGetIntegration;
  GetEscalationPolicy := fakeGetEscalationPolicy;
  CreateService := fakeCreateService;
  ListServices := fakeListServices;
  CreateIntegration := fakeCreateIntegration;
  DeleteService := fakeDeleteService
}.

(** Sample data: one escalation policy, a cluster [abc123] under
    [example.com], and an account in which the cluster's service and an
    older service with a longer name already exist. *)
Definition policy : EscalationPolicy :=
  {| EscalationPolicy_ID := "PESC001"; EscalationPolicy_Name := "SRE" |}.

Definition data0 : pagerduty.Data :=
  {| pagerduty.escalationPolicyID := "PESC001";
     pagerduty.autoResolveTimeout := 300;
     pagerduty.acknowledgeTimeOut := 600;
     pagerduty.servicePrefix := "osd";
     pagerduty.APIKey := "apikey";
     pagerduty.ClusterID := "abc123";
     pagerduty.BaseDomain := "example.com";
     pagerduty.ServiceID := "";
     pagerduty.IntegrationID := "INTOLD" |}.

Definition existing (id name : string) : Service :=
  {| Service_ID := id;
     Service_Name := name;
     Service_Description := "";
     Service_EscalationPolicy := policy;
     Service_AutoResolveTimeout := None;
     Service_AcknowledgementTimeout := None;
     Service_AlertCreation := "create_alerts_and_incidents" |}.

Definition emptyAccount : World :=
  {| policies := [policy]; services := []; integrations := [];
     freshIDs := ["PNEW001"; "PNEW002"; "PNEW003"];
     serviceOutage := None; integrationOutage := None |}.

Definition takenAccount : World :=
  {| policies := [policy];
     services :=
       [existing "POLD001" "osd-abc123.example.com-hive-cluster-old";
        existing "POLD002" "osd-abc123.example.com-hive-cluster"];
     integrations := [];
     freshIDs := ["PNEW001"; "PNEW002"; "PNEW003"];
     serviceOutage := None; integrationOutage := None |}.

Definition serverError : error :=
  libError "Failed call API endpoint. HTTP response code: 500." false.

Definition withIntegrationOutage (w : World) : World :=
  {| policies := policies w; services := services w;
     integrations := integrations w; freshIDs := freshIDs w;
     serviceOutage := serviceOutage w;
     integrationOutage := Some serverError |}.

Definition withServiceOutage (e : error) (w : World) : World :=
  {| policies := policies w; services := services w;
     integrations := integrations w; freshIDs := freshIDs w;
     serviceOutage := Some e;
     integrationOutage := integrationOutage w |}.

(** The operator's secret without a [SERVICE_PREFIX], and one in which it
    is there but empty. *)
Definition pdSecret : gmap string string :=
  list_to_map
    [("PAGERDUTY_API_KEY", "apikey");
     ("ESCALATION_POLICY", "PESC001");
     ("RESOLVE_TIMEOUT", "300");
     ("ACKNOWLEDGE_TIMEOUT", "600")].

Definition cluster (secret : gmap string string) : k8s.Client :=
  {| k8s.GetSecret := fun _ => Ok secret;
     k8s.GetConfigMap := fun _ => Err notFound |}.

Definition sampleClient : Client := NewClient "apikey".

Definition sampleName : string := "osd-abc123.example.com-hive-cluster".

Definition sampleListing : ListServiceResponse :=
  {| Services :=
       [existing "POLD001" "osd-abc123.example.com-hive-cluster-old";
        existing "POLD002" sampleName] |}.

Definition sampleIntegration : Integration :=
  {| Integration_ID := "PNEW001";
     Integration_Name := "V4 Alertmanager";
     Integration_Type := "events_api_v2_inbound_integration";
     Integration_IntegrationKey := "key-PNEW001" |}.

Definition sampleAdoptionLog : list Call :=
  [CallGetEscalationPolicy sampleClient "PESC001" (Ok policy);
   CallCreateService sampleClient
     (pagerduty.clusterServiceOf data0 policy) (Err nameTaken);
   CallListServices sampleClient {| Query := sampleName |}
     (Ok sampleListing)].

Definition withoutPolicies (w : World) : World :=
  {| policies := []; services := services w;
     integrations := integrations w; freshIDs := freshIDs w;
     serviceOutage := serviceOutage w;
     integrationOutage := integrationOutage w |}.

End fakepd.

(** A host with a file system, a clock that stands still and a Vault server
    with one fixed answer.  The faults make the matching call fail. *)
Module fakehost.

Import host.

Record World : Type := {
  files : gmap string (string * Z);
  clock : Z;
  statFault : option error;
  readFault : option error;
  createFault : option error;
  writeFault : option error;
  vaultAnswer : result (option Secret)
}.

Definition withFiles (fs : gmap string (string * Z)) (w : World) : World :=
  {| files := fs; clock := clock w; statFault := statFault w;
     readFault := readFault w; createFault := createFault w;
     writeFault := writeFault w; vaultAnswer := vaultAnswer w |}.

Definition noEntry (op path : string) : error :=
  libError (op +:+ " " +:+ path +:+ ": no such file or directory") true.

Definition denied (op path : string) : error :=
  libError (op +:+ " " +:+ path +:+ ": permission denied") false.

Definition fakeNewClient (c : Config) (w : World) : result Client * World :=
  (Ok {| Client_config := c; Client_token := "" |}, w).

Definition fakeRead (_ : Client) (_ : string) (w : World)
  : result (option Secret) * World :=
  (vaultAnswer w, w).

Definition fakeStat (path : string) (w : World) : result FileInfo * World :=
  match statFault w with
  | Some e => (Err e, w)
  | None =>
      match files w !! path with
      | Some (_, t) => (Ok {| ModTime := t |}, w)
      | None => (Err (noEntry "stat" path), w)
      end
  end.

Definition fakeRemove (path : string) (w : World) : option error * World :=
  match files w !! path with
  | Some _ => (None, withFiles (delete path (files w)) w)
  | None => (Some (noEntry "remove" path), w)
  end.

Definition fakeCreate (path : string) (w : World) : result File * World :=
  match createFault w with
  | Some e => (Err e, w)
  | None =>
      (Ok {| File_name := path |},
       withFiles (<[path := ("", clock w)]> (files w)) w)
  end.

Definition fakeWriteString (f : File) (s : string) (w : World)
  : option error * World :=
  match writeFault w with
  | Some e => (Some e, w)
  | None =>
      let old :=
        match files w !! File_name f with
        | Some (c, _) => c
        | None => ""
        end in
      (None, withFiles (<[File_name f := (old +:+ s, clock w)]> (files w)) w)
  end.

Definition fakeReadFile (path : string) (w : World)
  : result string * World :=
  match readFault w with
  | Some e => (Err e, w)
  | None =>
      match files w !! path with
      | Some (c, _) => (Ok c, w)
      | None => (Err (noEntry "open" path), w)
      end
  end.

Definition fakeNow (w : World) : Z * World := (clock w, w).

#[export] Instance fakeHost : Host World := {
  api_NewClient := fakeNewClient;
  Logical_Read := fakeRead;
  os_Stat := fakeStat;
  os_Remove := fakeRemove;
  os_Create := fakeCreate;
  File_WriteString := fakeWriteString;
  ioutil_ReadFile := fakeReadFile;
  time_Now := fakeNow
}.

(** Sample data: the connection secret of the operator, a KV-v2 answer
    holding the property, and a clock at ten hours after the epoch. *)
Definition vaultConfig : gmap string string :=
  list_to_map
    [("VAULT_URL", "https://vault.example.com");
     ("VAULT_TOKEN", "s.token");
     ("VAULT_MOUNT", "kv");
     ("VAULT_KEY", "key");
     ("VAULT_PROPERTY", "password");
     ("VAULT_PATH", "osd/pagerduty")].

Definition osc : k8s.Client :=
  {| k8s.GetSecret := fun _ => Ok vaultConfig;
     k8s.GetConfigMap := fun _ => Ok ∅ |}.

Definition data0 : vault.Data :=
  {| vault.Namespace := "pagerduty-operator";
     vault.SecretName := "vault-config";
     vault.Path := ""; vault.Property := ""; vault.URL := "";
     vault.Token := ""; vault.Mount := ""; vault.Key := "" |}.

Definition data1 : vault.Data :=
  {| vault.Namespace := "pagerduty-operator";
     vault.SecretName := "vault-config";
     vault.Path := "osd/pagerduty"; vault.Property := "password";
     vault.URL := "https://vault.example.com";
     vault.Token := "s.token"; vault.Mount := "kv"; vault.Key := "key" |}.

Definition answer (payload : list (string * value)) : Secret :=
  {| Secret_Data := list_to_map payload; Secret_Warnings := [] |}.

Definition goodAnswer : Secret :=
  answer [("data", VMap [("password", VString "hunter2");
                         ("user", VString "sre")]);
          ("metadata", VMap [("version", VNumber "3")])].

Definition now0 : Z := 10 * Hour.

Definition bare : World :=
  {| files := ∅; clock := now0; statFault := None; readFault := None;
     createFault := None; writeFault := None;
     vaultAnswer := Ok (Some goodAnswer) |}.

Definition cachePath : string := "/tmp/kv-password".

Definition withCache (contents : string) (mtime : Z) (w : World) : World :=
  withFiles (<[cachePath := (contents, mtime)]> (files w)) w.

Definition withStatFault (e : error) (w : World) : World :=
  {| files := files w; clock := clock w; statFault := Some e;
     readFault := readFault w; createFault := createFault w;
     writeFault := writeFault w; vaultAnswer := vaultAnswer w |}.

Definition withReadFault (e : error) (w : World) : World :=
  {| files := files w; clock := clock w; statFault := statFault w;
     readFault := Some e; createFault := createFault w;
     writeFault := writeFault w; vaultAnswer := vaultAnswer w |}.

Definition withCreateFault (e : error) (w : World) : World :=
  {| files := files w; clock := clock w; statFault := statFault w;
     readFault := readFault w; createFault := Some e;
     writeFault := writeFault w; vaultAnswer := vaultAnswer w |}.

Definition withVaultAnswer (a : result (option Secret)) (w : World)
  : World :=
  {| files := files w; clock := clock w; statFault := statFault w;
     readFault := readFault w; createFault := createFault w;
     writeFault := writeFault w; vaultAnswer := a |}.

Definition unreachable : error :=
  libError "Get https://vault.example.com/v1/kv/data/osd/pagerduty: dial tcp: connection refused" false.

(** The hosts of the examples: the cache file written five hours ago,
    seven hours ago, written five hours ago but unreadable, behind a path
    that cannot be examined, in a directory where no file can be created;
    a host whose Vault server cannot be reached; and a host on which the
    file never becomes readable. *)
Definition freshHost : World := withCache "cached" (5 * Hour) bare.

Definition staleHost : World := withCache "cached" (3 * Hour) bare.

Definition unreadableHost : World :=
  withReadFault (denied "open" cachePath) freshHost.

Definition lockedHost : World :=
  withStatFault (denied "stat" cachePath) freshHost.

Definition readOnlyHost : World :=
  withCreateFault (denied "open" cachePath) bare.

Definition downHost : World := withVaultAnswer (Err unreachable) bare.

Definition opaqueHost : World :=
  withReadFault (denied "open" cachePath) bare.

Definition brokenAnswer : Secret := answer [("data", VString "oops")].

Definition hollowAnswer : Secret := answer [("data", VMap [])].

Definition blankAnswer : Secret :=
  answer [("data", VMap [("user", VString "sre");
                         ("password", VString "")])].

Definition sampleVaultClient : Client :=
  {| Client_config := {| Address := "https://vault.example.com" |};
     Client_token := "" |}.

Definition freshLog : list Call :=
  [CallStat cachePath (Ok {| ModTime := 5 * Hour |}); CallNow now0].

Definition staleLog : list Call :=
  [CallStat cachePath (Ok {| ModTime := 3 * Hour |}); CallNow now0].

Definition absentLog : list Call :=
  [CallStat cachePath (Err (noEntry "stat" cachePath))].

End fakehost.

(** ** Situations the statements below speak about *)

Section ProvisioningSituations.

Import pdApi pagerduty.
Context {W : Type} `{!API W}.

Definition nameTakenText : string := "Name has already been taken".

(** The escalation policy resolves and the service is created: [svc] is the
    new service, [w'] the world afterwards, [log] the calls made. *)
Definition serviceCreated (data : Data) (w : W) (svc : Service) (w' : W)
    (log : list Call) : Prop :=
  let client := NewClient (APIKey data) in
  exists ep w1,
    pdApi.GetEscalationPolicy client (escalationPolicyID data) w
      = (Ok ep, w1)
    /\ pdApi.CreateService client (clusterServiceOf data ep) w1
      = (Ok svc, w')
    /\ log =
         [CallGetEscalationPolicy client (escalationPolicyID data) (Ok ep);
          CallCreateService client (clusterServiceOf data ep) (Ok svc)].

(** The escalation policy resolves, the creation fails with the
    duplicate-name error, and [svc] is the first service of the listing
    whose name is exactly the derived name. *)
Definition serviceAdopted (data : Data) (w : W) (svc : Service) (w' : W)
    (log : list Call) : Prop :=
  let client := NewClient (APIKey data) in
  let lso := {| Query := serviceName data |} in
  exists ep w1 e w2 resp before after,
    pdApi.GetEscalationPolicy client (escalationPolicyID data) w
      = (Ok ep, w1)
    /\ pdApi.CreateService client (clusterServiceOf data ep) w1
      = (Err e, w2)
    /\ Contains (Error e) nameTakenText = true
    /\ pdApi.ListServices client lso w2 = (Ok resp, w')
    /\ Services resp = before ++ svc :: after
    /\ Service_Name svc = serviceName data
    /\ (forall s, In s before -> Service_Name s <> serviceName data)
    /\ log =
         [CallGetEscalationPolicy client (escalationPolicyID data) (Ok ep);
          CallCreateService client (clusterServiceOf data ep) (Err e);
          CallListServices client lso (Ok resp)].

End ProvisioningSituations.

Section CacheSituations.

Import host vault.
Context {W : Type} `{!Host W}.

(** The connection secret is found and its six keys resolve; [data'] is
    the receiver once they are stored. *)
Definition resolves (osc : k8s.Client) (data data' : Data) : Prop :=
  exists vaultConfig url token mount key property path,
    k8s.GetSecret osc
      {| k8s.Namespace := Namespace data; k8s.Name := SecretName data |}
      = Ok vaultConfig
    /\ getDataKey vaultConfig "VAULT_URL" = (url, None)
    /\ getDataKey vaultConfig "VAULT_TOKEN" = (token, None)
    /\ getDataKey vaultConfig "VAULT_MOUNT" = (mount, None)
    /\ getDataKey vaultConfig "VAULT_KEY" = (key, None)
    /\ getDataKey vaultConfig "VAULT_PROPERTY" = (property, None)
    /\ getDataKey vaultConfig "VAULT_PATH" = (path, None)
    /\ data' =
         {| Namespace := Namespace data; SecretName := SecretName data;
            Path := path; Property := property; URL := url;
            Token := token; Mount := mount; Key := key |}.

(** The cache file is absent, or was modified more than six hours before
    now.  [w'] is the world after the check and [log] the calls it made. *)
Definition cacheMissing (path : string) (w w' : W) (log : list Call)
  : Prop :=
  (exists e,
      os_Stat path w = (Err e, w')
      /\ os_IsNotExist (Some e) = true
      /\ log = [CallStat path (Err e)])
  \/ (exists fi w1 now,
        os_Stat path w = (Ok fi, w1)
        /\ time_Now w1 = (now, w')
        /\ 6 * Hour < now - ModTime fi
        /\ log = [CallStat path (Ok fi); CallNow now]).

(** The cache file is there and was modified at most six hours before
    now: this is when the code takes it as fresh. *)
Definition cacheFresh (path : string) (w w' : W) (log : list Call)
  : Prop :=
  exists fi w1 now,
    os_Stat path w = (Ok fi, w1)
    /\ time_Now w1 = (now, w')
    /\ now - ModTime fi <= 6 * Hour
    /\ log = [CallStat path (Ok fi); CallNow now].

(** The state in which the receiver is [data], the world [w] and the log
    [log]. *)
Definition at_ (data : Data) (w : W) (log : list Call) : State W :=
  {| receiver := data; outside := w; calls := log |}.

Definition logged (s : State W) (entries : list Call) : State W :=
  {| receiver := receiver s; outside := outside s;
     calls := calls s ++ entries |}.

(** What a piece of code leaves behind: the receiver untouched and some
    entries added to the log. *)
Definition extends (s s' : State W) (entries : list Call) : Prop :=
  receiver s' = receiver s /\ calls s' = calls s ++ entries.

End CacheSituations.

(** ** Measures and samples for the remaining code *)

Section Decimal.

(** The bytes ['0'] to ['9'], and the number a string of them writes. *)
Definition isDecimalDigit (c : ascii) : bool :=
  (48 <=? Z.of_nat (nat_of_ascii c)) && (Z.of_nat (nat_of_ascii c) <=? 57).

Definition digitValue (c : ascii) : Z := Z.of_nat (nat_of_ascii c) - 48.

Fixpoint allDigits (s : string) : bool :=
  match s with
  | EmptyString => true
  | String c s' => isDecimalDigit c && allDigits s'
  end.

Fixpoint decimalFrom (n : Z) (s : string) : Z :=
  match s with
  | EmptyString => n
  | String c s' => decimalFrom (n * 10 + digitValue c) s'
  end.

End Decimal.

Section MoreSituations.

Import host.

Definition isStat (c : Call) : bool :=
  match c with CallStat _ _ => true | _ => false end.

Definition isWriteString (c : Call) : bool :=
  match c with CallWriteString _ _ _ => true | _ => false end.

(** The keys of the connection secret, in the order in which
    [GetVaultSecret] reads them. *)
Definition vaultKeys : list string :=
  ["VAULT_URL"; "VAULT_TOKEN"; "VAULT_MOUNT"; "VAULT_KEY"; "VAULT_PROPERTY";
   "VAULT_PATH"].

(** The property is an entry of the nested map, with value [v]. *)
Definition located (property : string) (entries : list (string * value))
    (v : value) : Prop :=
  exists before after,
    entries = before ++ (property, v) :: after
    /\ forall kv, In kv before -> fst kv <> property.

Definition emptyText (v : value) : bool :=
  match v with
  | VString EmptyString => true
  | VNumber EmptyString => true
  | _ => false
  end.

(** Bounds on what a log holds: stats of the cache file, runs of
    [queryVault], [Logical().Read] calls, writes and reads of the file. *)
Definition within (log : list Call)
    (stats clients reads writes fileReads : nat) : Prop :=
  (count isStat log <= stats)%nat
  /\ (count isNewClient log <= clients)%nat
  /\ (count isLogicalRead log <= reads)%nat
  /\ (count isFileWrite log <= writes)%nat
  /\ (count isFileRead log <= fileReads)%nat.

End MoreSituations.

(** Sample objects of the cluster for the configuration readers. *)
Module samples.

Definition pdSecretWithPrefix : gmap string string :=
  <["SERVICE_PREFIX" := "stage"]> fakepd.pdSecret.

Definition pdSecretBadTimeout : gmap string string :=
  <["RESOLVE_TIMEOUT" := "5m"]> fakepd.pdSecret.

Definition clusterConfigMap : gmap string string :=
  list_to_map [("SERVICE_ID", "POLD002"); ("INTEGRATION_ID", "PNEW001")].

Definition clusterClient (cm : gmap string string) : k8s.Client :=
  {| k8s.GetSecret := fun _ => Err fakepd.notFound;
     k8s.GetConfigMap :=
       fun key =>
         if String.eqb (k8s.Name key) "abc123-pd-config"
         then Ok cm else Err fakepd.notFound |}.

(** A connection secret without its token, and one that points to another
    path on another server but to the same mount and property. *)
Definition oscWithoutToken : k8s.Client :=
  {| k8s.GetSecret := fun _ => Ok (delete "VAULT_TOKEN" fakehost.vaultConfig);
     k8s.GetConfigMap := fun _ => Ok ∅ |}.

Definition otherVaultConfig : gmap string string :=
  <["VAULT_PATH" := "osd/other"]>
    (<["VAULT_URL" := "https://vault2.example.com"]> fakehost.vaultConfig).

Definition oscOther : k8s.Client :=
  {| k8s.GetSecret := fun _ => Ok otherVaultConfig;
     k8s.GetConfigMap := fun _ => Ok ∅ |}.

Definition dataOther : vault.Data :=
  {| vault.Namespace := "pagerduty-operator";
     vault.SecretName := "vault-config";
     vault.Path := "osd/other"; vault.Property := "password";
     vault.URL := "https://vault2.example.com";
     vault.Token := "s.token"; vault.Mount := "kv"; vault.Key := "key" |}.

(** Answers of Vault: the property null, the property missing, and an
    answer with two warnings. *)
Definition nullAnswer : host.Secret :=
  fakehost.answer [("data", host.VMap [("password", host.VNil)])].

Definition otherAnswer : host.Secret :=
  fakehost.answer [("data", host.VMap [("user", host.VString "sre")])].

Definition warnedAnswer : host.Secret :=
  {| host.Secret_Data := host.Secret_Data fakehost.goodAnswer;
     host.Secret_Warnings := ["first"; "second"] |}.

Definition answering (a : host.Secret) : fakehost.World :=
  fakehost.withVaultAnswer (Ok (Some a)) fakehost.bare.

(** An upstream that gives one fixed answer to each kind of call. *)
Record Script : Type := {
  policyAnswer : result pdApi.EscalationPolicy;
  createAnswer : result pdApi.Service;
  listAnswer : result pdApi.ListServiceResponse;
  integrationAnswer : result pdApi.Integration
}.

#[export] Instance scriptAPI : pdApi.API Script := {
  pdApi.GetService := fun _ _ w => (Err fakepd.notFound, w);
  pdApi.GetIntegration := fun _ _ _ w => (Err fakepd.notFound, w);
  pdApi.GetEscalationPolicy := fun _ _ w => (policyAnswer w, w);
  pdApi.CreateService := fun _ _ w => (createAnswer w, w);
  pdApi.ListServices := fun _ _ w => (listAnswer w, w);
  pdApi.CreateIntegration := fun _ _ _ w => (integrationAnswer w, w);
  pdApi.DeleteService := fun _ _ w => (Some fakepd.notFound, w)
}.

Definition listingDown : Script :=
  {| policyAnswer := Ok fakepd.policy;
     createAnswer := Err fakepd.nameTaken;
     listAnswer := Err fakepd.serverError;
     integrationAnswer := Ok fakepd.sampleIntegration |}.

End samples.

(** * Properties *)

(** ** Counting calls *)

Lemma pd_count_app (p : pdApi.Call -> bool) (l1 l2 : list pdApi.Call) :
  pdApi.count p (l1 ++ l2) = (pdApi.count p l1 + pdApi.count p l2)%nat.
Proof.
  unfold pdApi.count. rewrite List.filter_app, List.length_app. reflexivity.
Qed.

Lemma host_count_app (p : host.Call -> bool) (l1 l2 : list host.Call) :
  host.count p (l1 ++ l2) = (host.count p l1 + host.count p l2)%nat.
Proof.
  unfold host.count. rewrite List.filter_app, List.length_app. reflexivity.
Qed.

(** ** The provisioner *)

(** Running a method symbolically: unfold the plumbing, then feed the answer
    of each outside call in turn. *)
Ltac pd_unfold :=
  unfold pagerduty.CreateService, bind, gets, pagerduty.call, ret,
    pagerduty.assign, modify, pagerduty.start.

Ltac pd_step H :=
  cbn [pagerduty.receiver pagerduty.upstream pagerduty.calls];
  rewrite H;
  cbn [pagerduty.receiver pagerduty.upstream pagerduty.calls].

Section Provisioning.

Import pdApi pagerduty.
Context {W : Type} `{!API W}.

Lemma firstNamed_skips (name : string) (before : list Service)
    (rest : list Service) :
  (forall s, In s before -> Service_Name s <> name) ->
  firstNamed name (before ++ rest) = firstNamed name rest.
Proof.
  induction before as [|s before IH]; intros Hno; simpl.
  - reflexivity.
  - destruct (String.eqb (Service_Name s) name) eqn:E.
    + apply String.eqb_eq in E. exfalso. apply (Hno s); [now left | exact E].
    + apply IH. intros t Ht. apply Hno. now right.
Qed.

Lemma firstNamed_first (name : string) (before after : list Service)
    (svc : Service) :
  Service_Name svc = name ->
  (forall s, In s before -> Service_Name s <> name) ->
  firstNamed name (before ++ svc :: after) = Some svc.
Proof.
  intros Hname Hno. rewrite firstNamed_skips by exact Hno.
  simpl. apply String.eqb_eq in Hname. now rewrite Hname.
Qed.

Lemma firstNamed_none (name : string) (svcs : list Service) :
  (forall s, In s svcs -> Service_Name s <> name) ->
  firstNamed name svcs = None.
Proof.
  intros Hno. rewrite <- (List.app_nil_r svcs).
  now rewrite firstNamed_skips.
Qed.

(** Once a service is at hand, created or adopted, its ID is stored and
    one integration-creation call is made; the answer of that call decides
    the rest. *)
Lemma CreateService_after_service (data : Data) (w : W) (svc : Service)
    (w' : W) (log : list Call) (r : result Integration) (w'' : W) :
  serviceCreated data w svc w' log \/ serviceAdopted data w svc w' log ->
  pdApi.CreateIntegration (NewClient (APIKey data)) (Service_ID svc)
    clusterIntegration w' = (r, w'') ->
  CreateService (start data w) =
    match r with
    | Ok newInt =>
        (Returned (Integration_ID newInt, None),
         {| receiver :=
              set_IntegrationID (Integration_ID newInt)
                (set_ServiceID (Service_ID svc) data);
            upstream := w'';
            calls :=
              log ++ [CallCreateIntegration (NewClient (APIKey data))
                        (Service_ID svc) clusterIntegration r] |})
    | Err err =>
        (Returned ("", Some err),
         {| receiver := set_ServiceID (Service_ID svc) data;
            upstream := w'';
            calls :=
              log ++ [CallCreateIntegration (NewClient (APIKey data))
                        (Service_ID svc) clusterIntegration r] |})
    end.
Proof.
  intros [Hc | Ha] Hint.
  - destruct Hc as (ep & w1 & Hep & Hcr & ->).
    pd_unfold. pd_step Hep. pd_step Hcr. pd_step Hint.
    destruct r; reflexivity.
  - destruct Ha as (ep & w1 & e & w2 & resp & before & after &
                    Hep & Hcr & Hdup & Hls & Hsplit & Hname & Hno & ->).
    pd_unfold. pd_step Hep. pd_step Hcr.
    fold nameTakenText. rewrite Hdup. cbn [negb].
    change (Service_Name (clusterServiceOf data ep)) with (serviceName data).
    pd_step Hls.
    rewrite Hsplit, (firstNamed_first _ _ _ _ Hname Hno).
    pd_step Hint.
    destruct r; reflexivity.
Qed.

End Provisioning.

Section ProvisioningClaims.

Import pdApi pagerduty.
Context {W : Type} `{!API W}.

(** C1, as amended: when the escalation policy resolves, the creation
    fails with the duplicate-name error, the listing holds a service whose
    name is exactly the derived name, and the integration-creation call
    succeeds, then the first service of the listing with that exact name is
    adopted (its ID becomes the service ID and no service is created),
    exactly one integration is created, by the only integration-creation
    call, and its ID is stored and returned. *)
Theorem CreateService_adopts_first_exact_match
    (data : Data) (w w1 w2 w3 w4 : W) (ep : EscalationPolicy) (e : error)
    (resp : ListServiceResponse) (before after : list Service)
    (svc : Service) (newInt : Integration) :
  pdApi.GetEscalationPolicy (NewClient (APIKey data))
    (escalationPolicyID data) w = (Ok ep, w1) ->
  pdApi.CreateService (NewClient (APIKey data)) (clusterServiceOf data ep)
    w1 = (Err e, w2) ->
  Contains (Error e) "Name has already been taken" = true ->
  pdApi.ListServices (NewClient (APIKey data))
    {| Query := serviceName data |} w2 = (Ok resp, w3) ->
  Services resp = before ++ svc :: after ->
  Service_Name svc = serviceName data ->
  (forall s, In s before -> Service_Name s <> serviceName data) ->
  pdApi.CreateIntegration (NewClient (APIKey data)) (Service_ID svc)
    clusterIntegration w3 = (Ok newInt, w4) ->
  fst (CreateService (start data w))
    = Returned (Integration_ID newInt, None)
  /\ ServiceID (receiver (snd (CreateService (start data w))))
    = Service_ID svc
  /\ IntegrationID (receiver (snd (CreateService (start data w))))
    = Integration_ID newInt
  /\ count createsService (calls (snd (CreateService (start data w))))
    = 0%nat
  /\ count isCreateIntegrationCall
       (calls (snd (CreateService (start data w)))) = 1%nat
  /\ count createsIntegration
       (calls (snd (CreateService (start data w)))) = 1%nat.
Proof.
  intros Hep Hcr Hdup Hls Hsplit Hname Hno Hint.
  assert (Ha : serviceAdopted data w svc w3
                 [CallGetEscalationPolicy (NewClient (APIKey data))
                    (escalationPolicyID data) (Ok ep);
                  CallCreateService (NewClient (APIKey data))
                    (clusterServiceOf data ep) (Err e);
                  CallListServices (NewClient (APIKey data))
                    {| Query := serviceName data |} (Ok resp)]).
  { exists ep, w1, e, w2, resp, before, after. repeat split; assumption. }
  rewrite (CreateService_after_service _ _ _ _ _ _ _ (or_intror Ha) Hint).
  repeat split; reflexivity.
Qed.

(** C2: when the creation fails with an error that is not the
    duplicate-name error, or fails with the duplicate-name error while the
    listing holds no service whose name is exactly the derived name, the
    error of the creation call is returned as it is, the record is left as
    it was and no integration-creation call is made. *)
Theorem CreateService_creation_error_returned
    (data : Data) (w w1 w2 : W) (ep : EscalationPolicy) (e : error) :
  pdApi.GetEscalationPolicy (NewClient (APIKey data))
    (escalationPolicyID data) w = (Ok ep, w1) ->
  pdApi.CreateService (NewClient (APIKey data)) (clusterServiceOf data ep)
    w1 = (Err e, w2) ->
  Contains (Error e) "Name has already been taken" = false
  \/ (Contains (Error e) "Name has already been taken" = true
      /\ exists resp w3,
           pdApi.ListServices (NewClient (APIKey data))
             {| Query := serviceName data |} w2 = (Ok resp, w3)
           /\ forall s, In s (Services resp) ->
                        Service_Name s <> serviceName data) ->
  fst (CreateService (start data w)) = Returned ("", Some e)
  /\ receiver (snd (CreateService (start data w))) = data
  /\ count isCreateIntegrationCall
       (calls (snd (CreateService (start data w)))) = 0%nat.
Proof.
  intros Hep Hcr [Hother | (Hdup & resp & w3 & Hls & Hno)].
  - pd_unfold. pd_step Hep. pd_step Hcr. rewrite Hother.
    repeat split; reflexivity.
  - pd_unfold. pd_step Hep. pd_step Hcr. rewrite Hdup. cbn [negb].
    change (Service_Name (clusterServiceOf data ep)) with (serviceName data).
    pd_step Hls. rewrite (firstNamed_none _ _ Hno).
    repeat split; reflexivity.
Qed.

(** C6: when the lookup of the escalation policy fails, the call returns
    the error [Escalation policy not found in PagerDuty]; the lookup is the
    only call made, so no service-creation call is attempted and no
    integration-creation call either, and the record is left as it was. *)
Theorem CreateService_policy_lookup_failure
    (data : Data) (w w1 : W) (e : error) :
  pdApi.GetEscalationPolicy (NewClient (APIKey data))
    (escalationPolicyID data) w = (Err e, w1) ->
  CreateService (start data w)
    = (Returned
         ("", Some (errors_New "Escalation policy not found in PagerDuty")),
       {| receiver := data; upstream := w1;
          calls := [CallGetEscalationPolicy (NewClient (APIKey data))
                      (escalationPolicyID data) (Err e)] |})
  /\ count isCreateServiceCall
       (calls (snd (CreateService (start data w)))) = 0%nat
  /\ count isCreateIntegrationCall
       (calls (snd (CreateService (start data w)))) = 0%nat.
Proof.
  intros Hep.
  assert (Hrun : CreateService (start data w)
    = (Returned
         ("", Some (errors_New "Escalation policy not found in PagerDuty")),
       {| receiver := data; upstream := w1;
          calls := [CallGetEscalationPolicy (NewClient (APIKey data))
                      (escalationPolicyID data) (Err e)] |})).
  { pd_unfold. pd_step Hep. reflexivity. }
  rewrite Hrun. repeat split; reflexivity.
Qed.

(** C10: when a service was created or adopted and the integration-creation
    call then fails, the call returns the error of that call; in the record
    the service ID is already the ID of the created or adopted service,
    while the integration ID and every other field are as before. *)
Theorem CreateService_integration_failure_keeps_service_ID
    (data : Data) (w w' w'' : W) (svc : Service) (log : list Call)
    (e : error) :
  serviceCreated data w svc w' log \/ serviceAdopted data w svc w' log ->
  pdApi.CreateIntegration (NewClient (APIKey data)) (Service_ID svc)
    clusterIntegration w' = (Err e, w'') ->
  fst (CreateService (start data w)) = Returned ("", Some e)
  /\ ServiceID (receiver (snd (CreateService (start data w))))
    = Service_ID svc
  /\ IntegrationID (receiver (snd (CreateService (start data w))))
    = IntegrationID data
  /\ receiver (snd (CreateService (start data w)))
    = set_ServiceID (Service_ID svc) data.
Proof.
  intros Hsvc Hint.
  rewrite (CreateService_after_service _ _ _ _ _ _ _ Hsvc Hint).
  repeat split; reflexivity.
Qed.

End ProvisioningClaims.

(** *** The provisioner on the sample account *)

Section ProvisioningExamples.

Import pdApi pagerduty fakepd.

Lemma sample_older_service_differs (s : Service) :
  In s [existing "POLD001" "osd-abc123.example.com-hive-cluster-old"] ->
  Service_Name s <> serviceName data0.
Proof. intros [<- | []]. vm_compute. discriminate. Qed.

Lemma sample_adopted (w : World) :
  policies w = policies takenAccount ->
  services w = services takenAccount ->
  serviceOutage w = None ->
  serviceAdopted data0 w (existing "POLD002" sampleName) w
    sampleAdoptionLog.
Proof.
  intros Hp Hs Ho.
  exists policy, w, nameTaken, w, sampleListing,
    [existing "POLD001" "osd-abc123.example.com-hive-cluster-old"], [].
  repeat split.
  - cbn. unfold fakeGetEscalationPolicy. rewrite Hp. reflexivity.
  - cbn. unfold fakeCreateService. rewrite Ho, Hs. reflexivity.
  - cbn. unfold fakeListServices. rewrite Hs. reflexivity.
  - exact sample_older_service_differs.
Qed.

Lemma CreateService_adopts_first_exact_match_witness :
  fst (CreateService (start data0 takenAccount))
    = Returned ("PNEW001", None)
  /\ ServiceID (receiver (snd (CreateService (start data0 takenAccount))))
    = "POLD002"
  /\ IntegrationID
       (receiver (snd (CreateService (start data0 takenAccount))))
    = "PNEW001"
  /\ count createsService
       (calls (snd (CreateService (start data0 takenAccount)))) = 0%nat
  /\ count isCreateIntegrationCall
       (calls (snd (CreateService (start data0 takenAccount)))) = 1%nat
  /\ count createsIntegration
       (calls (snd (CreateService (start data0 takenAccount)))) = 1%nat.
Proof.
  apply (CreateService_adopts_first_exact_match data0
           takenAccount takenAccount takenAccount takenAccount
           (snd (pdApi.CreateIntegration sampleClient "POLD002"
                   clusterIntegration takenAccount))
           policy nameTaken sampleListing
           [existing "POLD001" "osd-abc123.example.com-hive-cluster-old"]
           [] (existing "POLD002" sampleName) sampleIntegration);
    try reflexivity.
  exact sample_older_service_differs.
Defined.

(** C1 as it is written fails: on the sample account, with the
    integration endpoint down, the policy resolves, the creation fails
    with the duplicate-name error and the listing holds the exact name, yet
    no integration is created and an error is returned. *)
Lemma CreateService_adoption_without_integration :
  exists ep e resp svc,
    fst (pdApi.GetEscalationPolicy sampleClient "PESC001"
           (withIntegrationOutage takenAccount)) = Ok ep
    /\ fst (pdApi.CreateService sampleClient (clusterServiceOf data0 ep)
              (withIntegrationOutage takenAccount)) = Err e
    /\ Contains (Error e) "Name has already been taken" = true
    /\ fst (pdApi.ListServices sampleClient
              {| Query := serviceName data0 |}
              (withIntegrationOutage takenAccount)) = Ok resp
    /\ In svc (Services resp)
    /\ Service_Name svc = serviceName data0
    /\ fst (CreateService (start data0 (withIntegrationOutage takenAccount)))
       = Returned ("", Some serverError)
    /\ count createsIntegration
         (calls (snd (CreateService
                        (start data0 (withIntegrationOutage takenAccount)))))
       = 0%nat.
Proof.
  exists policy, nameTaken, sampleListing, (existing "POLD002" sampleName).
  repeat split; try reflexivity.
  right. left. reflexivity.
Qed.

Lemma CreateService_creation_error_returned_witness :
  (fst (CreateService
          (start data0 (withServiceOutage serverError emptyAccount)))
     = Returned ("", Some serverError)
   /\ receiver (snd (CreateService
          (start data0 (withServiceOutage serverError emptyAccount))))
     = data0
   /\ count isCreateIntegrationCall
        (calls (snd (CreateService
          (start data0 (withServiceOutage serverError emptyAccount)))))
     = 0%nat)
  /\ (fst (CreateService
             (start data0 (withServiceOutage nameTaken emptyAccount)))
        = Returned ("", Some nameTaken)
      /\ receiver (snd (CreateService
             (start data0 (withServiceOutage nameTaken emptyAccount))))
        = data0
      /\ count isCreateIntegrationCall
           (calls (snd (CreateService
             (start data0 (withServiceOutage nameTaken emptyAccount)))))
        = 0%nat).
Proof.
  split.
  - apply (CreateService_creation_error_returned data0
             (withServiceOutage serverError emptyAccount)
             (withServiceOutage serverError emptyAccount)
             (withServiceOutage serverError emptyAccount)
             policy serverError); try reflexivity.
    left. reflexivity.
  - apply (CreateService_creation_error_returned data0
             (withServiceOutage nameTaken emptyAccount)
             (withServiceOutage nameTaken emptyAccount)
             (withServiceOutage nameTaken emptyAccount)
             policy nameTaken); try reflexivity.
    right. split; [reflexivity|].
    exists {| Services := [] |}, (withServiceOutage nameTaken emptyAccount).
    split; [reflexivity|]. intros s [].
Defined.

Lemma CreateService_policy_lookup_failure_witness :
  CreateService (start data0 (withoutPolicies takenAccount))
    = (Returned
         ("", Some (errors_New "Escalation policy not found in PagerDuty")),
       {| receiver := data0; upstream := withoutPolicies takenAccount;
          calls := [CallGetEscalationPolicy sampleClient "PESC001"
                      (Err notFound)] |})
  /\ count isCreateServiceCall
       (calls (snd (CreateService
                      (start data0 (withoutPolicies takenAccount)))))
     = 0%nat
  /\ count isCreateIntegrationCall
       (calls (snd (CreateService
                      (start data0 (withoutPolicies takenAccount)))))
     = 0%nat.
Proof.
  apply (CreateService_policy_lookup_failure data0
           (withoutPolicies takenAccount) (withoutPolicies takenAccount)
           notFound).
  reflexivity.
Defined.

Lemma CreateService_integration_failure_keeps_service_ID_witness :
  fst (CreateService (start data0 (withIntegrationOutage takenAccount)))
    = Returned ("", Some serverError)
  /\ ServiceID (receiver (snd (CreateService
       (start data0 (withIntegrationOutage takenAccount))))) = "POLD002"
  /\ IntegrationID (receiver (snd (CreateService
       (start data0 (withIntegrationOutage takenAccount))))) = "INTOLD"
  /\ receiver (snd (CreateService
       (start data0 (withIntegrationOutage takenAccount))))
     = set_ServiceID "POLD002" data0.
Proof.
  apply (CreateService_integration_failure_keeps_service_ID data0
           (withIntegrationOutage takenAccount)
           (withIntegrationOutage takenAccount)
           (withIntegrationOutage takenAccount)
           (existing "POLD002" sampleName) sampleAdoptionLog serverError).
  - right. apply sample_adopted; reflexivity.
  - reflexivity.
Defined.

End ProvisioningExamples.

(** ** The configuration of the provisioner *)

Section Configuration.

Import pagerduty.

Example convertStrToUint_number :
  convertStrToUint "300" = (300, None).
Proof. reflexivity. Qed.

Example convertStrToUint_not_a_number :
  convertStrToUint "abc"
    = (0, Some (NumError "ParseUint" "abc" strconv.ErrSyntax)).
Proof. reflexivity. Qed.

Example convertStrToUint_out_of_range :
  convertStrToUint "4294967296"
    = (0, Some (NumError "ParseUint" "4294967296" strconv.ErrRange)).
Proof. reflexivity. Qed.

Example duplicate_name_is_recognised :
  Contains (Error fakepd.nameTaken) "Name has already been taken" = true
  /\ Contains (Error fakepd.serverError) "Name has already been taken"
     = false.
Proof. split; reflexivity. Qed.

Lemma getSecretKey_absent_or_empty (secret : gmap string string)
    (key : string) :
  secret !! key = None \/ secret !! key = Some "" ->
  exists e, getSecretKey secret key = ("", Some e).
Proof.
  unfold getSecretKey. intros [-> | ->]; eauto.
Qed.

(** C8: with a secret in which [SERVICE_PREFIX] is absent or empty,
    parsing does not fail on that account: when the four other keys
    resolve and the two timeouts are numbers, no error is returned and the
    prefix is [osd]; and the failure of any of the four other keys, met in
    reading order, is the error returned to the caller. *)
Theorem ParsePDConfig_service_prefix_default
    (osc : k8s.Client) (data : Data) (secret : gmap string string) :
  k8s.GetSecret osc pdSecretName = Ok secret ->
  secret !! "SERVICE_PREFIX" = None
  \/ secret !! "SERVICE_PREFIX" = Some "" ->
  (forall apiKey policy resolveStr resolve ackStr ack,
      getSecretKey secret "PAGERDUTY_API_KEY" = (apiKey, None) ->
      getSecretKey secret "ESCALATION_POLICY" = (policy, None) ->
      getSecretKey secret "RESOLVE_TIMEOUT" = (resolveStr, None) ->
      convertStrToUint resolveStr = (resolve, None) ->
      getSecretKey secret "ACKNOWLEDGE_TIMEOUT" = (ackStr, None) ->
      convertStrToUint ackStr = (ack, None) ->
      ParsePDConfig osc data
        = (None,
           {| escalationPolicyID := policy;
              autoResolveTimeout := resolve;
              acknowledgeTimeOut := ack;
              servicePrefix := "osd";
              APIKey := apiKey;
              ClusterID := ClusterID data;
              BaseDomain := BaseDomain data;
              ServiceID := ServiceID data;
              IntegrationID := IntegrationID data |}))
  /\ (forall e,
        snd (getSecretKey secret "PAGERDUTY_API_KEY") = Some e ->
        fst (ParsePDConfig osc data) = Some e)
  /\ (forall e,
        snd (getSecretKey secret "PAGERDUTY_API_KEY") = None ->
        snd (getSecretKey secret "ESCALATION_POLICY") = Some e ->
        fst (ParsePDConfig osc data) = Some e)
  /\ (forall e,
        snd (getSecretKey secret "PAGERDUTY_API_KEY") = None ->
        snd (getSecretKey secret "ESCALATION_POLICY") = None ->
        snd (getSecretKey secret "RESOLVE_TIMEOUT") = Some e ->
        fst (ParsePDConfig osc data) = Some e)
  /\ (forall e,
        snd (getSecretKey secret "PAGERDUTY_API_KEY") = None ->
        snd (getSecretKey secret "ESCALATION_POLICY") = None ->
        snd (getSecretKey secret "RESOLVE_TIMEOUT") = None ->
        snd (convertStrToUint
               (fst (getSecretKey secret "RESOLVE_TIMEOUT"))) = None ->
        snd (getSecretKey secret "ACKNOWLEDGE_TIMEOUT") = Some e ->
        fst (ParsePDConfig osc data) = Some e).
Proof.
  intros Hget Hprefix.
  destruct (getSecretKey_absent_or_empty _ _ Hprefix) as [ep Hp].
  unfold ParsePDConfig. rewrite Hget.
  split; [|split; [|split; [|split]]].
  - intros apiKey policy resolveStr resolve ackStr ack H1 H2 H3 H4 H5 H6.
    rewrite H1, H2, H3, H4, H5, H6, Hp. reflexivity.
  - intros e H1.
    destruct (getSecretKey secret "PAGERDUTY_API_KEY") as [v1 [e1|]];
      cbn in *; congruence.
  - intros e H1 H2.
    destruct (getSecretKey secret "PAGERDUTY_API_KEY") as [v1 [e1|]];
      cbn in *; [discriminate|].
    destruct (getSecretKey secret "ESCALATION_POLICY") as [v2 [e2|]];
      cbn in *; congruence.
  - intros e H1 H2 H3.
    destruct (getSecretKey secret "PAGERDUTY_API_KEY") as [v1 [e1|]];
      cbn in *; [discriminate|].
    destruct (getSecretKey secret "ESCALATION_POLICY") as [v2 [e2|]];
      cbn in *; [discriminate|].
    destruct (getSecretKey secret "RESOLVE_TIMEOUT") as [v3 [e3|]];
      cbn in *; congruence.
  - intros e H1 H2 H3 H4 H5.
    destruct (getSecretKey secret "PAGERDUTY_API_KEY") as [v1 [e1|]];
      cbn in *; [discriminate|].
    destruct (getSecretKey secret "ESCALATION_POLICY") as [v2 [e2|]];
      cbn in *; [discriminate|].
    destruct (getSecretKey secret "RESOLVE_TIMEOUT") as [v3 [e3|]];
      cbn in *; [discriminate|].
    destruct (convertStrToUint v3) as [n3 [e3|]];
      cbn in *; [discriminate|].
    destruct (getSecretKey secret "ACKNOWLEDGE_TIMEOUT") as [v4 [e4|]];
      cbn in *; congruence.
Qed.

Lemma ParsePDConfig_service_prefix_default_witness :
  ParsePDConfig (fakepd.cluster fakepd.pdSecret) fakepd.data0
    = (None,
       {| escalationPolicyID := "PESC001";
          autoResolveTimeout := 300;
          acknowledgeTimeOut := 600;
          servicePrefix := "osd";
          APIKey := "apikey";
          ClusterID := "abc123";
          BaseDomain := "example.com";
          ServiceID := "";
          IntegrationID := "INTOLD" |})
  /\ fst (ParsePDConfig
            (fakepd.cluster (<["SERVICE_PREFIX" := ""]>
                               (delete "ESCALATION_POLICY" fakepd.pdSecret)))
            fakepd.data0)
     = Some (errors_New "ESCALATION_POLICY does not exist").
Proof.
  split.
  - apply (proj1 (ParsePDConfig_service_prefix_default
                    (fakepd.cluster fakepd.pdSecret) fakepd.data0
                    fakepd.pdSecret eq_refl (or_introl eq_refl))
             "apikey" "PESC001" "300" 300 "600" 600);
      reflexivity.
  - refine (proj1 (proj2 (proj2 (ParsePDConfig_service_prefix_default
             (fakepd.cluster (<["SERVICE_PREFIX" := ""]>
                                (delete "ESCALATION_POLICY" fakepd.pdSecret)))
             fakepd.data0
             (<["SERVICE_PREFIX" := ""]>
                (delete "ESCALATION_POLICY" fakepd.pdSecret))
             eq_refl _))) _ _ _).
    + right. vm_compute. reflexivity.
    + vm_compute. reflexivity.
    + vm_compute. reflexivity.
Defined.

End Configuration.

(** ** The secret cache *)

Ltac vault_unfold :=
  unfold vault.readThrough, vault.readCache, vault.fetchAndSave,
    vault.mustFetch, vault.saveSecret, vault.log_Error, vault.log_Info,
    vault.note, bind, gets, vault.call, ret, vault.assign, modify, panic,
    vault.start, at_, logged.

Ltac vault_step H :=
  cbn [vault.receiver vault.outside vault.calls];
  rewrite H;
  cbn [vault.receiver vault.outside vault.calls].

Section SecretCache.

Import host vault.
Context {W : Type} `{!Host W}.

Lemma extends_refl (s : State W) : extends s s [].
Proof. split; [reflexivity | now rewrite List.app_nil_r]. Qed.

Lemma extends_trans (s1 s2 s3 : State W) (l1 l2 : list Call) :
  extends s1 s2 l1 -> extends s2 s3 l2 -> extends s1 s3 (l1 ++ l2).
Proof.
  intros [R1 C1] [R2 C2]. split; [congruence|].
  rewrite C2, C1. now rewrite List.app_assoc.
Qed.

Lemma GetVaultSecret_resolved (osc : k8s.Client) (data data' : Data)
    (w : W) :
  resolves osc data data' ->
  GetVaultSecret osc (start data w) = readThrough (start data' w).
Proof.
  intros (cfg & url & token & mount & key & property & path &
          Hget & Hurl & Htoken & Hmount & Hkey & Hprop & Hpath & ->).
  unfold GetVaultSecret, fetchKey, bind, gets, assign, modify, start.
  cbn [receiver outside calls]. rewrite Hget.
  rewrite Hurl, Htoken, Hmount, Hkey, Hprop, Hpath.
  reflexivity.
Qed.

Lemma readThrough_fresh (data : Data) (w w' : W) (log : list Call) :
  cacheFresh (tempFilePathOf data) w w' log ->
  readThrough (start data w)
    = readCache (tempFilePathOf data) (at_ data w' log).
Proof.
  intros (fi & w1 & now & Hstat & Hnow & Hage & ->).
  vault_unfold. vault_step Hstat. cbn [os_IsNotExist]. vault_step Hnow.
  unfold Before, Add.
  destruct (Z.ltb_spec (ModTime fi) (now + Hour * -6)) as [Hlt|Hge];
    [lia|].
  reflexivity.
Qed.

Lemma readThrough_missing (data : Data) (w w' : W) (log : list Call) :
  cacheMissing (tempFilePathOf data) w w' log ->
  readThrough (start data w)
    = bind (fetchAndSave (tempFilePathOf data))
        (fun early =>
           match early with
           | Some r => ret r
           | None => readCache (tempFilePathOf data)
           end)
        (at_ data w' log).
Proof.
  intros [(e & Hstat & Habsent & ->)
         | (fi & w1 & now & Hstat & Hnow & Hage & ->)].
  - unfold readThrough, mustFetch, bind at 1 2 3 4, gets, call, start, at_.
    vault_step Hstat. rewrite Habsent. reflexivity.
  - unfold readThrough, mustFetch, bind at 1 2 3 4 5, gets, call, ret,
      start, at_.
    vault_step Hstat. cbn [os_IsNotExist]. vault_step Hnow.
    unfold Before, Add.
    destruct (Z.ltb_spec (ModTime fi) (now + Hour * -6)) as [Hlt|Hge];
      [|lia].
    reflexivity.
Qed.

Lemma logEach_logs (msgs : list string) (s : State W) :
  logEach msgs s = (Returned tt, logged s (List.map LogInfo msgs)).
Proof.
  revert s. induction msgs as [|m msgs IH]; intros s.
  - unfold logged. cbn. rewrite List.app_nil_r. now destruct s.
  - cbn [logEach List.map]. unfold bind, log_Info, note, modify.
    rewrite IH. unfold logged. cbn [receiver outside calls].
    now rewrite <- List.app_assoc.
Qed.

Lemma count_LogInfo (p : Call -> bool) (msgs : list string) :
  (forall m, p (LogInfo m) = false) ->
  count p (List.map LogInfo msgs) = 0%nat.
Proof.
  intros Hp. unfold count.
  induction msgs as [|m msgs IH]; cbn; [reflexivity|].
  now rewrite Hp.
Qed.

(** [readProperty] returns, and only writes messages to the log. *)
Lemma readProperty_returns (property : string) (vault : Secret)
    (s : State W) :
  exists r msgs,
    readProperty property vault s
      = (Returned r, logged s (List.map LogInfo msgs)).
Proof.
  unfold readProperty.
  destruct (assertMap (Secret_Data vault !! "data")) as [secret|].
  - unfold bind. rewrite logEach_logs.
    destruct (Nat.eqb (size (Secret_Data vault)) 0); eexists; eexists;
      reflexivity.
  - exists ("", Some (errors_New "Error parsing secret data")), [].
    unfold ret, logged. cbn. rewrite List.app_nil_r. now destruct s.
Qed.

(** One run of [queryVault]: one [api.NewClient] call, at most one
    [Logical().Read] call, and no call on the cache file. *)
Lemma queryVault_frame (s : State W) :
  exists entries,
    extends s (snd (queryVault s)) entries
    /\ count isNewClient entries = 1%nat
    /\ (count isLogicalRead entries <= 1)%nat
    /\ count isFileWrite entries = 0%nat
    /\ count isFileRead entries = 0%nat
    /\ count isRemove entries = 0%nat
    /\ (forall v, fst (queryVault s) = Returned (v, None) ->
                  count isLogicalRead entries = 1%nat).
Proof.
  unfold queryVault, bind, gets, call.
  cbn [receiver outside calls].
  destruct (api_NewClient {| Address := URL (receiver s) |} (outside s))
    as [[client|e] w1] eqn:Hnew.
  - destruct (Logical_Read (SetToken client (Token (receiver s)))
                (Mount (receiver s) +:+ "/data/" +:+ Path (receiver s)) w1)
      as [[[vault|]|e] w2] eqn:Hread; cbn [receiver outside calls];
      rewrite Hread; cbn [receiver outside calls].
    + match goal with
      | |- context [readProperty ?p ?v ?st] =>
          destruct (readProperty_returns p v st) as (r & msgs & Hr)
      end.
      rewrite Hr. cbn [fst snd]. eexists. split.
      * split; [reflexivity|]. unfold logged. cbn [calls].
        rewrite <- !List.app_assoc. reflexivity.
      * rewrite !host_count_app, !count_LogInfo by reflexivity.
        cbn. repeat split; lia.
    + unfold panic. cbn [fst snd]. eexists. split.
      * split; [reflexivity|]. cbn [calls].
        rewrite <- !List.app_assoc. reflexivity.
      * cbn. repeat split; first [lia | discriminate].
    + unfold ret. cbn [fst snd]. eexists. split.
      * split; [reflexivity|]. cbn [calls].
        rewrite <- !List.app_assoc. reflexivity.
      * cbn. repeat split; lia.
  - unfold ret. cbn [fst snd]. eexists. split.
    + split; reflexivity.
    + cbn. repeat split; first [lia | discriminate].
Qed.

(** [saveSecret] returns, after exactly one attempt to write the file. *)
Lemma saveSecret_frame (path value : string) (s : State W) :
  exists r s' entries,
    saveSecret path value s = (Returned r, s')
    /\ extends s s' entries
    /\ count isNewClient entries = 0%nat
    /\ count isLogicalRead entries = 0%nat
    /\ count isFileWrite entries = 1%nat
    /\ count isFileRead entries = 0%nat.
Proof.
  unfold saveSecret, bind, call, log_Error, note, modify, ret.
  cbn [receiver outside calls].
  destruct (os_Remove path (outside s)) as [rm w1].
  cbn [receiver outside calls].
  destruct (os_Create path w1) as [[file|e] w2];
    cbn [receiver outside calls].
  - destruct (File_WriteString file value w2) as [[e|] w3];
      cbn [receiver outside calls];
      (eexists; eexists; eexists; split; [reflexivity|]; split;
       [split; [reflexivity|]; cbn [calls]; rewrite <- !List.app_assoc;
        reflexivity
       | cbn; repeat split; lia]).
  - eexists; eexists; eexists; split; [reflexivity|]; split;
      [split; [reflexivity|]; cbn [calls]; rewrite <- !List.app_assoc;
       reflexivity
      | cbn; repeat split; lia].
Qed.

(** The read of the cache file and its fallback never write the file. *)
Lemma readCache_frame (path : string) (s : State W) :
  exists entries,
    extends s (snd (readCache path s)) entries
    /\ count isFileWrite entries = 0%nat.
Proof.
  unfold readCache, bind, call, log_Error, note, modify, ret.
  cbn [receiver outside calls].
  destruct (ioutil_ReadFile path (outside s)) as [[fileDat|e] w1];
    cbn [receiver outside calls].
  - eexists. split; [split; reflexivity | reflexivity].
  - destruct (os_Remove path w1) as [rm w2]. cbn [receiver outside calls].
    match goal with
    | |- context [queryVault ?st] =>
        destruct (queryVault_frame st)
          as (qs & [Hqr Hqc] & _ & _ & Hqw & _)
    end.
    cbn [receiver calls] in Hqr, Hqc.
    exists ([CallReadFile path (Err e);
             LogError e "Failed to read file - removing";
             CallRemove path rm] ++ qs).
    split.
    + split; [exact Hqr|]. rewrite Hqc, <- !List.app_assoc. reflexivity.
    + rewrite host_count_app, Hqw. reflexivity.
Qed.

End SecretCache.

Section SecretCacheClaims.

Import host vault.
Context {W : Type} `{!Host W}.

(** C9: when the stat of the cache file fails with an error that is not a
    non-existence error, the staleness check reads the modification time
    of a nil file info and the call panics with a nil dereference, right
    after the stat: it returns no error and undertakes no remote read. *)
Theorem GetVaultSecret_stat_failure_panics
    (osc : k8s.Client) (data data' : Data) (w w1 : W) (e : error) :
  resolves osc data data' ->
  os_Stat (tempFilePathOf data') w = (Err e, w1) ->
  os_IsNotExist (Some e) = false ->
  GetVaultSecret osc (start data w)
    = (Panicked nil_dereference,
       at_ data' w1 [CallStat (tempFilePathOf data') (Err e)])
  /\ count isNewClient (calls (snd (GetVaultSecret osc (start data w))))
     = 0%nat.
Proof.
  intros Hres Hstat Hother.
  assert (Hrun : GetVaultSecret osc (start data w)
    = (Panicked nil_dereference,
       at_ data' w1 [CallStat (tempFilePathOf data') (Err e)])).
  { rewrite (GetVaultSecret_resolved _ _ _ _ Hres).
    vault_unfold. vault_step Hstat. rewrite Hother. reflexivity. }
  rewrite Hrun. split; reflexivity.
Qed.

(** C5: when the cache file is taken as fresh and reading it fails, the
    file is removed and [queryVault] is run once; what that run gives is
    what the call gives.  The failed read is the only read of the file,
    nothing is written to it, and there is one remote read, which makes at
    most one [Logical().Read] call. *)
Theorem GetVaultSecret_unreadable_cache_falls_back
    (osc : k8s.Client) (data data' : Data) (w w2 w3 w4 : W)
    (log : list Call) (e : error) (rm : option error) :
  resolves osc data data' ->
  cacheFresh (tempFilePathOf data') w w2 log ->
  ioutil_ReadFile (tempFilePathOf data') w2 = (Err e, w3) ->
  os_Remove (tempFilePathOf data') w3 = (rm, w4) ->
  GetVaultSecret osc (start data w)
    = queryVault
        (at_ data' w4
           (log ++ [CallReadFile (tempFilePathOf data') (Err e);
                    LogError e "Failed to read file - removing";
                    CallRemove (tempFilePathOf data') rm]))
  /\ count isNewClient (calls (snd (GetVaultSecret osc (start data w))))
     = 1%nat
  /\ (count isLogicalRead (calls (snd (GetVaultSecret osc (start data w))))
      <= 1)%nat
  /\ count isFileRead (calls (snd (GetVaultSecret osc (start data w))))
     = 1%nat
  /\ count isRemove (calls (snd (GetVaultSecret osc (start data w))))
     = 1%nat
  /\ count isFileWrite (calls (snd (GetVaultSecret osc (start data w))))
     = 0%nat.
Proof.
  intros Hres Hfresh Hread Hrm.
  assert (Hrun : GetVaultSecret osc (start data w)
    = queryVault
        (at_ data' w4
           (log ++ [CallReadFile (tempFilePathOf data') (Err e);
                    LogError e "Failed to read file - removing";
                    CallRemove (tempFilePathOf data') rm]))).
  { rewrite (GetVaultSecret_resolved _ _ _ _ Hres).
    rewrite (readThrough_fresh _ _ _ _ Hfresh).
    unfold readCache, log_Error, note, bind, call, modify, at_.
    vault_step Hread. vault_step Hrm.
    rewrite <- !List.app_assoc. reflexivity. }
  rewrite Hrun. split; [reflexivity|].
  destruct Hfresh as (fi & w1 & now & _ & _ & _ & ->).
  destruct (queryVault_frame
              (at_ data' w4
                 ([CallStat (tempFilePathOf data') (Ok fi); CallNow now] ++
                  [CallReadFile (tempFilePathOf data') (Err e);
                   LogError e "Failed to read file - removing";
                   CallRemove (tempFilePathOf data') rm])))
    as (entries & [_ Hcalls] & Hn & Hl & Hw & Hr & Hd).
  rewrite Hcalls. cbn [at_ calls].
  rewrite !host_count_app, Hn, Hw, Hr, (proj1 Hd). cbn.
  repeat split; lia.
Qed.

(** C7: when the cache file is absent or too old, the remote read gives a
    value and saving it fails, the call returns that value with no
    error. *)
Theorem GetVaultSecret_save_failure_returns_secret
    (osc : k8s.Client) (data data' : Data) (w w' : W) (log : list Call)
    (secret : string) (s2 s3 : State W) (err : error) :
  resolves osc data data' ->
  cacheMissing (tempFilePathOf data') w w' log ->
  queryVault (at_ data' w' log) = (Returned (secret, None), s2) ->
  saveSecret (tempFilePathOf data') secret s2 = (Returned (Some err), s3) ->
  GetVaultSecret osc (start data w)
    = (Returned (secret, None),
       logged s3 [LogError err "Failed to save secret"]).
Proof.
  intros Hres Hmiss Hq Hsave.
  rewrite (GetVaultSecret_resolved _ _ _ _ Hres).
  rewrite (readThrough_missing _ _ _ _ Hmiss).
  unfold fetchAndSave, bind. rewrite Hq, Hsave.
  reflexivity.
Qed.

(** C4, as amended.  When the cache file was modified at most six hours
    ago (so also when less than six hours ago) and reading it succeeds, its
    contents are returned and there is no remote read.  When the file is
    absent or was modified more than six hours ago, one remote read is made
    first: if it gives an error, that error is returned and nothing is
    written; if it gives a value, there is exactly one write of the cache
    file in the whole call, and when that write and the read of the file
    that follows succeed, the contents read are returned, with one remote
    read (one [Logical().Read] call) in all. *)
Theorem GetVaultSecret_cache_freshness
    (osc : k8s.Client) (data data' : Data) (w w' : W) (log : list Call) :
  resolves osc data data' ->
  (cacheFresh (tempFilePathOf data') w w' log ->
   forall contents w3,
     ioutil_ReadFile (tempFilePathOf data') w' = (Ok contents, w3) ->
     GetVaultSecret osc (start data w)
       = (Returned (contents, None),
          at_ data' w3
            (log ++ [CallReadFile (tempFilePathOf data') (Ok contents)]))
     /\ count isNewClient
          (calls (snd (GetVaultSecret osc (start data w)))) = 0%nat
     /\ count isLogicalRead
          (calls (snd (GetVaultSecret osc (start data w)))) = 0%nat
     /\ count isFileWrite
          (calls (snd (GetVaultSecret osc (start data w)))) = 0%nat)
  /\ (cacheMissing (tempFilePathOf data') w w' log ->
      (forall v err s2,
          queryVault (at_ data' w' log) = (Returned (v, Some err), s2) ->
          GetVaultSecret osc (start data w)
            = (Returned ("", Some err), s2)
          /\ count isNewClient
               (calls (snd (GetVaultSecret osc (start data w)))) = 1%nat
          /\ count isFileWrite
               (calls (snd (GetVaultSecret osc (start data w)))) = 0%nat)
      /\ (forall secret s2 s3 contents w4,
             queryVault (at_ data' w' log)
               = (Returned (secret, None), s2) ->
             saveSecret (tempFilePathOf data') secret s2
               = (Returned None, s3) ->
             ioutil_ReadFile (tempFilePathOf data') (outside s3)
               = (Ok contents, w4) ->
             GetVaultSecret osc (start data w)
               = (Returned (contents, None),
                  at_ (receiver s3) w4
                    (calls s3 ++
                     [CallReadFile (tempFilePathOf data') (Ok contents)]))
             /\ count isNewClient
                  (calls (snd (GetVaultSecret osc (start data w))))
                = 1%nat
             /\ count isLogicalRead
                  (calls (snd (GetVaultSecret osc (start data w))))
                = 1%nat
             /\ count isFileWrite
                  (calls (snd (GetVaultSecret osc (start data w))))
                = 1%nat)
      /\ (forall secret s2,
             queryVault (at_ data' w' log)
               = (Returned (secret, None), s2) ->
             count isFileWrite
               (calls (snd (GetVaultSecret osc (start data w))))
             = 1%nat)).
Proof.
  intros Hres. rewrite (GetVaultSecret_resolved _ _ _ _ Hres). split.
  - intros Hfresh contents w3 Hread.
    rewrite (readThrough_fresh _ _ _ _ Hfresh).
    destruct Hfresh as (fi & w1 & now & _ & _ & _ & ->).
    unfold readCache, bind, call, ret, at_. vault_step Hread.
    repeat split; reflexivity.
  - intros Hmiss. rewrite (readThrough_missing _ _ _ _ Hmiss).
    assert (Hlog : count isNewClient log = 0%nat
                   /\ count isLogicalRead log = 0%nat
                   /\ count isFileWrite log = 0%nat).
    { destruct Hmiss as [(e & _ & _ & ->) | (fi & w1 & now & _ & _ & _ & ->)];
        repeat split; reflexivity. }
    destruct Hlog as (Hn0 & Hl0 & Hw0).
    destruct (queryVault_frame (at_ data' w' log))
      as (qs & [Hqr Hqc] & Hqn & Hql & Hqw & _ & _ & Hq1).
    split; [|split].
    + intros v err s2 Hq. unfold fetchAndSave, bind. rewrite Hq.
      rewrite Hq in Hqc. cbn [snd at_ calls] in Hqc.
      unfold ret. cbn [snd fst]. rewrite Hqc, !host_count_app.
      repeat split; lia.
    + intros secret s2 s3 contents w4 Hq Hsave Hread.
      unfold fetchAndSave, bind. rewrite Hq, Hsave.
      unfold readCache, bind, call, ret, at_. vault_step Hread.
      rewrite Hq in Hqc. cbn [snd at_ calls] in Hqc.
      specialize (Hq1 secret). rewrite Hq in Hq1.
      specialize (Hq1 eq_refl).
      destruct (saveSecret_frame (tempFilePathOf data') secret s2)
        as (r & s3' & ws & Hs & [_ Hsc] & Hsn & Hsl & Hsw & _).
      rewrite Hsave in Hs. injection Hs as _ <-.
      cbn [snd fst calls]. rewrite Hsc, Hqc, !host_count_app.
      rewrite Hn0, Hl0, Hw0, Hqn, Hq1, Hqw, Hsn, Hsl, Hsw. cbn.
      repeat split; lia.
    + intros secret s2 Hq. unfold fetchAndSave, bind. rewrite Hq.
      rewrite Hq in Hqc. cbn [snd at_ calls] in Hqc.
      destruct (saveSecret_frame (tempFilePathOf data') secret s2)
        as (r & s3 & ws & Hs & [_ Hsc] & _ & _ & Hsw & _).
      rewrite Hs. destruct r as [err|].
      * unfold log_Error, note, modify, ret. cbn [snd calls].
        rewrite Hsc, Hqc, !host_count_app, Hw0, Hqw, Hsw. reflexivity.
      * destruct (readCache_frame (tempFilePathOf data') s3)
          as (rs & [_ Hrc] & Hrw).
        unfold ret. rewrite Hrc, Hsc, Hqc, !host_count_app, Hw0, Hqw, Hsw, Hrw.
        reflexivity.
Qed.

End SecretCacheClaims.

(** ** The payload of the Vault answer *)

Section VaultPayload.

Import host vault.
Context {W : Type} `{!Host W}.

Lemma scanProps_never_empty (property : string)
    (secret : list (string * value)) (v : string) :
  scanProps property secret = (v, None) -> v <> "".
Proof.
  induction secret as [|[propName propValue] rest IH]; cbn.
  - discriminate.
  - destruct (String.eqb propName property); [|exact IH].
    destruct (Sprintv propValue) as [|c tl] eqn:E; cbn.
    + discriminate.
    + intros [= <-]. discriminate.
Qed.

Lemma scanProps_skips (property : string)
    (before rest : list (string * value)) :
  (forall kv, In kv before -> fst kv <> property) ->
  scanProps property (before ++ rest) = scanProps property rest.
Proof.
  induction before as [|[k x] before IH]; intros Hno; cbn.
  - reflexivity.
  - destruct (String.eqb k property) eqn:E.
    + apply String.eqb_eq in E. exfalso.
      apply (Hno (k, x)); [now left | exact E].
    + apply IH. intros kv Hkv. apply Hno. now right.
Qed.

Lemma readProperty_gives (property : string) (vault : Secret)
    (s : State W) :
  fst (readProperty property vault s)
    = Returned
        match assertMap (Secret_Data vault !! "data") with
        | None => ("", Some (errors_New "Error parsing secret data"))
        | Some secret =>
            if Nat.eqb (size (Secret_Data vault)) 0
            then ("", Some (errors_New "Vault data is empty"))
            else scanProps property secret
        end.
Proof.
  unfold readProperty.
  destruct (assertMap (Secret_Data vault !! "data")) as [secret|].
  - unfold bind. rewrite logEach_logs.
    destruct (Nat.eqb (size (Secret_Data vault)) 0); reflexivity.
  - reflexivity.
Qed.

Lemma size_of_inhabited (m : gmap string value) (k : string) (x : value) :
  m !! k = Some x -> Nat.eqb (size m) 0 = false.
Proof.
  intros Hk. apply Nat.eqb_neq. intros Hsize.
  apply map_size_empty_iff in Hsize. subst m.
  rewrite lookup_empty in Hk. discriminate.
Qed.

(** Whatever the world answers, [queryVault] never returns the empty
    string with a nil error. *)
Lemma queryVault_never_empty_success (s : State W) :
  fst (queryVault s) <> Returned ("", None).
Proof.
  unfold queryVault, bind, gets, call. cbn [receiver outside calls].
  destruct (api_NewClient _ _) as [[client|e] w1];
    cbn [receiver outside calls]; [|discriminate].
  destruct (Logical_Read _ _ _) as [[[vault|]|e] w2];
    cbn [receiver outside calls]; try discriminate.
  rewrite readProperty_gives.
  destruct (assertMap _) as [secret|]; [|discriminate].
  destruct (Nat.eqb _ _); [discriminate|].
  destruct (scanProps _ secret) as [v [e|]] eqn:E; [discriminate|].
  apply scanProps_never_empty in E. congruence.
Qed.

Lemma queryVault_on_secret (s : State W) (client : Client) (w1 w2 : W)
    (vault : Secret) :
  api_NewClient {| Address := URL (receiver s) |} (outside s)
    = (Ok client, w1) ->
  Logical_Read (SetToken client (Token (receiver s)))
    (Mount (receiver s) +:+ "/data/" +:+ Path (receiver s)) w1
    = (Ok (Some vault), w2) ->
  fst (queryVault s)
    = Returned
        match assertMap (Secret_Data vault !! "data") with
        | None => ("", Some (errors_New "Error parsing secret data"))
        | Some secret =>
            if Nat.eqb (size (Secret_Data vault)) 0
            then ("", Some (errors_New "Vault data is empty"))
            else scanProps (Property (receiver s)) secret
        end.
Proof.
  intros Hnew Hread.
  unfold queryVault, bind, gets, call.
  vault_step Hnew. vault_step Hread.
  apply readProperty_gives.
Qed.

(** C3: on an answer of Vault whose [data] field is not a nested mapping,
    or whose payload is empty, [queryVault] fails with
    [Error parsing secret data]; where the property is located and its
    text is empty it fails with [... is empty]; on an empty nested mapping
    it fails (with [... not set in vault]); and it never returns the empty
    string with a nil error. *)
Theorem queryVault_malformed_payload
    (s : State W) (client : Client) (w1 w2 : W) (vault : Secret) :
  api_NewClient {| Address := URL (receiver s) |} (outside s)
    = (Ok client, w1) ->
  Logical_Read (SetToken client (Token (receiver s)))
    (Mount (receiver s) +:+ "/data/" +:+ Path (receiver s)) w1
    = (Ok (Some vault), w2) ->
  ((forall entries, Secret_Data vault !! "data" <> Some (VMap entries))
   \/ Secret_Data vault = ∅ ->
   fst (queryVault s)
     = Returned ("", Some (errors_New "Error parsing secret data")))
  /\ (forall before propValue after,
        Secret_Data vault !! "data"
          = Some (VMap (before ++ (Property (receiver s), propValue)
                          :: after)) ->
        (forall kv, In kv before -> fst kv <> Property (receiver s)) ->
        Sprintv propValue = "" ->
        fst (queryVault s)
          = Returned
              ("", Some (errors_New (Property (receiver s) +:+ " is empty"))))
  /\ (Secret_Data vault !! "data" = Some (VMap []) ->
      fst (queryVault s)
        = Returned
            ("", Some (errors_New
                         (Property (receiver s) +:+ " not set in vault"))))
  /\ fst (queryVault s) <> Returned ("", None).
Proof.
  intros Hnew Hread.
  rewrite (queryVault_on_secret _ _ _ _ _ Hnew Hread).
  split; [|split; [|split]].
  - intros [Hnot | Hempty].
    + destruct (Secret_Data vault !! "data") as [[| | | | |entries]|] eqn:E;
        try reflexivity.
      exfalso. now apply (Hnot entries).
    + rewrite Hempty, lookup_empty. reflexivity.
  - intros before propValue after Hdata Hno Hval.
    rewrite Hdata. cbn [assertMap].
    rewrite (size_of_inhabited _ _ _ Hdata).
    rewrite (scanProps_skips _ _ _ Hno). cbn [scanProps].
    rewrite String.eqb_refl, Hval. reflexivity.
  - intros Hdata. rewrite Hdata. cbn [assertMap].
    rewrite (size_of_inhabited _ _ _ Hdata). reflexivity.
  - rewrite <- (queryVault_on_secret _ _ _ _ _ Hnew Hread).
    apply queryVault_never_empty_success.
Qed.

End VaultPayload.

(** *** The secret cache on the sample hosts *)

Section SecretCacheExamples.

Import host vault fakehost.

Lemma sample_resolves : resolves osc data0 data1.
Proof.
  exists vaultConfig, "https://vault.example.com", "s.token", "kv", "key",
    "password", "osd/pagerduty".
  repeat split; reflexivity.
Qed.

Lemma sample_fresh (w : World) :
  statFault w = None ->
  files w !! cachePath = Some ("cached", 5 * Hour) ->
  clock w = now0 ->
  cacheFresh cachePath w w freshLog.
Proof.
  intros Hs Hf Hc. exists {| ModTime := 5 * Hour |}, w, now0.
  repeat split.
  - cbn. unfold fakeStat. now rewrite Hs, Hf.
  - cbn. unfold fakeNow. now rewrite Hc.
  - vm_compute. discriminate.
Qed.

Lemma sample_stale : cacheMissing cachePath staleHost staleHost staleLog.
Proof.
  right. exists {| ModTime := 3 * Hour |}, staleHost, now0.
  repeat split; reflexivity.
Qed.

Lemma sample_absent (w : World) :
  statFault w = None ->
  files w = ∅ ->
  cacheMissing cachePath w w absentLog.
Proof.
  intros Hs Hf. left. exists (noEntry "stat" cachePath).
  repeat split.
  cbn. unfold fakeStat. rewrite Hs, Hf, lookup_empty. reflexivity.
Qed.

Lemma queryVault_malformed_payload_witness :
  fst (queryVault
         (start data1 (withVaultAnswer (Ok (Some brokenAnswer)) bare)))
    = Returned ("", Some (errors_New "Error parsing secret data"))
  /\ fst (queryVault
            (start data1 (withVaultAnswer (Ok (Some blankAnswer)) bare)))
     = Returned ("", Some (errors_New "password is empty"))
  /\ fst (queryVault
            (start data1 (withVaultAnswer (Ok (Some hollowAnswer)) bare)))
     = Returned ("", Some (errors_New "password not set in vault")).
Proof.
  split; [|split].
  - refine (proj1 (queryVault_malformed_payload
                     (start data1
                        (withVaultAnswer (Ok (Some brokenAnswer)) bare))
                     sampleVaultClient
                     (withVaultAnswer (Ok (Some brokenAnswer)) bare)
                     (withVaultAnswer (Ok (Some brokenAnswer)) bare)
                     brokenAnswer eq_refl eq_refl) _).
    left. intros entries. vm_compute. discriminate.
  - refine (proj1 (proj2 (queryVault_malformed_payload
                     (start data1
                        (withVaultAnswer (Ok (Some blankAnswer)) bare))
                     sampleVaultClient
                     (withVaultAnswer (Ok (Some blankAnswer)) bare)
                     (withVaultAnswer (Ok (Some blankAnswer)) bare)
                     blankAnswer eq_refl eq_refl))
              [("user", VString "sre")] (VString "") [] _ _ _).
    + vm_compute. reflexivity.
    + intros kv [<- | []]. vm_compute. discriminate.
    + reflexivity.
  - refine (proj1 (proj2 (proj2 (queryVault_malformed_payload
                     (start data1
                        (withVaultAnswer (Ok (Some hollowAnswer)) bare))
                     sampleVaultClient
                     (withVaultAnswer (Ok (Some hollowAnswer)) bare)
                     (withVaultAnswer (Ok (Some hollowAnswer)) bare)
                     hollowAnswer eq_refl eq_refl))) _).
    vm_compute. reflexivity.
Defined.

Lemma GetVaultSecret_stat_failure_panics_witness :
  GetVaultSecret osc (start data0 lockedHost)
    = (Panicked nil_dereference,
       at_ data1 lockedHost
         [CallStat cachePath (Err (denied "stat" cachePath))])
  /\ count isNewClient
       (calls (snd (GetVaultSecret osc (start data0 lockedHost)))) = 0%nat.
Proof.
  apply (GetVaultSecret_stat_failure_panics osc data0 data1
           lockedHost lockedHost (denied "stat" cachePath)).
  - exact sample_resolves.
  - reflexivity.
  - reflexivity.
Defined.

Lemma GetVaultSecret_unreadable_cache_falls_back_witness :
  fst (GetVaultSecret osc (start data0 unreadableHost))
    = Returned ("hunter2", None)
  /\ count isNewClient
       (calls (snd (GetVaultSecret osc (start data0 unreadableHost))))
     = 1%nat
  /\ (count isLogicalRead
        (calls (snd (GetVaultSecret osc (start data0 unreadableHost))))
      <= 1)%nat
  /\ count isFileRead
       (calls (snd (GetVaultSecret osc (start data0 unreadableHost))))
     = 1%nat
  /\ count isRemove
       (calls (snd (GetVaultSecret osc (start data0 unreadableHost))))
     = 1%nat
  /\ count isFileWrite
       (calls (snd (GetVaultSecret osc (start data0 unreadableHost))))
     = 0%nat.
Proof.
  destruct (GetVaultSecret_unreadable_cache_falls_back osc data0 data1
              unreadableHost unreadableHost unreadableHost
              (snd (os_Remove cachePath unreadableHost))
              freshLog (denied "open" cachePath) None)
    as [Hrun Hcounts].
  - exact sample_resolves.
  - apply sample_fresh; reflexivity.
  - reflexivity.
  - reflexivity.
  - split; [|exact Hcounts]. rewrite Hrun. reflexivity.
Defined.

Lemma GetVaultSecret_save_failure_returns_secret_witness :
  fst (GetVaultSecret osc (start data0 readOnlyHost))
    = Returned ("hunter2", None).
Proof.
  rewrite (GetVaultSecret_save_failure_returns_secret osc data0 data1
             readOnlyHost readOnlyHost absentLog "hunter2"
             (snd (queryVault (at_ data1 readOnlyHost absentLog)))
             (snd (saveSecret cachePath "hunter2"
                     (snd (queryVault (at_ data1 readOnlyHost absentLog)))))
             (denied "open" cachePath)).
  - reflexivity.
  - exact sample_resolves.
  - apply sample_absent; reflexivity.
  - reflexivity.
  - reflexivity.
Defined.

Lemma GetVaultSecret_cache_freshness_witness :
  (fst (GetVaultSecret osc (start data0 freshHost))
     = Returned ("cached", None)
   /\ count isNewClient
        (calls (snd (GetVaultSecret osc (start data0 freshHost)))) = 0%nat)
  /\ (fst (GetVaultSecret osc (start data0 downHost))
        = Returned ("", Some unreachable)
      /\ count isFileWrite
           (calls (snd (GetVaultSecret osc (start data0 downHost))))
         = 0%nat)
  /\ (fst (GetVaultSecret osc (start data0 staleHost))
        = Returned ("hunter2", None)
      /\ count isLogicalRead
           (calls (snd (GetVaultSecret osc (start data0 staleHost))))
         = 1%nat
      /\ count isFileWrite
           (calls (snd (GetVaultSecret osc (start data0 staleHost))))
         = 1%nat).
Proof.
  split; [|split].
  - destruct (proj1 (GetVaultSecret_cache_freshness osc data0 data1
                       freshHost freshHost freshLog sample_resolves)
                (sample_fresh freshHost eq_refl eq_refl eq_refl)
                "cached" freshHost eq_refl)
      as (Hrun & Hn & _).
    split; [rewrite Hrun; reflexivity | exact Hn].
  - assert (Hq : queryVault (at_ data1 downHost absentLog)
                 = (Returned ("", Some unreachable),
                    snd (queryVault (at_ data1 downHost absentLog))))
      by (vm_compute; reflexivity).
    destruct (proj1 (proj2 (GetVaultSecret_cache_freshness osc data0 data1
                              downHost downHost absentLog sample_resolves)
                       (sample_absent downHost eq_refl eq_refl))
                _ _ _ Hq)
      as (Hrun & _ & Hw).
    split; [rewrite Hrun; reflexivity | exact Hw].
  - assert (Hq : queryVault (at_ data1 staleHost staleLog)
                 = (Returned ("hunter2", None),
                    snd (queryVault (at_ data1 staleHost staleLog))))
      by (vm_compute; reflexivity).
    assert (Hs : saveSecret (tempFilePathOf data1) "hunter2"
                   (snd (queryVault (at_ data1 staleHost staleLog)))
                 = (Returned None,
                    snd (saveSecret cachePath "hunter2"
                           (snd (queryVault
                                   (at_ data1 staleHost staleLog))))))
      by (vm_compute; reflexivity).
    assert (Hr : ioutil_ReadFile (tempFilePathOf data1)
                   (outside
                      (snd (saveSecret cachePath "hunter2"
                              (snd (queryVault
                                      (at_ data1 staleHost staleLog))))))
                 = (Ok "hunter2",
                    outside
                      (snd (saveSecret cachePath "hunter2"
                              (snd (queryVault
                                      (at_ data1 staleHost staleLog)))))))
      by (vm_compute; reflexivity).
    destruct (proj1 (proj2 (proj2 (GetVaultSecret_cache_freshness osc data0
                                     data1 staleHost staleHost staleLog
                                     sample_resolves)
                              sample_stale))
                _ _ _ _ _ Hq Hs Hr)
      as (Hrun & _ & Hl & Hw).
    split; [rewrite Hrun; reflexivity | split; [exact Hl | exact Hw]].
Defined.

(** C4 as it is written fails in three ways.  With the cache file written
    five hours ago but unreadable, a remote read takes place and its value,
    not the cached one, is returned.  With the file absent and the Vault
    server out of reach, nothing is written.  With the file absent and
    never readable, two remote reads take place. *)
Lemma GetVaultSecret_cache_freshness_as_written_fails :
  (cacheFresh cachePath unreadableHost unreadableHost freshLog
   /\ fst (GetVaultSecret osc (start data0 unreadableHost))
      = Returned ("hunter2", None)
   /\ count isLogicalRead
        (calls (snd (GetVaultSecret osc (start data0 unreadableHost))))
      = 1%nat)
  /\ (cacheMissing cachePath downHost downHost absentLog
      /\ fst (GetVaultSecret osc (start data0 downHost))
         = Returned ("", Some unreachable)
      /\ count isFileWrite
           (calls (snd (GetVaultSecret osc (start data0 downHost))))
         = 0%nat)
  /\ (cacheMissing cachePath opaqueHost opaqueHost absentLog
      /\ fst (GetVaultSecret osc (start data0 opaqueHost))
         = Returned ("hunter2", None)
      /\ count isLogicalRead
           (calls (snd (GetVaultSecret osc (start data0 opaqueHost))))
         = 2%nat
      /\ count isFileWrite
           (calls (snd (GetVaultSecret osc (start data0 opaqueHost))))
         = 1%nat).
Proof.
  split; [|split].
  - split; [apply sample_fresh; reflexivity|].
    split; vm_compute; reflexivity.
  - split; [apply sample_absent; reflexivity|].
    split; vm_compute; reflexivity.
  - split; [apply sample_absent; reflexivity|].
    repeat split; vm_compute; reflexivity.
Qed.

End SecretCacheExamples.

(** * Further properties of the two packages *)

(** ** Reading keys and numbers *)

Section KeysAndNumbers.

Import pagerduty.


Lemma digit_spec (c : ascii) :
  strconv.digit c
    = if isDecimalDigit c then Some (digitValue c) else None.
Proof. reflexivity. Qed.

Lemma digitValue_range (c : ascii) :
  isDecimalDigit c = true -> 0 <= digitValue c <= 9.
Proof.
  unfold isDecimalDigit, digitValue. intros H.
  apply andb_true_iff in H. destruct H as [H1 H2].
  apply Z.leb_le in H1. apply Z.leb_le in H2. lia.
Qed.

Lemma decimalFrom_grows (s : string) (n : Z) :
  allDigits s = true -> 0 <= n -> n <= decimalFrom n s.
Proof.
  revert n. induction s as [|c s IH]; intros n Hd Hn; cbn in *; [lia|].
  apply andb_true_iff in Hd. destruct Hd as [Hc Hs].
  pose proof (digitValue_range c Hc).
  specialize (IH (n * 10 + digitValue c) Hs). lia.
Qed.

Lemma scan_spec (s0 s : string) (n0 n : Z) :
  0 <= n0 <= strconv.maxVal32 ->
  strconv.scan s0 s n0 = (n, None)
  <-> allDigits s = true /\ decimalFrom n0 s = n /\ n <= strconv.maxVal32.
Proof.
  revert n0. induction s as [|c s IH]; intros n0 Hn0; cbn [strconv.scan
    allDigits decimalFrom].
  - split.
    + intros [= <-]. repeat split; lia.
    + intros (_ & <- & _). reflexivity.
  - rewrite digit_spec. destruct (isDecimalDigit c) eqn:Hc; cbn [andb].
    + pose proof (digitValue_range c Hc) as Hr.
      destruct (Z.ltb_spec strconv.maxVal32 (n0 * 10 + digitValue c))
        as [Hover|Hfits].
      * split; [discriminate|].
        intros (Hs & <- & Hle).
        pose proof (decimalFrom_grows s (n0 * 10 + digitValue c) Hs).
        lia.
      * apply IH. lia.
    + split; [discriminate|]. intros (H & _). discriminate.
Qed.

Lemma scan_range (s0 s : string) (n0 : Z) :
  0 <= n0 <= strconv.maxVal32 ->
  0 <= fst (strconv.scan s0 s n0) <= strconv.maxVal32.
Proof.
  revert n0. induction s as [|c s IH]; intros n0 Hn0; cbn [strconv.scan].
  - exact Hn0.
  - rewrite digit_spec. destruct (isDecimalDigit c) eqn:Hc.
    + pose proof (digitValue_range c Hc) as Hr.
      destruct (Z.ltb_spec strconv.maxVal32 (n0 * 10 + digitValue c)).
      * cbn. unfold strconv.maxVal32. lia.
      * apply IH. lia.
    + cbn. unfold strconv.maxVal32. lia.
Qed.

(** X2: [convertStrToUint] succeeds exactly on the non-empty strings of
    decimal digits that write a number of at most [2^32 - 1], and then
    returns that number. *)
Theorem convertStrToUint_succeeds_iff (value : string) (n : Z) :
  convertStrToUint value = (n, None)
  <-> value <> ""
      /\ allDigits value = true
      /\ decimalFrom 0 value = n
      /\ n <= 4294967295.
Proof.
  assert (H0 : 0 <= 0 <= strconv.maxVal32) by (unfold strconv.maxVal32; lia).
  unfold convertStrToUint, strconv.ParseUint10_32.
  destruct value as [|c s].
  - split; [discriminate|]. intros (H & _). now destruct H.
  - pose proof (scan_spec (String c s) (String c s) 0 n H0) as Hspec.
    change strconv.maxVal32 with 4294967295 in Hspec.
    destruct (strconv.scan (String c s) (String c s) 0) as [m [e|]].
    + split; [discriminate|]. intros (_ & H). apply Hspec in H. discriminate.
    + split.
      * intros [= <-]. split; [discriminate|]. now apply Hspec.
      * intros (_ & H). apply Hspec in H. exact H.
Qed.

Lemma convertStrToUint_succeeds_iff_witness :
  convertStrToUint "300" = (300, None).
Proof.
  apply (proj2 (convertStrToUint_succeeds_iff "300" 300)).
  repeat split; [discriminate | lia].
Defined.

(** X3: whatever the string, the number [convertStrToUint] hands back lies
    between [0] and [2^32 - 1], and it is [0] unless the error is nil. *)
Theorem convertStrToUint_range (value : string) :
  0 <= fst (convertStrToUint value) <= 4294967295
  /\ (snd (convertStrToUint value) = None
      \/ fst (convertStrToUint value) = 0).
Proof.
  assert (H0 : 0 <= 0 <= strconv.maxVal32) by (unfold strconv.maxVal32; lia).
  unfold convertStrToUint, strconv.ParseUint10_32.
  destruct value as [|c s].
  - cbn. split; [lia | now right].
  - pose proof (scan_range (String c s) (String c s) 0 H0) as Hr.
    change strconv.maxVal32 with 4294967295 in Hr.
    destruct (strconv.scan (String c s) (String c s) 0) as [m [e|]];
      cbn in *.
    + split; [lia | now right].
    + split; [exact Hr | now left].
Qed.

End KeysAndNumbers.

(** ** The two configuration readers *)

Section ConfigurationReaders.

Import pagerduty.

Lemma getSecretKey_value (data : gmap string string) (key v : string) :
  getSecretKey data key = (v, None) -> data !! key = Some v /\ v <> "".
Proof.
  unfold getSecretKey. destruct (data !! key) as [[|c r]|]; try discriminate.
  intros [= <-]. split; [reflexivity | discriminate].
Qed.

Lemma convertStrToUint_error_value (value : string) (n : Z) (e : error) :
  convertStrToUint value = (n, Some e) -> n = 0.
Proof.
  unfold convertStrToUint.
  destruct (strconv.ParseUint10_32 value) as [m [e'|]]; congruence.
Qed.

(** X4: [ParsePDConfig] never touches the cluster ID, the base domain, the
    service ID and the integration ID of the record, whether it fails or
    not. *)
Theorem ParsePDConfig_keeps_cluster_fields (osc : k8s.Client) (data : Data) :
  ClusterID (snd (ParsePDConfig osc data)) = ClusterID data
  /\ BaseDomain (snd (ParsePDConfig osc data)) = BaseDomain data
  /\ ServiceID (snd (ParsePDConfig osc data)) = ServiceID data
  /\ IntegrationID (snd (ParsePDConfig osc data)) = IntegrationID data.
Proof.
  unfold ParsePDConfig.
  destruct (k8s.GetSecret osc pdSecretName) as [secret|err];
    [|repeat split; reflexivity].
  destruct (getSecretKey secret "PAGERDUTY_API_KEY") as [v1 [e1|]];
    [repeat split; reflexivity|].
  destruct (getSecretKey secret "ESCALATION_POLICY") as [v2 [e2|]];
    [repeat split; reflexivity|].
  destruct (getSecretKey secret "RESOLVE_TIMEOUT") as [v3 [e3|]];
    [repeat split; reflexivity|].
  destruct (convertStrToUint v3) as [n3 [e3|]];
    [repeat split; reflexivity|].
  destruct (getSecretKey secret "ACKNOWLEDGE_TIMEOUT") as [v4 [e4|]];
    [repeat split; reflexivity|].
  destruct (convertStrToUint v4) as [n4 [e4|]];
    [repeat split; reflexivity|].
  destruct (getSecretKey secret "SERVICE_PREFIX") as [v5 [e5|]];
    repeat split; reflexivity.
Qed.

(** X5: when [ParsePDConfig] returns no error, the secret was found, the
    API key and the escalation policy of the record are the non-empty
    strings it holds, the two timeouts are the numbers written under their
    keys, and the prefix is the string under [SERVICE_PREFIX] when that one
    is there and not empty, and [osd] otherwise. *)
Theorem ParsePDConfig_success (osc : k8s.Client) (data : Data) :
  fst (ParsePDConfig osc data) = None ->
  exists secret resolveStr ackStr,
    k8s.GetSecret osc pdSecretName = Ok secret
    /\ secret !! "PAGERDUTY_API_KEY"
       = Some (APIKey (snd (ParsePDConfig osc data)))
    /\ APIKey (snd (ParsePDConfig osc data)) <> ""
    /\ secret !! "ESCALATION_POLICY"
       = Some (escalationPolicyID (snd (ParsePDConfig osc data)))
    /\ escalationPolicyID (snd (ParsePDConfig osc data)) <> ""
    /\ secret !! "RESOLVE_TIMEOUT" = Some resolveStr
    /\ convertStrToUint resolveStr
       = (autoResolveTimeout (snd (ParsePDConfig osc data)), None)
    /\ secret !! "ACKNOWLEDGE_TIMEOUT" = Some ackStr
    /\ convertStrToUint ackStr
       = (acknowledgeTimeOut (snd (ParsePDConfig osc data)), None)
    /\ servicePrefix (snd (ParsePDConfig osc data))
       = match secret !! "SERVICE_PREFIX" with
         | Some (String c p) => String c p
         | _ => "osd"
         end.
Proof.
  unfold ParsePDConfig.
  destruct (k8s.GetSecret osc pdSecretName) as [secret|err];
    [|discriminate].
  destruct (getSecretKey secret "PAGERDUTY_API_KEY") as [v1 [e1|]] eqn:H1;
    [discriminate|].
  destruct (getSecretKey secret "ESCALATION_POLICY") as [v2 [e2|]] eqn:H2;
    [discriminate|].
  destruct (getSecretKey secret "RESOLVE_TIMEOUT") as [v3 [e3|]] eqn:H3;
    [discriminate|].
  destruct (convertStrToUint v3) as [n3 [e3|]] eqn:C3; [discriminate|].
  destruct (getSecretKey secret "ACKNOWLEDGE_TIMEOUT") as [v4 [e4|]] eqn:H4;
    [discriminate|].
  destruct (convertStrToUint v4) as [n4 [e4|]] eqn:C4; [discriminate|].
  apply getSecretKey_value in H1, H2, H3, H4.
  destruct H1 as [H1 N1], H2 as [H2 N2], H3 as [H3 _], H4 as [H4 _].
  intros _. exists secret, v3, v4.
  assert (Hp : servicePrefix
                 (snd (let '(v, err) := getSecretKey secret "SERVICE_PREFIX" in
                       let d := set_servicePrefix v
                                  (set_acknowledgeTimeOut n4
                                     (set_autoResolveTimeout n3
                                        (set_escalationPolicyID v2
                                           (set_APIKey v1 data)))) in
                       (@None error,
                        match err with
                        | Some _ => set_servicePrefix "osd" d
                        | None => d
                        end)))
               = match secret !! "SERVICE_PREFIX" with
                 | Some (String c p) => String c p
                 | _ => "osd"
                 end).
  { unfold getSecretKey.
    destruct (secret !! "SERVICE_PREFIX") as [[|c p]|]; reflexivity. }
  destruct (getSecretKey secret "SERVICE_PREFIX") as [v5 [e5|]];
    cbn in Hp |- *; repeat split; assumption.
Qed.

Lemma ParsePDConfig_success_witness :
  servicePrefix
    (snd (ParsePDConfig (fakepd.cluster samples.pdSecretWithPrefix)
            fakepd.data0)) = "stage"
  /\ autoResolveTimeout
       (snd (ParsePDConfig (fakepd.cluster samples.pdSecretWithPrefix)
               fakepd.data0)) = 300.
Proof.
  destruct (ParsePDConfig_success
              (fakepd.cluster samples.pdSecretWithPrefix) fakepd.data0)
    as (secret & rs & ks & Hget & _ & _ & _ & _ & Hrs & Hr & _ & _ & Hp).
  - vm_compute. reflexivity.
  - injection Hget as <-. split.
    + rewrite Hp. vm_compute. reflexivity.
    + vm_compute. reflexivity.
Defined.

(** X6: a timeout that is not a number fails the parsing with the error of
    the conversion, and the record is left half written: the API key and the
    escalation policy are already those of the secret and the auto-resolve
    timeout is now [0], while the acknowledge timeout and the prefix are
    still the old ones. *)
Theorem ParsePDConfig_bad_resolve_timeout
    (osc : k8s.Client) (data : Data) (secret : gmap string string)
    (apiKey policy resolveStr : string) (n : Z) (e : error) :
  k8s.GetSecret osc pdSecretName = Ok secret ->
  getSecretKey secret "PAGERDUTY_API_KEY" = (apiKey, None) ->
  getSecretKey secret "ESCALATION_POLICY" = (policy, None) ->
  getSecretKey secret "RESOLVE_TIMEOUT" = (resolveStr, None) ->
  convertStrToUint resolveStr = (n, Some e) ->
  ParsePDConfig osc data
    = (Some e,
       {| escalationPolicyID := policy;
          autoResolveTimeout := 0;
          acknowledgeTimeOut := acknowledgeTimeOut data;
          servicePrefix := servicePrefix data;
          APIKey := apiKey;
          ClusterID := ClusterID data;
          BaseDomain := BaseDomain data;
          ServiceID := ServiceID data;
          IntegrationID := IntegrationID data |}).
Proof.
  intros Hget H1 H2 H3 Hc.
  pose proof (convertStrToUint_error_value _ _ _ Hc) as ->.
  unfold ParsePDConfig. rewrite Hget, H1, H2, H3, Hc. reflexivity.
Qed.

Lemma ParsePDConfig_bad_resolve_timeout_witness :
  ParsePDConfig (fakepd.cluster samples.pdSecretBadTimeout) fakepd.data0
    = (Some (NumError "ParseUint" "5m" strconv.ErrSyntax),
       {| escalationPolicyID := "PESC001";
          autoResolveTimeout := 0;
          acknowledgeTimeOut := 600;
          servicePrefix := "osd";
          APIKey := "apikey";
          ClusterID := "abc123";
          BaseDomain := "example.com";
          ServiceID := "";
          IntegrationID := "INTOLD" |}).
Proof.
  apply (ParsePDConfig_bad_resolve_timeout
           (fakepd.cluster samples.pdSecretBadTimeout) fakepd.data0
           samples.pdSecretBadTimeout "apikey" "PESC001" "5m" 0
           (NumError "ParseUint" "5m" strconv.ErrSyntax));
    vm_compute; reflexivity.
Defined.

(** X7: when [ParseClusterConfig] returns no error, the config map
    [<name>-pd-config] of the namespace was found, the service ID and the
    integration ID of the record are the non-empty strings it holds under
    [SERVICE_ID] and [INTEGRATION_ID], and no other field has changed. *)
Theorem ParseClusterConfig_success
    (osc : k8s.Client) (namespace name : string) (data : Data) :
  fst (ParseClusterConfig osc namespace name data) = None ->
  exists configMap serviceID integrationID,
    k8s.GetConfigMap osc
      {| k8s.Namespace := namespace; k8s.Name := name +:+ "-pd-config" |}
      = Ok configMap
    /\ configMap !! "SERVICE_ID" = Some serviceID
    /\ serviceID <> ""
    /\ configMap !! "INTEGRATION_ID" = Some integrationID
    /\ integrationID <> ""
    /\ snd (ParseClusterConfig osc namespace name data)
       = set_IntegrationID integrationID (set_ServiceID serviceID data).
Proof.
  unfold ParseClusterConfig.
  destruct (k8s.GetConfigMap osc _) as [cm|err]; [|discriminate].
  unfold getConfigMapKey.
  destruct (cm !! "SERVICE_ID") as [[|c1 s1]|] eqn:E1; try discriminate.
  destruct (cm !! "INTEGRATION_ID") as [[|c2 s2]|] eqn:E2;
    try discriminate.
  intros _. exists cm, (String c1 s1), (String c2 s2).
  split; [reflexivity|]. split; [exact E1|]. split; [discriminate|].
  split; [exact E2|]. split; [discriminate|]. reflexivity.
Qed.

Lemma ParseClusterConfig_success_witness :
  snd (ParseClusterConfig (samples.clusterClient samples.clusterConfigMap)
         "uhc-abc123" "abc123" fakepd.data0)
    = set_IntegrationID "PNEW001" (set_ServiceID "POLD002" fakepd.data0).
Proof.
  destruct (ParseClusterConfig_success
              (samples.clusterClient samples.clusterConfigMap)
              "uhc-abc123" "abc123" fakepd.data0)
    as (cm & sid & iid & Hget & Hs & _ & Hi & _ & Hd).
  - vm_compute. reflexivity.
  - vm_compute in Hget. injection Hget as <-.
    vm_compute in Hs, Hi. injection Hs as <-. injection Hi as <-.
    exact Hd.
Defined.

(** X8: a failing [ParseClusterConfig] still writes to the record.  When
    [SERVICE_ID] does not resolve the service ID becomes the empty string;
    when [SERVICE_ID] resolves and [INTEGRATION_ID] does not, the service ID
    is replaced and the integration ID becomes the empty string.  In both
    cases the error of the failing key is returned. *)
Theorem ParseClusterConfig_failure_overwrites
    (osc : k8s.Client) (namespace name : string) (data : Data)
    (configMap : gmap string string) (e : error) :
  k8s.GetConfigMap osc
    {| k8s.Namespace := namespace; k8s.Name := name +:+ "-pd-config" |}
    = Ok configMap ->
  (snd (getConfigMapKey configMap "SERVICE_ID") = Some e ->
   ParseClusterConfig osc namespace name data
     = (Some e, set_ServiceID "" data))
  /\ (forall serviceID,
        getConfigMapKey configMap "SERVICE_ID" = (serviceID, None) ->
        snd (getConfigMapKey configMap "INTEGRATION_ID") = Some e ->
        ParseClusterConfig osc namespace name data
          = (Some e, set_IntegrationID "" (set_ServiceID serviceID data))).
Proof.
  intros Hget. unfold ParseClusterConfig. rewrite Hget. split.
  - unfold getConfigMapKey.
    destruct (configMap !! "SERVICE_ID") as [[|c1 s1]|]; cbn;
      try discriminate; intros [= <-]; reflexivity.
  - intros serviceID Hs. rewrite Hs. unfold getConfigMapKey.
    destruct (configMap !! "INTEGRATION_ID") as [[|c2 s2]|]; cbn;
      try discriminate; intros [= <-]; reflexivity.
Qed.

Lemma ParseClusterConfig_failure_overwrites_witness :
  ParseClusterConfig
    (samples.clusterClient (delete "INTEGRATION_ID" samples.clusterConfigMap))
    "uhc-abc123" "abc123" (set_ServiceID "PXYZ" fakepd.data0)
    = (Some (errors_New "INTEGRATION_ID does not exist"),
       set_IntegrationID "" (set_ServiceID "POLD002" fakepd.data0)).
Proof.
  refine (proj2 (ParseClusterConfig_failure_overwrites
                   (samples.clusterClient
                      (delete "INTEGRATION_ID" samples.clusterConfigMap))
                   "uhc-abc123" "abc123" (set_ServiceID "PXYZ" fakepd.data0)
                   (delete "INTEGRATION_ID" samples.clusterConfigMap)
                   (errors_New "INTEGRATION_ID does not exist") _)
            "POLD002" _ _);
    vm_compute; reflexivity.
Defined.

End ConfigurationReaders.

(** ** Every run of the provisioner *)

Section ProvisioningRuns.

Import pdApi pagerduty.
Context {W : Type} `{!API W}.

Lemma firstNamed_split (name : string) (svcs : list Service) (svc : Service) :
  firstNamed name svcs = Some svc ->
  exists before after,
    svcs = before ++ svc :: after
    /\ Service_Name svc = name
    /\ forall s, In s before -> Service_Name s <> name.
Proof.
  induction svcs as [|s svcs IH]; cbn; [discriminate|].
  destruct (String.eqb (Service_Name s) name) eqn:E.
  - intros [= <-]. exists [], svcs. apply String.eqb_eq in E.
    repeat split; [exact E | intros t []].
  - intros Hfind. destruct (IH Hfind) as (before & after & -> & Hn & Hno).
    exists (s :: before), after. repeat split; [exact Hn|].
    intros t [<- | Ht]; [|now apply Hno].
    apply String.eqb_neq in E. exact E.
Qed.

Lemma firstNamed_absent (name : string) (svcs : list Service) :
  firstNamed name svcs = None ->
  forall s, In s svcs -> Service_Name s <> name.
Proof.
  induction svcs as [|s svcs IH]; cbn; [intros _ t []|].
  destruct (String.eqb (Service_Name s) name) eqn:E; [discriminate|].
  intros Hnone t [<- | Ht]; [|now apply IH].
  apply String.eqb_neq in E. exact E.
Qed.

(** The four ways a run can go: the policy lookup fails; the creation
    fails for good; the creation meets a taken name and the listing does not
    help; or a service is at hand and the integration call decides. *)
Lemma CreateService_shapes (data : Data) (w : W) :
  (exists e w1,
      CreateService (start data w)
        = (Returned
             ("", Some (errors_New "Escalation policy not found in PagerDuty")),
           {| receiver := data; upstream := w1;
              calls := [CallGetEscalationPolicy (NewClient (APIKey data))
                          (escalationPolicyID data) (Err e)] |}))
  \/ (exists ep e w2,
        Contains (Error e) nameTakenText = false
        /\ CreateService (start data w)
           = (Returned ("", Some e),
              {| receiver := data; upstream := w2;
                 calls := [CallGetEscalationPolicy (NewClient (APIKey data))
                             (escalationPolicyID data) (Ok ep);
                           CallCreateService (NewClient (APIKey data))
                             (clusterServiceOf data ep) (Err e)] |}))
  \/ (exists ep e lr w3,
        Contains (Error e) nameTakenText = true
        /\ match lr with
           | Err _ => True
           | Ok resp =>
               forall s, In s (Services resp) ->
                         Service_Name s <> serviceName data
           end
        /\ CreateService (start data w)
           = (Returned ("", Some e),
              {| receiver := data; upstream := w3;
                 calls := [CallGetEscalationPolicy (NewClient (APIKey data))
                             (escalationPolicyID data) (Ok ep);
                           CallCreateService (NewClient (APIKey data))
                             (clusterServiceOf data ep) (Err e);
                           CallListServices (NewClient (APIKey data))
                             {| Query := serviceName data |} lr] |}))
  \/ (exists svc w' log r w'',
        (serviceCreated data w svc w' log
         \/ serviceAdopted data w svc w' log)
        /\ pdApi.CreateIntegration (NewClient (APIKey data)) (Service_ID svc)
             clusterIntegration w' = (r, w'')
        /\ CreateService (start data w)
           = match r with
             | Ok newInt =>
                 (Returned (Integration_ID newInt, None),
                  {| receiver :=
                       set_IntegrationID (Integration_ID newInt)
                         (set_ServiceID (Service_ID svc) data);
                     upstream := w'';
                     calls :=
                       log ++ [CallCreateIntegration (NewClient (APIKey data))
                                 (Service_ID svc) clusterIntegration r] |})
             | Err err =>
                 (Returned ("", Some err),
                  {| receiver := set_ServiceID (Service_ID svc) data;
                     upstream := w'';
                     calls :=
                       log ++ [CallCreateIntegration (NewClient (APIKey data))
                                 (Service_ID svc) clusterIntegration r] |})
             end).
Proof.
  destruct (pdApi.GetEscalationPolicy (NewClient (APIKey data))
              (escalationPolicyID data) w) as [[ep|e0] w1] eqn:Hep.
  2:{ left. exists e0, w1. pd_unfold. pd_step Hep. reflexivity. }
  right.
  destruct (pdApi.CreateService (NewClient (APIKey data))
              (clusterServiceOf data ep) w1) as [[svc|e] w2] eqn:Hcr.
  { right. right.
    destruct (pdApi.CreateIntegration (NewClient (APIKey data))
                (Service_ID svc) clusterIntegration w2) as [r w3] eqn:Hint.
    assert (Hc : serviceCreated data w svc w2
                   [CallGetEscalationPolicy (NewClient (APIKey data))
                      (escalationPolicyID data) (Ok ep);
                    CallCreateService (NewClient (APIKey data))
                      (clusterServiceOf data ep) (Ok svc)]).
    { exists ep, w1. repeat split; assumption. }
    eexists svc, w2, _, r, w3.
    split; [left; exact Hc|]. split; [exact Hint|].
    exact (CreateService_after_service _ _ _ _ _ _ _ (or_introl Hc) Hint). }
  destruct (Contains (Error e) nameTakenText) eqn:Hdup.
  2:{ left. exists ep, e, w2. split; [exact Hdup|].
      pd_unfold. pd_step Hep. pd_step Hcr. fold nameTakenText.
      rewrite Hdup. reflexivity. }
  right.
  destruct (pdApi.ListServices (NewClient (APIKey data))
              {| Query := serviceName data |} w2) as [[resp|e'] w3] eqn:Hls.
  2:{ left. exists ep, e, (Err e'), w3. split; [exact Hdup|].
      split; [exact I|].
      pd_unfold. pd_step Hep. pd_step Hcr. fold nameTakenText.
      rewrite Hdup. cbn [negb].
      change (Service_Name (clusterServiceOf data ep))
        with (serviceName data).
      pd_step Hls. reflexivity. }
  destruct (firstNamed (serviceName data) (Services resp)) as [svc|] eqn:Hf.
  2:{ left. exists ep, e, (Ok resp), w3. split; [exact Hdup|].
      split; [exact (firstNamed_absent _ _ Hf)|].
      pd_unfold. pd_step Hep. pd_step Hcr. fold nameTakenText.
      rewrite Hdup. cbn [negb].
      change (Service_Name (clusterServiceOf data ep))
        with (serviceName data).
      pd_step Hls. rewrite Hf. reflexivity. }
  right.
  destruct (firstNamed_split _ _ _ Hf) as (before & after & Hsp & Hn & Hno).
  destruct (pdApi.CreateIntegration (NewClient (APIKey data))
              (Service_ID svc) clusterIntegration w3) as [r w4] eqn:Hint.
  assert (Ha : serviceAdopted data w svc w3
                 [CallGetEscalationPolicy (NewClient (APIKey data))
                    (escalationPolicyID data) (Ok ep);
                  CallCreateService (NewClient (APIKey data))
                    (clusterServiceOf data ep) (Err e);
                  CallListServices (NewClient (APIKey data))
                    {| Query := serviceName data |} (Ok resp)]).
  { exists ep, w1, e, w2, resp, before, after. repeat split; assumption. }
  eexists svc, w3, _, r, w4.
  split; [right; exact Ha|]. split; [exact Hint|].
  exact (CreateService_after_service _ _ _ _ _ _ _ (or_intror Ha) Hint).
Qed.

End ProvisioningRuns.

Ltac pd_shapes data w :=
  destruct (CreateService_shapes data w)
    as [(e & w1 & Hrun)
       | [(ep & e & w2 & Hdup & Hrun)
         | [(ep & e & lr & w3 & Hdup & Hlr & Hrun)
           | (svc & w' & log & r & w'' & Hsvc & Hint & Hrun)]]].

Section ProvisioningRunsClaims.

Import pdApi pagerduty.
Context {W : Type} `{!API W}.


(** X10: [CreateService] writes to no field of the record other than the
    service ID and the integration ID.  When it returns an error, the string
    it returns is empty and the integration ID is the old one; when it
    returns no error, the string it returns is the integration ID now in
    the record. *)
Theorem CreateService_record_frame (data : Data) (w : W) :
  escalationPolicyID (receiver (snd (CreateService (start data w))))
    = escalationPolicyID data
  /\ autoResolveTimeout (receiver (snd (CreateService (start data w))))
    = autoResolveTimeout data
  /\ acknowledgeTimeOut (receiver (snd (CreateService (start data w))))
    = acknowledgeTimeOut data
  /\ servicePrefix (receiver (snd (CreateService (start data w))))
    = servicePrefix data
  /\ APIKey (receiver (snd (CreateService (start data w)))) = APIKey data
  /\ ClusterID (receiver (snd (CreateService (start data w))))
    = ClusterID data
  /\ BaseDomain (receiver (snd (CreateService (start data w))))
    = BaseDomain data
  /\ match fst (CreateService (start data w)) with
     | Returned (v, Some _) =>
         v = ""
         /\ IntegrationID (receiver (snd (CreateService (start data w))))
            = IntegrationID data
     | Returned (v, None) =>
         v = IntegrationID (receiver (snd (CreateService (start data w))))
     | Panicked _ => False
     end.
Proof.
  pd_shapes data w; rewrite Hrun.
  - cbn. repeat split.
  - cbn. repeat split.
  - cbn. repeat split.
  - destruct r; cbn; repeat split.
Qed.

(** X11: when the escalation policy resolves, the creation succeeds and
    the integration call succeeds, the new service's ID and the new
    integration's ID are stored, the integration's ID is returned, and the
    three calls are all the calls made: the services are not listed. *)
Theorem CreateService_creates_new_service
    (data : Data) (w w1 w2 w3 : W) (ep : EscalationPolicy) (svc : Service)
    (newInt : Integration) :
  pdApi.GetEscalationPolicy (NewClient (APIKey data))
    (escalationPolicyID data) w = (Ok ep, w1) ->
  pdApi.CreateService (NewClient (APIKey data)) (clusterServiceOf data ep)
    w1 = (Ok svc, w2) ->
  pdApi.CreateIntegration (NewClient (APIKey data)) (Service_ID svc)
    clusterIntegration w2 = (Ok newInt, w3) ->
  CreateService (start data w)
    = (Returned (Integration_ID newInt, None),
       {| receiver :=
            set_IntegrationID (Integration_ID newInt)
              (set_ServiceID (Service_ID svc) data);
          upstream := w3;
          calls :=
            [CallGetEscalationPolicy (NewClient (APIKey data))
               (escalationPolicyID data) (Ok ep);
             CallCreateService (NewClient (APIKey data))
               (clusterServiceOf data ep) (Ok svc);
             CallCreateIntegration (NewClient (APIKey data))
               (Service_ID svc) clusterIntegration (Ok newInt)] |}).
Proof.
  intros Hep Hcr Hint.
  pd_unfold. pd_step Hep. pd_step Hcr. pd_step Hint. reflexivity.
Qed.

(** X12: when the creation fails with the duplicate-name error and the
    listing of the services fails too, the error of the creation, not that
    of the listing, is returned; the record is left as it was and no
    integration-creation call is made. *)
Theorem CreateService_listing_failure
    (data : Data) (w w1 w2 w3 : W) (ep : EscalationPolicy)
    (e newerr : error) :
  pdApi.GetEscalationPolicy (NewClient (APIKey data))
    (escalationPolicyID data) w = (Ok ep, w1) ->
  pdApi.CreateService (NewClient (APIKey data)) (clusterServiceOf data ep)
    w1 = (Err e, w2) ->
  Contains (Error e) "Name has already been taken" = true ->
  pdApi.ListServices (NewClient (APIKey data))
    {| Query := serviceName data |} w2 = (Err newerr, w3) ->
  CreateService (start data w)
    = (Returned ("", Some e),
       {| receiver := data;
          upstream := w3;
          calls :=
            [CallGetEscalationPolicy (NewClient (APIKey data))
               (escalationPolicyID data) (Ok ep);
             CallCreateService (NewClient (APIKey data))
               (clusterServiceOf data ep) (Err e);
             CallListServices (NewClient (APIKey data))
               {| Query := serviceName data |} (Err newerr)] |}).
Proof.
  intros Hep Hcr Hdup Hls.
  pd_unfold. pd_step Hep. pd_step Hcr. rewrite Hdup. cbn [negb].
  change (Service_Name (clusterServiceOf data ep)) with (serviceName data).
  pd_step Hls. reflexivity.
Qed.

(** X13: an integration is only ever requested, with the API key of the
    record, as the [V4 Alertmanager] integration of type
    [events_api_v2_inbound_integration], on the service whose ID the record
    holds afterwards; and that service is either the one a creation call of
    this run returned, or one that a listing of this run returned under
    exactly the derived name. *)
Theorem CreateService_integration_target
    (data : Data) (w : W) (c : Client) (id : string) (i : Integration)
    (answer : result Integration) :
  In (CallCreateIntegration c id i answer)
     (calls (snd (CreateService (start data w)))) ->
  c = NewClient (APIKey data)
  /\ Integration_Name i = "V4 Alertmanager"
  /\ Integration_Type i = "events_api_v2_inbound_integration"
  /\ id = ServiceID (receiver (snd (CreateService (start data w))))
  /\ ((exists c' s svc,
          In (CallCreateService c' s (Ok svc))
             (calls (snd (CreateService (start data w))))
          /\ Service_ID svc = id)
      \/ (exists c' o resp svc,
            In (CallListServices c' o (Ok resp))
               (calls (snd (CreateService (start data w))))
            /\ In svc (Services resp)
            /\ Service_Name svc = serviceName data
            /\ Service_ID svc = id)).
Proof.
  pd_shapes data w; rewrite Hrun; cbn [snd calls receiver].
  - intros [H | []]. discriminate.
  - intros [H | [H | []]]; discriminate.
  - intros [H | [H | [H | []]]]; discriminate.
  - assert (Hrec : ServiceID
             (receiver
                (snd match r with
                     | Ok newInt =>
                         (Returned (Integration_ID newInt, @None error),
                          {| receiver :=
                               set_IntegrationID (Integration_ID newInt)
                                 (set_ServiceID (Service_ID svc) data);
                             upstream := w'';
                             calls :=
                               log ++ [CallCreateIntegration
                                         (NewClient (APIKey data))
                                         (Service_ID svc) clusterIntegration
                                         r] |})
                     | Err err =>
                         (Returned ("", Some err),
                          {| receiver := set_ServiceID (Service_ID svc) data;
                             upstream := w'';
                             calls :=
                               log ++ [CallCreateIntegration
                                         (NewClient (APIKey data))
                                         (Service_ID svc) clusterIntegration
                                         r] |})
                     end)) = Service_ID svc) by (destruct r; reflexivity).
    assert (Hcalls : calls
              (snd match r with
                   | Ok newInt =>
                       (Returned (Integration_ID newInt, @None error),
                        {| receiver :=
                             set_IntegrationID (Integration_ID newInt)
                               (set_ServiceID (Service_ID svc) data);
                           upstream := w'';
                           calls :=
                             log ++ [CallCreateIntegration
                                       (NewClient (APIKey data))
                                       (Service_ID svc) clusterIntegration
                                       r] |})
                   | Err err =>
                       (Returned ("", Some err),
                        {| receiver := set_ServiceID (Service_ID svc) data;
                           upstream := w'';
                           calls :=
                             log ++ [CallCreateIntegration
                                       (NewClient (APIKey data))
                                       (Service_ID svc) clusterIntegration
                                       r] |})
                   end)
              = log ++ [CallCreateIntegration (NewClient (APIKey data))
                          (Service_ID svc) clusterIntegration r])
      by (destruct r; reflexivity).
    rewrite Hrec, Hcalls. clear Hrec Hcalls Hrun.
    destruct Hsvc as [(ep & w1 & _ & _ & ->)
                     | (ep & w1 & e & w2 & resp & before & after &
                        _ & _ & _ & _ & Hsp & Hn & _ & ->)].
    + intros [H | [H | [H | []]]]; try discriminate.
      injection H as <- <- <- <-. repeat split.
      left. eexists _, _, svc. split; [right; left; reflexivity|reflexivity].
    + intros [H | [H | [H | [H | []]]]]; try discriminate.
      injection H as <- <- <- <-. repeat split.
      right. eexists _, _, resp, svc.
      split; [right; right; left; reflexivity|].
      split; [|split; [exact Hn | reflexivity]].
      rewrite Hsp. apply List.in_or_app. right. now left.
Qed.

(** X14: after a provisioning that returned the integration ID [id], the
    three lookups of the record work on what was just stored.
    [GetIntegrationKey] asks, with the same API key, for integration [id] of
    the stored service and returns its key, or the error as it is;
    [GetService] fetches the stored service; [DeleteService] deletes it.
    Each makes that one call and leaves the record alone.  The stored service
    ID is the one the integration was created on. *)
Theorem lookups_after_provisioning
    (data : Data) (w : W) (id : string) (s' : State W) :
  CreateService (start data w) = (Returned (id, None), s') ->
  (forall r w',
      pdApi.GetIntegration (NewClient (APIKey data)) (ServiceID (receiver s'))
        id (upstream s') = (r, w') ->
      GetIntegrationKey s'
        = (Returned
             match r with
             | Ok integration =>
                 (Integration_IntegrationKey integration, None)
             | Err err => ("", Some err)
             end,
           {| receiver := receiver s'; upstream := w';
              calls :=
                calls s' ++ [CallGetIntegration (NewClient (APIKey data))
                               (ServiceID (receiver s')) id r] |}))
  /\ (forall r w',
        pdApi.GetService (NewClient (APIKey data)) (ServiceID (receiver s'))
          (upstream s') = (r, w') ->
        GetService s'
          = (Returned
               match r with
               | Ok service => (Some service, None)
               | Err err => (None, Some err)
               end,
             {| receiver := receiver s'; upstream := w';
                calls :=
                  calls s' ++ [CallGetService (NewClient (APIKey data))
                                 (ServiceID (receiver s')) r] |}))
  /\ (forall r w',
        pdApi.DeleteService (NewClient (APIKey data))
          (ServiceID (receiver s')) (upstream s') = (r, w') ->
        DeleteService s'
          = (Returned r,
             {| receiver := receiver s'; upstream := w';
                calls :=
                  calls s' ++ [CallDeleteService (NewClient (APIKey data))
                                 (ServiceID (receiver s')) r] |}))
  /\ exists log newInt,
       calls s'
         = log ++ [CallCreateIntegration (NewClient (APIKey data))
                     (ServiceID (receiver s')) clusterIntegration
                     (Ok newInt)]
       /\ Integration_ID newInt = id.
Proof.
  intros Hok.
  assert (Hs : APIKey (receiver s') = APIKey data
               /\ IntegrationID (receiver s') = id
               /\ exists log newInt,
                    calls s'
                      = log ++ [CallCreateIntegration
                                  (NewClient (APIKey data))
                                  (ServiceID (receiver s'))
                                  clusterIntegration (Ok newInt)]
                    /\ Integration_ID newInt = id).
  { pd_shapes data w; rewrite Hrun in Hok; try discriminate.
    destruct r as [newInt|err]; [|discriminate].
    injection Hok as <- <-. cbn. repeat split. eauto. }
  destruct Hs as (Hkey & Hid & Hlog).
  repeat split; [| | |exact Hlog].
  - intros r w' Hget.
    unfold GetIntegrationKey, bind, gets, call, ret.
    rewrite Hkey, Hid. pd_step Hget. destruct r; reflexivity.
  - intros r w' Hget.
    unfold GetService, bind, gets, call, ret.
    rewrite Hkey. pd_step Hget. destruct r; reflexivity.
  - intros r w' Hdel.
    unfold DeleteService, bind, gets, call.
    rewrite Hkey. pd_step Hdel. reflexivity.
Qed.

End ProvisioningRunsClaims.

Section ProvisioningRunsExamples.

Import pdApi pagerduty fakepd samples.

Lemma CreateService_creates_new_service_witness :
  fst (CreateService (start data0 emptyAccount))
    = Returned ("PNEW002", None)
  /\ ServiceID (receiver (snd (CreateService (start data0 emptyAccount))))
     = "PNEW001".
Proof.
  rewrite (CreateService_creates_new_service data0 emptyAccount emptyAccount
             (snd (pdApi.CreateService sampleClient
                     (clusterServiceOf data0 policy) emptyAccount))
             (snd (pdApi.CreateIntegration sampleClient "PNEW001"
                     clusterIntegration
                     (snd (pdApi.CreateService sampleClient
                             (clusterServiceOf data0 policy) emptyAccount))))
             policy
             (withID "PNEW001" (clusterServiceOf data0 policy))
             {| Integration_ID := "PNEW002";
                Integration_Name := "V4 Alertmanager";
                Integration_Type := "events_api_v2_inbound_integration";
                Integration_IntegrationKey := "key-PNEW002" |});
    [split; reflexivity | reflexivity..].
Defined.

Lemma CreateService_integration_target_witness :
  "POLD002"
    = ServiceID
        (receiver (snd (CreateService
                          (start fakepd.data0 fakepd.takenAccount)))).
Proof.
  refine (proj1 (proj2 (proj2 (proj2
            (CreateService_integration_target
               fakepd.data0 fakepd.takenAccount fakepd.sampleClient
               "POLD002" clusterIntegration (Ok fakepd.sampleIntegration)
               _))))).
  vm_compute. right. right. right. left. reflexivity.
Defined.


Lemma CreateService_listing_failure_witness :
  CreateService (start data0 samples.listingDown)
    = (Returned ("", Some nameTaken),
       {| receiver := data0;
          upstream := samples.listingDown;
          calls :=
            [CallGetEscalationPolicy sampleClient "PESC001" (Ok policy);
             CallCreateService sampleClient (clusterServiceOf data0 policy)
               (Err nameTaken);
             CallListServices sampleClient {| Query := sampleName |}
               (Err serverError)] |}).
Proof.
  apply (CreateService_listing_failure data0 samples.listingDown
           samples.listingDown samples.listingDown samples.listingDown
           policy nameTaken serverError); reflexivity.
Defined.

Lemma lookups_after_provisioning_witness :
  fst (GetIntegrationKey (snd (CreateService (start data0 takenAccount))))
    = Returned ("key-PNEW001", None)
  /\ fst (DeleteService (snd (CreateService (start data0 takenAccount))))
     = Returned None.
Proof.
  assert (Hrun : CreateService (start data0 takenAccount)
                 = (Returned ("PNEW001", None),
                    snd (CreateService (start data0 takenAccount))))
    by (vm_compute; reflexivity).
  destruct (lookups_after_provisioning data0 takenAccount "PNEW001"
              (snd (CreateService (start data0 takenAccount))) Hrun)
    as (Hkey & _ & Hdel & _).
  split.
  - erewrite Hkey by (vm_compute; reflexivity). reflexivity.
  - erewrite Hdel by (vm_compute; reflexivity). reflexivity.
Defined.

End ProvisioningRunsExamples.

(** ** Every run of the secret cache *)

Section SecretCacheRuns.

Import host vault.
Context {W : Type} `{!Host W}.

Lemma within_app (l1 l2 : list Call) (a b c d e a' b' c' d' e' : nat) :
  within l1 a b c d e -> within l2 a' b' c' d' e' ->
  within (l1 ++ l2) (a + a') (b + b') (c + c') (d + d') (e + e').
Proof.
  unfold within. rewrite !host_count_app. lia.
Qed.

Lemma within_messages (msgs : list string) :
  within (List.map LogInfo msgs) 0 0 0 0 0.
Proof.
  unfold within. rewrite !count_LogInfo by reflexivity. lia.
Qed.

(** What one run of [queryVault] adds to the log. *)
Lemma queryVault_entries (s : State W) :
  exists entries,
    extends s (snd (queryVault s)) entries
    /\ ((exists c r, entries = [CallNewClient c r])
        \/ (exists c r c' p r' msgs,
              entries
                = [CallNewClient c r; CallRead c' p r']
                  ++ List.map LogInfo msgs)).
Proof.
  unfold queryVault, bind, gets, call.
  cbn [receiver outside calls].
  destruct (api_NewClient {| Address := URL (receiver s) |} (outside s))
    as [[client|e] w1] eqn:Hnew.
  - destruct (Logical_Read (SetToken client (Token (receiver s)))
                (Mount (receiver s) +:+ "/data/" +:+ Path (receiver s)) w1)
      as [[[vault|]|e] w2] eqn:Hread; cbn [receiver outside calls];
      rewrite Hread; cbn [receiver outside calls].
    + match goal with
      | |- context [readProperty ?p ?v ?st] =>
          destruct (readProperty_returns p v st) as (r & msgs & Hr)
      end.
      rewrite Hr. cbn [fst snd]. eexists. split.
      * split; [reflexivity|]. unfold logged. cbn [calls].
        rewrite <- !List.app_assoc. reflexivity.
      * right. eexists _, _, _, _, _, msgs. reflexivity.
    + unfold panic. cbn [fst snd]. eexists. split.
      * split; [reflexivity|]. cbn [calls].
        rewrite <- !List.app_assoc. reflexivity.
      * right. eexists _, _, _, _, _, []. reflexivity.
    + unfold ret. cbn [fst snd]. eexists. split.
      * split; [reflexivity|]. cbn [calls].
        rewrite <- !List.app_assoc. reflexivity.
      * right. eexists _, _, _, _, _, []. reflexivity.
  - unfold ret. cbn [fst snd]. eexists. split.
    + split; reflexivity.
    + left. eauto.
Qed.

Lemma queryVault_profile (s : State W) :
  exists entries,
    extends s (snd (queryVault s)) entries /\ within entries 0 1 1 0 0.
Proof.
  destruct (queryVault_entries s)
    as (entries & Hext & [(c & r & ->)
                         | (c & r & c' & p & r' & msgs & ->)]).
  - eexists. split; [exact Hext|]. unfold within. cbn. lia.
  - eexists. split; [exact Hext|].
    apply (within_app _ _ 0 1 1 0 0 0 0 0 0 0);
      [unfold within; cbn; lia | apply within_messages].
Qed.

Lemma saveSecret_profile (path value : string) (s : State W) :
  exists r s' entries,
    saveSecret path value s = (Returned r, s')
    /\ extends s s' entries
    /\ within entries 0 0 0 1 0.
Proof.
  unfold saveSecret, bind, call, log_Error, note, modify, ret.
  cbn [receiver outside calls].
  destruct (os_Remove path (outside s)) as [rm w1].
  cbn [receiver outside calls].
  destruct (os_Create path w1) as [[file|e] w2];
    cbn [receiver outside calls].
  - destruct (File_WriteString file value w2) as [[e|] w3];
      cbn [receiver outside calls];
      (eexists; eexists; eexists; split; [reflexivity|]; split;
       [split; [reflexivity|]; cbn [calls]; rewrite <- !List.app_assoc;
        reflexivity
       | unfold within; cbn; lia]).
  - eexists; eexists; eexists; split; [reflexivity|]; split;
      [split; [reflexivity|]; cbn [calls]; rewrite <- !List.app_assoc;
       reflexivity
      | unfold within; cbn; lia].
Qed.

Lemma readCache_profile (path : string) (s : State W) :
  exists entries,
    extends s (snd (readCache path s)) entries /\ within entries 0 1 1 0 1.
Proof.
  unfold readCache, bind, call, log_Error, note, modify, ret.
  cbn [receiver outside calls].
  destruct (ioutil_ReadFile path (outside s)) as [[fileDat|e] w1];
    cbn [receiver outside calls].
  - eexists. split; [split; reflexivity | unfold within; cbn; lia].
  - destruct (os_Remove path w1) as [rm w2]. cbn [receiver outside calls].
    match goal with
    | |- context [queryVault ?st] =>
        destruct (queryVault_profile st) as (qs & [Hqr Hqc] & Hq)
    end.
    cbn [receiver calls] in Hqr, Hqc.
    exists ([CallReadFile path (Err e);
             LogError e "Failed to read file - removing";
             CallRemove path rm] ++ qs).
    split.
    + split; [exact Hqr|]. rewrite Hqc, <- !List.app_assoc. reflexivity.
    + apply (within_app _ _ 0 0 0 0 1 0 1 1 0 0);
        [unfold within; cbn; lia | exact Hq].
Qed.

Lemma within_more (log : list Call) (a b c d e a' b' c' d' e' : nat) :
  within log a b c d e ->
  (a <= a')%nat -> (b <= b')%nat -> (c <= c')%nat -> (d <= d')%nat ->
  (e <= e')%nat ->
  within log a' b' c' d' e'.
Proof. unfold within. lia. Qed.

(** From the stat to the end: one stat, and then at most one fetch with its
    write, and at most one read of the file with its fallback. *)
Lemma readThrough_profile (data : Data) (w : W) :
  exists entries,
    extends (start data w) (snd (readThrough (start data w))) entries
    /\ within entries 1 2 2 1 1.
Proof.
  unfold readThrough, bind at 1 2 3, gets, call at 1, start.
  cbn [receiver outside calls].
  destruct (os_Stat (tempFilePathOf data) w) as [st w1].
  cbn [receiver outside calls].
  set (s1 := {| receiver := data; outside := w1;
                calls := [] ++ [CallStat (tempFilePathOf data) st] |}).
  assert (Hs1 : extends {| receiver := data; outside := w; calls := [] |}
                  s1 [CallStat (tempFilePathOf data) st]
                /\ within [CallStat (tempFilePathOf data) st] 1 0 0 0 0).
  { split; [split; reflexivity | unfold within; cbn; lia]. }
  destruct Hs1 as [Hx1 Hw1].
  assert (Hmf : exists s2 es,
             extends s1 s2 es /\ within es 0 0 0 0 0
             /\ (mustFetch st s1 = (Panicked nil_dereference, s2)
                 \/ exists b, mustFetch st s1 = (Returned b, s2))).
  { unfold mustFetch.
    destruct st as [fi|e].
    - cbn [os_IsNotExist]. unfold bind, call, ret.
      destruct (time_Now (outside s1)) as [now w2].
      exists {| receiver := receiver s1; outside := w2;
                calls := calls s1 ++ [CallNow now] |}, [CallNow now].
      split; [split; reflexivity|].
      split; [unfold within; cbn; lia|]. right. eauto.
    - destruct (os_IsNotExist (Some e)).
      + exists s1, []. split; [apply extends_refl|].
        split; [unfold within; cbn; lia|]. right. eauto.
      + exists s1, []. split; [apply extends_refl|].
        split; [unfold within; cbn; lia|]. left. reflexivity. }
  destruct Hmf as (s2 & es & Hx2 & Hw2 & [Hp | [fetch Hf]]).
  { rewrite Hp. cbn [snd]. eexists. split.
    - exact (extends_trans _ _ _ _ _ Hx1 Hx2).
    - eapply within_more;
        [exact (within_app _ _ _ _ _ _ _ _ _ _ _ _ Hw1 Hw2)|..]; lia. }
  rewrite Hf.
  pose proof (extends_trans _ _ _ _ _ Hx1 Hx2) as Hx12.
  pose proof (within_app _ _ _ _ _ _ _ _ _ _ _ _ Hw1 Hw2) as Hw12.
  cbn [Nat.add] in Hw12.
  destruct fetch.
  - unfold fetchAndSave, bind.
    destruct (queryVault_profile s2) as (qs & Hxq & Hwq).
    destruct (queryVault s2) as [[[v [err|]]|msg] s3]; cbn [snd] in Hxq.
    + unfold ret. cbn [snd]. eexists. split.
      * exact (extends_trans _ _ _ _ _ Hx12 Hxq).
      * eapply within_more;
          [exact (within_app _ _ _ _ _ _ _ _ _ _ _ _ Hw12 Hwq)|..]; lia.
    + destruct (saveSecret_profile (tempFilePathOf data) v s3)
        as (r & s4 & ss & Hsave & Hxs & Hws).
      rewrite Hsave.
      pose proof (extends_trans _ _ _ _ _
                    (extends_trans _ _ _ _ _ Hx12 Hxq) Hxs) as Hx4.
      pose proof (within_app _ _ _ _ _ _ _ _ _ _ _ _
                    (within_app _ _ _ _ _ _ _ _ _ _ _ _ Hw12 Hwq) Hws)
        as Hw4.
      cbn [Nat.add] in Hw4.
      destruct r as [err|].
      * unfold log_Error, note, modify, ret. cbn [snd].
        eexists. split.
        -- refine (extends_trans _ _ _ _ _ Hx4 _).
           split; reflexivity.
        -- eapply within_more;
             [apply (within_app _ _ _ _ _ _ _ 0 0 0 0 0 Hw4);
              unfold within; cbn; lia|..]; lia.
      * unfold ret.
        destruct (readCache_profile (tempFilePathOf data) s4)
          as (rs & Hxr & Hwr).
        eexists. split.
        -- exact (extends_trans _ _ _ _ _ Hx4 Hxr).
        -- eapply within_more;
             [exact (within_app _ _ _ _ _ _ _ _ _ _ _ _ Hw4 Hwr)|..]; lia.
    + cbn [snd]. eexists. split.
      * exact (extends_trans _ _ _ _ _ Hx12 Hxq).
      * eapply within_more;
          [exact (within_app _ _ _ _ _ _ _ _ _ _ _ _ Hw12 Hwq)|..]; lia.
  - unfold ret.
    destruct (readCache_profile (tempFilePathOf data) s2)
      as (rs & Hxr & Hwr).
    eexists. split.
    + exact (extends_trans _ _ _ _ _ Hx12 Hxr).
    + eapply within_more;
        [exact (within_app _ _ _ _ _ _ _ _ _ _ _ _ Hw12 Hwr)|..]; lia.
Qed.

End SecretCacheRuns.

(** The run stops at the key [key] of the connection secret [cfg]. *)
Ltac vault_stop cfg key Hkey :=
  left; eexists _, _;
  split;
    [unfold vault.GetVaultSecret, vault.fetchKey, bind, gets, vault.assign,
       modify, ret, vault.start;
     cbn [vault.receiver vault.outside vault.calls];
     repeat match goal with
            | H : _ = _ |- _ => rewrite H
            end;
     reflexivity|];
  split; [reflexivity|]; split; [reflexivity|];
  right; exists cfg, key;
  split; [reflexivity|]; split; [cbn; auto 10 | rewrite Hkey; reflexivity].

Section SecretCacheRunsClaims.

Import host vault.
Context {W : Type} `{!Host W}.

(** A run either stops while reading the connection secret, with nothing
    called and the error of the secret or of the first failing key, or goes
    on from the stat with all six keys stored. *)
Lemma GetVaultSecret_shapes (osc : k8s.Client) (data : Data) (w : W) :
  (exists e d,
      GetVaultSecret osc (start data w) = (Returned ("", Some e), start d w)
      /\ Namespace d = Namespace data
      /\ SecretName d = SecretName data
      /\ (k8s.GetSecret osc
            {| k8s.Namespace := Namespace data;
               k8s.Name := SecretName data |} = Err e
          \/ exists vaultConfig key,
               k8s.GetSecret osc
                 {| k8s.Namespace := Namespace data;
                    k8s.Name := SecretName data |} = Ok vaultConfig
               /\ In key vaultKeys
               /\ snd (getDataKey vaultConfig key) = Some e))
  \/ (exists data',
        resolves osc data data'
        /\ GetVaultSecret osc (start data w) = readThrough (start data' w)).
Proof.
  destruct (k8s.GetSecret osc
              {| k8s.Namespace := Namespace data;
                 k8s.Name := SecretName data |}) as [cfg|e0] eqn:Hget.
  2:{ left. exists e0, data. repeat split; [|now left].
      unfold GetVaultSecret, bind, gets, ret, start.
      cbn [receiver]. rewrite Hget. reflexivity. }
  destruct (getDataKey cfg "VAULT_URL") as [v1 [e|]] eqn:H1;
    [vault_stop cfg "VAULT_URL" H1|].
  destruct (getDataKey cfg "VAULT_TOKEN") as [v2 [e|]] eqn:H2;
    [vault_stop cfg "VAULT_TOKEN" H2|].
  destruct (getDataKey cfg "VAULT_MOUNT") as [v3 [e|]] eqn:H3;
    [vault_stop cfg "VAULT_MOUNT" H3|].
  destruct (getDataKey cfg "VAULT_KEY") as [v4 [e|]] eqn:H4;
    [vault_stop cfg "VAULT_KEY" H4|].
  destruct (getDataKey cfg "VAULT_PROPERTY") as [v5 [e|]] eqn:H5;
    [vault_stop cfg "VAULT_PROPERTY" H5|].
  destruct (getDataKey cfg "VAULT_PATH") as [v6 [e|]] eqn:H6;
    [vault_stop cfg "VAULT_PATH" H6|].
  right.
  assert (Hres : resolves osc data
            {| Namespace := Namespace data; SecretName := SecretName data;
               Path := v6; Property := v5; URL := v1; Token := v2;
               Mount := v3; Key := v4 |}).
  { exists cfg, v1, v2, v3, v4, v5, v6. repeat split; assumption. }
  eexists. split; [exact Hres|].
  exact (GetVaultSecret_resolved _ _ _ _ Hres).
Qed.

(** X15: when the connection secret cannot be fetched, or one of its six
    keys is absent or empty, [GetVaultSecret] returns an error, that of the
    fetch or of one of the keys, before anything else happens: no stat, no
    remote read, no file access, and the world is as it was. *)
Theorem GetVaultSecret_fails_fast (osc : k8s.Client) (data : Data) (w : W) :
  (exists e,
      k8s.GetSecret osc
        {| k8s.Namespace := Namespace data; k8s.Name := SecretName data |}
        = Err e)
  \/ (exists vaultConfig key,
        k8s.GetSecret osc
          {| k8s.Namespace := Namespace data; k8s.Name := SecretName data |}
          = Ok vaultConfig
        /\ In key vaultKeys
        /\ snd (getDataKey vaultConfig key) <> None) ->
  (exists err,
      fst (GetVaultSecret osc (start data w)) = Returned ("", Some err)
      /\ (k8s.GetSecret osc
            {| k8s.Namespace := Namespace data;
               k8s.Name := SecretName data |} = Err err
          \/ exists vaultConfig key,
               k8s.GetSecret osc
                 {| k8s.Namespace := Namespace data;
                    k8s.Name := SecretName data |} = Ok vaultConfig
               /\ In key vaultKeys
               /\ snd (getDataKey vaultConfig key) = Some err))
  /\ calls (snd (GetVaultSecret osc (start data w))) = []
  /\ outside (snd (GetVaultSecret osc (start data w))) = w.
Proof.
  intros Hfail.
  destruct (GetVaultSecret_shapes osc data w)
    as [(e & d & Hrun & _ & _ & Hwhy) | (data' & Hres & _)].
  - rewrite Hrun. cbn. split; [|split; reflexivity].
    exists e. split; [reflexivity | exact Hwhy].
  - exfalso.
    destruct Hres as (cfg & url & token & mount & key & property & path &
                      Hget & Hurl & Htoken & Hmount & Hkey & Hprop & Hpath
                      & _).
    destruct Hfail as [(e & He) | (cfg' & k & Hget' & Hin & Hk)];
      [congruence|].
    rewrite Hget in Hget'. injection Hget' as <-.
    cbn in Hin.
    destruct Hin as [<- | [<- | [<- | [<- | [<- | [<- | []]]]]]];
      apply Hk.
    + now rewrite Hurl.
    + now rewrite Htoken.
    + now rewrite Hmount.
    + now rewrite Hkey.
    + now rewrite Hprop.
    + now rewrite Hpath.
Qed.

(** X16: whatever the cluster, the file system, the clock and Vault answer,
    one call of [GetVaultSecret] stats the cache file at most once, runs
    [queryVault] at most twice (so makes at most two [Logical().Read]
    calls), writes the cache file at most once and reads it at most once;
    and it never changes the namespace and the secret name of the record. *)
Theorem GetVaultSecret_call_bounds (osc : k8s.Client) (data : Data) (w : W) :
  (count isStat (calls (snd (GetVaultSecret osc (start data w)))) <= 1)%nat
  /\ (count isNewClient (calls (snd (GetVaultSecret osc (start data w))))
      <= 2)%nat
  /\ (count isLogicalRead (calls (snd (GetVaultSecret osc (start data w))))
      <= 2)%nat
  /\ (count isFileWrite (calls (snd (GetVaultSecret osc (start data w))))
      <= 1)%nat
  /\ (count isFileRead (calls (snd (GetVaultSecret osc (start data w))))
      <= 1)%nat
  /\ Namespace (receiver (snd (GetVaultSecret osc (start data w))))
     = Namespace data
  /\ SecretName (receiver (snd (GetVaultSecret osc (start data w))))
     = SecretName data.
Proof.
  destruct (GetVaultSecret_shapes osc data w)
    as [(e & d & Hrun & Hn & Hs & _) | (data' & Hres & Hrun)];
    rewrite Hrun.
  - cbn. repeat split; solve [lia | assumption].
  - destruct (readThrough_profile data' w)
      as (entries & [Hrec Hcalls] & Hw).
    rewrite Hrec, Hcalls. cbn [start calls receiver app].
    destruct Hres as (cfg & url & token & mount & key & property & path &
                      _ & _ & _ & _ & _ & _ & _ & ->).
    unfold within in Hw. cbn [Namespace SecretName]. intuition lia.
Qed.

(** X17: once the six keys resolve, the record holds the values of the
    connection secret at the end of the call, whatever the call then does
    and however it ends. *)
Theorem GetVaultSecret_stores_connection
    (osc : k8s.Client) (data data' : Data) (w : W) :
  resolves osc data data' ->
  receiver (snd (GetVaultSecret osc (start data w))) = data'.
Proof.
  intros Hres. rewrite (GetVaultSecret_resolved _ _ _ _ Hres).
  destruct (readThrough_profile data' w) as (entries & [Hrec _] & _).
  exact Hrec.
Qed.

(** X18: the cache file is named after the mount and the property only.
    Two retrievals whose connection secrets agree on [VAULT_MOUNT] and
    [VAULT_PROPERTY], whatever their URL, token and path, read the same
    file: while it is fresh and readable both return its contents and
    neither undertakes a remote read. *)
Theorem GetVaultSecret_cache_shared
    (osc1 osc2 : k8s.Client) (data1 data2 d1 d2 : Data) (w w' w3 : W)
    (log : list Call) (contents : string) :
  resolves osc1 data1 d1 ->
  resolves osc2 data2 d2 ->
  Mount d1 = Mount d2 ->
  Property d1 = Property d2 ->
  cacheFresh (tempFilePathOf d1) w w' log ->
  ioutil_ReadFile (tempFilePathOf d1) w' = (Ok contents, w3) ->
  fst (GetVaultSecret osc1 (start data1 w)) = Returned (contents, None)
  /\ fst (GetVaultSecret osc2 (start data2 w)) = Returned (contents, None)
  /\ count isNewClient (calls (snd (GetVaultSecret osc1 (start data1 w))))
     = 0%nat
  /\ count isNewClient (calls (snd (GetVaultSecret osc2 (start data2 w))))
     = 0%nat.
Proof.
  intros Hr1 Hr2 Hm Hp Hfresh Hread.
  assert (Hpath : tempFilePathOf d2 = tempFilePathOf d1).
  { unfold tempFilePathOf. now rewrite Hm, Hp. }
  rewrite (GetVaultSecret_resolved _ _ _ _ Hr1).
  rewrite (GetVaultSecret_resolved _ _ _ _ Hr2).
  pose proof Hfresh as Hfresh2. rewrite <- Hpath in Hfresh2.
  rewrite (readThrough_fresh _ _ _ _ Hfresh).
  rewrite (readThrough_fresh _ _ _ _ Hfresh2).
  rewrite Hpath.
  destruct Hfresh as (fi & w1 & now & _ & _ & _ & ->).
  unfold readCache, bind, call, ret, at_.
  cbn [receiver outside calls]. rewrite Hread.
  repeat split; reflexivity.
Qed.

End SecretCacheRunsClaims.

(** ** Every answer of Vault *)

Section VaultAnswers.

Import host vault.
Context {W : Type} `{!Host W}.

Lemma Sprintv_empty (v : value) :
  Nat.leb (String.length (Sprintv v)) 0 = emptyText v.
Proof.
  destruct v as [|b|n|t|l|m]; cbn; try reflexivity.
  - now destruct b.
  - now destruct n.
  - now destruct t.
Qed.

Lemma scanProps_located (property : string)
    (entries : list (string * value)) (v : value) :
  located property entries v ->
  scanProps property entries
    = if emptyText v
      then ("", Some (errors_New (property +:+ " is empty")))
      else (Sprintv v, None).
Proof.
  intros (before & after & -> & Hno).
  rewrite (scanProps_skips _ _ _ Hno). cbn [scanProps].
  rewrite String.eqb_refl, Sprintv_empty. reflexivity.
Qed.

Lemma scanProps_absent (property : string)
    (entries : list (string * value)) :
  (forall kv, In kv entries -> fst kv <> property) ->
  scanProps property entries
    = ("", Some (errors_New (property +:+ " not set in vault"))).
Proof.
  intros Hno. rewrite <- (List.app_nil_r entries).
  now rewrite (scanProps_skips _ _ _ Hno).
Qed.

Lemma readProperty_log (property : string) (vault : Secret) (s : State W) :
  receiver (snd (readProperty property vault s)) = receiver s
  /\ outside (snd (readProperty property vault s)) = outside s
  /\ calls (snd (readProperty property vault s))
     = calls s
       ++ match assertMap (Secret_Data vault !! "data") with
          | Some _ => List.map LogInfo (rev (Secret_Warnings vault))
          | None => []
          end.
Proof.
  unfold readProperty.
  destruct (assertMap (Secret_Data vault !! "data")) as [secret|].
  - unfold bind. rewrite logEach_logs.
    destruct (Nat.eqb (size (Secret_Data vault)) 0); repeat split.
  - cbn. rewrite List.app_nil_r. repeat split.
Qed.

(** X19: when Vault answers with a secret whose [data] field is a nested
    map that has the property, [queryVault] returns the text of its value
    with no error, unless that text is empty, which happens only for the
    empty string (and an empty number literal) and gives the error
    [<property> is empty].  A null value, for one, is returned with no
    error as the text [<nil>]. *)
Theorem queryVault_property_value
    (s : State W) (client : Client) (w1 w2 : W) (vault : Secret)
    (entries : list (string * value)) (v : value) :
  api_NewClient {| Address := URL (receiver s) |} (outside s)
    = (Ok client, w1) ->
  Logical_Read (SetToken client (Token (receiver s)))
    (Mount (receiver s) +:+ "/data/" +:+ Path (receiver s)) w1
    = (Ok (Some vault), w2) ->
  Secret_Data vault !! "data" = Some (VMap entries) ->
  located (Property (receiver s)) entries v ->
  fst (queryVault s)
    = Returned
        (if emptyText v
         then ("", Some (errors_New (Property (receiver s) +:+ " is empty")))
         else (Sprintv v, None)).
Proof.
  intros Hnew Hread Hdata Hloc.
  rewrite (queryVault_on_secret _ _ _ _ _ Hnew Hread).
  rewrite Hdata. cbn [assertMap].
  rewrite (size_of_inhabited _ _ _ Hdata).
  now rewrite (scanProps_located _ _ _ Hloc).
Qed.

(** X20: when the nested map of the answer has no entry for the property,
    [queryVault] fails with [<property> not set in vault]. *)
Theorem queryVault_property_absent
    (s : State W) (client : Client) (w1 w2 : W) (vault : Secret)
    (entries : list (string * value)) :
  api_NewClient {| Address := URL (receiver s) |} (outside s)
    = (Ok client, w1) ->
  Logical_Read (SetToken client (Token (receiver s)))
    (Mount (receiver s) +:+ "/data/" +:+ Path (receiver s)) w1
    = (Ok (Some vault), w2) ->
  Secret_Data vault !! "data" = Some (VMap entries) ->
  (forall kv, In kv entries -> fst kv <> Property (receiver s)) ->
  fst (queryVault s)
    = Returned
        ("", Some (errors_New
                     (Property (receiver s) +:+ " not set in vault"))).
Proof.
  intros Hnew Hread Hdata Hno.
  rewrite (queryVault_on_secret _ _ _ _ _ Hnew Hread).
  rewrite Hdata. cbn [assertMap].
  rewrite (size_of_inhabited _ _ _ Hdata).
  now rewrite (scanProps_absent _ _ Hno).
Qed.

(** X21: when the Vault client answers with a nil secret and a nil error
    (there is nothing at the path), [queryVault] reads the data of the nil
    secret and panics with a nil dereference, right after the read. *)
Theorem queryVault_nil_secret_panics
    (s : State W) (client : Client) (w1 w2 : W) :
  api_NewClient {| Address := URL (receiver s) |} (outside s)
    = (Ok client, w1) ->
  Logical_Read (SetToken client (Token (receiver s)))
    (Mount (receiver s) +:+ "/data/" +:+ Path (receiver s)) w1
    = (Ok None, w2) ->
  queryVault s
    = (Panicked nil_dereference,
       {| receiver := receiver s; outside := w2;
          calls :=
            calls s
            ++ [CallNewClient {| Address := URL (receiver s) |} (Ok client);
                CallRead (SetToken client (Token (receiver s)))
                  (Mount (receiver s) +:+ "/data/" +:+ Path (receiver s))
                  (Ok None)] |}).
Proof.
  intros Hnew Hread.
  unfold queryVault, bind, gets, call, panic.
  vault_step Hnew. vault_step Hread.
  rewrite <- !List.app_assoc. reflexivity.
Qed.

(** X22: an error of the client construction or of the read is returned as
    it is, with the empty string.  When the client cannot be built no read
    is made; otherwise the one read is made at [<mount>/data/<path>] with
    the client built for the URL of the record and carrying its token. *)
Theorem queryVault_transport_errors (s : State W) (e : error) (w' : W) :
  api_NewClient {| Address := URL (receiver s) |} (outside s) = (Err e, w')
  \/ (exists client w1,
        api_NewClient {| Address := URL (receiver s) |} (outside s)
          = (Ok client, w1)
        /\ Logical_Read (SetToken client (Token (receiver s)))
             (Mount (receiver s) +:+ "/data/" +:+ Path (receiver s)) w1
           = (Err e, w')) ->
  fst (queryVault s) = Returned ("", Some e)
  /\ receiver (snd (queryVault s)) = receiver s
  /\ outside (snd (queryVault s)) = w'
  /\ exists r,
       calls (snd (queryVault s))
         = calls s
           ++ CallNewClient {| Address := URL (receiver s) |} r
              :: match r with
                 | Err _ => []
                 | Ok client =>
                     [CallRead (SetToken client (Token (receiver s)))
                        (Mount (receiver s) +:+ "/data/" +:+
                         Path (receiver s))
                        (Err e)]
                 end.
Proof.
  intros [Hnew | (client & w1 & Hnew & Hread)].
  - unfold queryVault, bind, gets, call, ret. vault_step Hnew.
    repeat split. exists (Err e). reflexivity.
  - unfold queryVault, bind, gets, call, ret.
    vault_step Hnew. vault_step Hread.
    repeat split. exists (Ok client).
    rewrite <- !List.app_assoc. reflexivity.
Qed.

(** X23: on an answer that is a secret, the warnings of the answer are
    written to the log from the last to the first, after the two calls, but
    only when the [data] field is a nested map: when the type assertion
    fails they are dropped.  The record and the world are not touched. *)
Theorem queryVault_logs_warnings
    (s : State W) (client : Client) (w1 w2 : W) (vault : Secret) :
  api_NewClient {| Address := URL (receiver s) |} (outside s)
    = (Ok client, w1) ->
  Logical_Read (SetToken client (Token (receiver s)))
    (Mount (receiver s) +:+ "/data/" +:+ Path (receiver s)) w1
    = (Ok (Some vault), w2) ->
  calls (snd (queryVault s))
    = calls s
      ++ [CallNewClient {| Address := URL (receiver s) |} (Ok client);
          CallRead (SetToken client (Token (receiver s)))
            (Mount (receiver s) +:+ "/data/" +:+ Path (receiver s))
            (Ok (Some vault))]
      ++ match assertMap (Secret_Data vault !! "data") with
         | Some _ => List.map LogInfo (rev (Secret_Warnings vault))
         | None => []
         end
  /\ receiver (snd (queryVault s)) = receiver s
  /\ outside (snd (queryVault s)) = w2.
Proof.
  intros Hnew Hread.
  unfold queryVault, bind, gets, call.
  vault_step Hnew. vault_step Hread.
  match goal with
  | |- context [readProperty ?p ?v ?st] =>
      destruct (readProperty_log p v st) as (Hr & Ho & Hc)
  end.
  rewrite Hr, Ho, Hc. cbn [receiver outside calls].
  rewrite <- !List.app_assoc. repeat split.
Qed.

Lemma string_length_app (s t : string) :
  String.length (s +:+ t) = (String.length s + String.length t)%nat.
Proof.
  induction s as [|c s IH]; [reflexivity|].
  change (S (String.length (s +:+ t))
          = S (String.length s + String.length t)).
  now rewrite IH.
Qed.

Lemma string_app_inv_tail (s1 s2 t : string) :
  s1 +:+ t = s2 +:+ t -> s1 = s2.
Proof.
  revert s2. induction s1 as [|a s1 IH]; intros [|b s2] H.
  - reflexivity.
  - apply (f_equal String.length) in H.
    rewrite !string_length_app in H. cbn in H. lia.
  - apply (f_equal String.length) in H.
    rewrite !string_length_app in H. cbn in H. lia.
  - cbn in H. injection H as -> H. f_equal. now apply IH.
Qed.

(** X24: the check [len(vault.Data) == 0] never fires: on an answer that is
    a secret an empty payload already fails the type assertion, so the
    error [Vault data is empty] is never what [queryVault] returns (the
    property itself not being called [Vault data], whose own empty-value
    error reads the same). *)
Theorem queryVault_empty_check_is_dead
    (s : State W) (client : Client) (w1 w2 : W) (vault : Secret)
    (v : string) :
  api_NewClient {| Address := URL (receiver s) |} (outside s)
    = (Ok client, w1) ->
  Logical_Read (SetToken client (Token (receiver s)))
    (Mount (receiver s) +:+ "/data/" +:+ Path (receiver s)) w1
    = (Ok (Some vault), w2) ->
  Property (receiver s) <> "Vault data" ->
  fst (queryVault s) <> Returned (v, Some (errors_New "Vault data is empty")).
Proof.
  intros Hnew Hread Hprop.
  rewrite (queryVault_on_secret _ _ _ _ _ Hnew Hread).
  destruct (Secret_Data vault !! "data") as [x|] eqn:Hdata;
    [|cbn; discriminate].
  destruct (assertMap (Some x)) as [secret|]; [|discriminate].
  rewrite (size_of_inhabited _ _ _ Hdata).
  generalize (Property (receiver s)) Hprop. clear. intros property Hprop.
  induction secret as [|[k x] rest IH]; cbn [scanProps].
  - intros [= _ H]. pose proof (f_equal String.length H) as HL.
    rewrite string_length_app in HL. cbn in HL.
    destruct property as [|a [|b [|c p]]]; cbn in HL; try lia.
    cbn in H. discriminate H.
  - destruct (String.eqb k property); [|exact IH].
    destruct (Nat.leb (String.length (Sprintv x)) 0); [|discriminate].
    intros [= _ H]. apply Hprop.
    apply (string_app_inv_tail _ "Vault data" " is empty"). exact H.
Qed.

(** X25: [saveSecret] first removes the old file and ignores what the
    removal gives.  It returns no error exactly when the creation of the
    file and the one write of the whole value to the created file both
    succeed; when the creation fails nothing is written. *)
Theorem saveSecret_contract (path value : string) (s : State W) :
  (exists rm, head (drop (length (calls s))
                      (calls (snd (saveSecret path value s))))
              = Some (CallRemove path rm))
  /\ (fst (saveSecret path value s) = Returned None
      <-> exists file w2 w3,
            os_Create path (snd (os_Remove path (outside s)))
              = (Ok file, w2)
            /\ File_WriteString file value w2 = (None, w3))
  /\ count isWriteString (calls (snd (saveSecret path value s)))
     = (count isWriteString (calls s)
        + match fst (os_Create path (snd (os_Remove path (outside s)))) with
          | Ok _ => 1
          | Err _ => 0
          end)%nat.
Proof.
  unfold saveSecret, bind, call, log_Error, note, modify, ret.
  cbn [receiver outside calls].
  destruct (os_Remove path (outside s)) as [rm w1].
  cbn [receiver outside calls snd].
  destruct (os_Create path w1) as [[file|e] w2];
    cbn [receiver outside calls fst snd].
  - destruct (File_WriteString file value w2) as [[e|] w3] eqn:Hw;
      cbn [receiver outside calls fst snd];
      rewrite <- !List.app_assoc, drop_app_length; cbn [head app].
    + split; [eauto|]. split.
      * split; [discriminate|].
        intros (f & w2' & w3' & [= <- <-] & Hw'). congruence.
      * rewrite host_count_app. reflexivity.
    + split; [eauto|]. split.
      * split; [eauto|reflexivity].
      * rewrite host_count_app. reflexivity.
  - rewrite <- !List.app_assoc, drop_app_length; cbn [head app].
    split; [eauto|]. split.
    + split; [discriminate|]. intros (f & w2' & w3' & H & _). discriminate.
    + rewrite host_count_app. cbn. lia.
Qed.

End VaultAnswers.

(** *** The remaining examples of the secret cache *)

Section VaultAnswersExamples.

Import host vault fakehost samples.

Lemma GetVaultSecret_fails_fast_witness :
  fst (GetVaultSecret oscWithoutToken (start data0 freshHost))
    = Returned ("", Some (errors_New "VAULT_TOKEN is not set."))
  /\ calls (snd (GetVaultSecret oscWithoutToken (start data0 freshHost)))
     = [].
Proof.
  destruct (GetVaultSecret_fails_fast oscWithoutToken data0 freshHost)
    as ((err & Hrun & _) & Hcalls & _).
  - right. exists (delete "VAULT_TOKEN" vaultConfig), "VAULT_TOKEN".
    split; [reflexivity|]. split; [cbn; auto|].
    vm_compute. discriminate.
  - split; [|exact Hcalls]. vm_compute. reflexivity.
Defined.

Lemma GetVaultSecret_stores_connection_witness :
  receiver (snd (GetVaultSecret osc (start data0 lockedHost))) = data1.
Proof.
  apply (GetVaultSecret_stores_connection osc data0 data1 lockedHost).
  exact sample_resolves.
Defined.

Lemma other_resolves : resolves oscOther data0 dataOther.
Proof.
  exists otherVaultConfig, "https://vault2.example.com", "s.token", "kv",
    "key", "password", "osd/other".
  repeat split; vm_compute; reflexivity.
Qed.

Lemma GetVaultSecret_cache_shared_witness :
  fst (GetVaultSecret osc (start data0 freshHost))
    = Returned ("cached", None)
  /\ fst (GetVaultSecret oscOther (start data0 freshHost))
     = Returned ("cached", None)
  /\ count isNewClient
       (calls (snd (GetVaultSecret osc (start data0 freshHost)))) = 0%nat
  /\ count isNewClient
       (calls (snd (GetVaultSecret oscOther (start data0 freshHost))))
     = 0%nat.
Proof.
  apply (GetVaultSecret_cache_shared osc oscOther data0 data0 data1
           dataOther freshHost freshHost freshHost freshLog "cached").
  - exact sample_resolves.
  - exact other_resolves.
  - reflexivity.
  - reflexivity.
  - apply sample_fresh; reflexivity.
  - reflexivity.
Defined.

Lemma queryVault_property_value_witness :
  fst (queryVault (start data1 (answering nullAnswer)))
    = Returned ("<nil>", None)
  /\ fst (queryVault (start data1 (answering goodAnswer)))
     = Returned ("hunter2", None).
Proof.
  split.
  - refine (queryVault_property_value
              (start data1 (answering nullAnswer)) sampleVaultClient
              (answering nullAnswer) (answering nullAnswer) nullAnswer
              [("password", VNil)] VNil eq_refl eq_refl _ _).
    + vm_compute. reflexivity.
    + exists [], []. split; [reflexivity | intros kv []].
  - refine (queryVault_property_value
              (start data1 (answering goodAnswer)) sampleVaultClient
              (answering goodAnswer) (answering goodAnswer) goodAnswer
              [("password", VString "hunter2"); ("user", VString "sre")]
              (VString "hunter2") eq_refl eq_refl _ _).
    + vm_compute. reflexivity.
    + exists [], [("user", VString "sre")].
      split; [reflexivity | intros kv []].
Defined.

Lemma queryVault_property_absent_witness :
  fst (queryVault (start data1 (answering otherAnswer)))
    = Returned ("", Some (errors_New "password not set in vault")).
Proof.
  refine (queryVault_property_absent
            (start data1 (answering otherAnswer)) sampleVaultClient
            (answering otherAnswer) (answering otherAnswer) otherAnswer
            [("user", VString "sre")] eq_refl eq_refl _ _).
  - vm_compute. reflexivity.
  - intros kv [<- | []]. vm_compute. discriminate.
Defined.

Lemma queryVault_nil_secret_panics_witness :
  fst (queryVault (start data1 (withVaultAnswer (Ok None) bare)))
    = Panicked nil_dereference.
Proof.
  rewrite (queryVault_nil_secret_panics
             (start data1 (withVaultAnswer (Ok None) bare))
             sampleVaultClient
             (withVaultAnswer (Ok None) bare)
             (withVaultAnswer (Ok None) bare));
    reflexivity.
Defined.

Lemma queryVault_transport_errors_witness :
  fst (queryVault (start data1 downHost)) = Returned ("", Some unreachable).
Proof.
  apply (queryVault_transport_errors (start data1 downHost) unreachable
           downHost).
  right. exists sampleVaultClient, downHost. split; reflexivity.
Defined.

Lemma queryVault_logs_warnings_witness :
  calls (snd (queryVault (start data1 (answering warnedAnswer))))
    = [CallNewClient {| Address := "https://vault.example.com" |}
         (Ok sampleVaultClient);
       CallRead (SetToken sampleVaultClient "s.token")
         "kv/data/osd/pagerduty" (Ok (Some warnedAnswer));
       LogInfo "second"; LogInfo "first"].
Proof.
  destruct (queryVault_logs_warnings
              (start data1 (answering warnedAnswer)) sampleVaultClient
              (answering warnedAnswer) (answering warnedAnswer) warnedAnswer)
    as (Hcalls & _); [reflexivity..|].
  rewrite Hcalls. vm_compute. reflexivity.
Defined.

Lemma queryVault_empty_check_is_dead_witness :
  fst (queryVault (start data1 (answering (answer []))))
    <> Returned ("", Some (errors_New "Vault data is empty")).
Proof.
  apply (queryVault_empty_check_is_dead
           (start data1 (answering (answer []))) sampleVaultClient
           (answering (answer [])) (answering (answer [])) (answer []) "").
  - reflexivity.
  - reflexivity.
  - vm_compute. discriminate.
Defined.

Lemma saveSecret_contract_witness :
  fst (saveSecret cachePath "hunter2" (start data1 staleHost))
    = Returned None.
Proof.
  apply (proj1 (proj2 (saveSecret_contract cachePath "hunter2"
                         (start data1 staleHost)))).
  eexists _, _, _. split; vm_compute; reflexivity.
Defined.

End VaultAnswersExamples.
